(** * Coast2Cart backend: accounts, OTP ledger, items, sales and carts

    A shallow embedding of the Mongoose controllers and models of the
    Coast2Cart backend.  The database is a record of collections, each a
    list in natural (insertion) order, so that [findOne] returns the first
    matching document as MongoDB does.  Controllers run in a small
    state/error monad over the database: a thrown error keeps every write
    that happened before it, exactly as an [await]ed Mongoose write is not
    rolled back when a later step throws.

    Numbers (prices, quantities) are whole numbers, taken as exact
    integers [Z]: on them the [Number] arithmetic and comparisons of the
    code are exact, and a schema bound such as [min: 0.01] reads [> 0].
    Fractional quantities are outside the model.  Timestamps are milliseconds since the epoch, as [Date.now()] gives. *)

From Stdlib Require Import ZArith NArith List String Ascii Bool Lia QArith Qround.
Import ListNotations.

Open Scope Z_scope.

(** ** Errors (src/errors) *)

Inductive error : Type :=
| BadRequest (msg : string)
| Unauthenticated (msg : string)
| Unauthorized (msg : string)
| NotFound (msg : string)
| Conflict (msg : string)
| TooManyRequests (msg : string)
| ValidationError (msg : string)
| DocumentNotFoundError
| WriteFailed
| ReadFailed
| TypeError (msg : string).     (* a JavaScript runtime error, answered with 500 *)

Definition is_bad_request (e : error) : bool :=
  match e with BadRequest _ => true | _ => false end.

Definition is_conflict (e : error) : bool :=
  match e with Conflict _ => true | _ => false end.

Definition is_unauthenticated (e : error) : bool :=
  match e with Unauthenticated _ => true | _ => false end.

(** ** Data model (src/models, unnamed/part_008, unnamed/part_009) *)

Inductive role : Type := buyer | seller | admin | superadmin.

Definition role_eqb (a b : role) : bool :=
  match a, b with
  | buyer, buyer | seller, seller | admin, admin
  | superadmin, superadmin => true
  | _, _ => false
  end.

Inductive approval : Type := pending | approved | rejected.

Record Account : Type := mkAccount {
  acc_id : N;
  username : string;
  email : string;
  contactNo : string;
  password : string;            (* the stored bcrypt hash *)
  role_of : role;
  isVerified : bool;
  sellerApprovalStatus : option approval;
  approvedBy : option N;
  approvedAt : option Z
}.

Record Item : Type := mkItem {
  item_id : N;
  item_seller : N;
  itemName : string;
  itemPrice : Z;
  quantity : Z;
  isActive : bool;
  image : string
}.

(** The sold-item record ("Receipt", unnamed/part_008). *)
Record Receipt : Type := mkReceipt {
  rc_id : N;
  rc_item : N;
  rc_seller : N;
  rc_buyer : N;
  rc_itemName : string;
  rc_itemPrice : Z;
  rc_quantitySold : Z;
  rc_totalAmount : Z;
  rc_image : string;
  rc_notes : string
}.

(** OTP documents (unnamed/part_009); [createdAt] is the Mongoose timestamp. *)
Record OTP : Type := mkOTP {
  otp_id : N;
  userId : N;
  otp : string;
  expiresAt : Z;
  createdAt : Z
}.

Record CartLine : Type := mkLine {
  line_item : N;
  line_quantity : Z
}.

Record Cart : Type := mkCart {
  cart_user : N;
  cart_items : list CartLine
}.

Record DB : Type := mkDB {
  accounts : list Account;
  items : list Item;
  receipts : list Receipt;
  otps : list OTP;
  carts : list Cart;
  next_id : N                   (* source of fresh ObjectIds *)
}.

Definition set_accounts (l : list Account) (d : DB) : DB :=
  mkDB l (items d) (receipts d) (otps d) (carts d) (next_id d).
Definition set_items (l : list Item) (d : DB) : DB :=
  mkDB (accounts d) l (receipts d) (otps d) (carts d) (next_id d).
Definition set_receipts (l : list Receipt) (d : DB) : DB :=
  mkDB (accounts d) (items d) l (otps d) (carts d) (next_id d).
Definition set_otps (l : list OTP) (d : DB) : DB :=
  mkDB (accounts d) (items d) (receipts d) l (carts d) (next_id d).
Definition set_carts (l : list Cart) (d : DB) : DB :=
  mkDB (accounts d) (items d) (receipts d) (otps d) l (next_id d).
Definition bump_id (d : DB) : DB :=
  mkDB (accounts d) (items d) (receipts d) (otps d) (carts d) (N.succ (next_id d)).

(** ** The controller monad: state over the database, with errors *)

Inductive res (A : Type) : Type :=
| Ok (a : A)
| Err (e : error).
Arguments Ok {A} a.
Arguments Err {A} e.

Definition M (A : Type) : Type := DB -> DB * res A.

Definition ret {A} (a : A) : M A := fun d => (d, Ok a).
Definition throw {A} (e : error) : M A := fun d => (d, Err e).
Definition bind {A B} (m : M A) (k : A -> M B) : M B :=
  fun d => match m d with
           | (d', Ok a) => k a d'
           | (d', Err e) => (d', Err e)
           end.
Definition get : M DB := fun d => (d, Ok d).
Definition put (d : DB) : M unit := fun _ => (d, Ok tt).
Definition modify (f : DB -> DB) : M unit := fun d => (f d, Ok tt).
(** A fresh ObjectId. *)
Definition fresh_id : M N := fun d => (bump_id d, Ok (next_id d)).

Notation "x <- m ;; k" := (bind m (fun x => k))
  (at level 61, m at next level, right associativity).

(** ** Queries *)

Definition findItemById (id : N) (d : DB) : option Item :=
  find (fun it => N.eqb (item_id it) id) (items d).

Definition findAccountById (id : N) (d : DB) : option Account :=
  find (fun a => N.eqb (acc_id a) id) (accounts d).

(** [doc.save()] on a loaded document: replaces the stored document with
    the same id (its modified paths are written). *)
Definition replace_item (it : Item) (l : list Item) : list Item :=
  map (fun x => if N.eqb (item_id x) (item_id it) then it else x) l.

Definition replace_account (a : Account) (l : list Account) : list Account :=
  map (fun x => if N.eqb (acc_id x) (acc_id a) then a else x) l.

(** ** JavaScript strings

    Strings are the UTF-8 bytes of the JavaScript string.  [trim()] removes
    the WhiteSpace and LineTerminator code points at both ends, and
    [length] counts UTF-16 code units (two for a code point above U+FFFF,
    which UTF-8 writes in four bytes). *)

(** The bytes of one code point, read off the lead byte. *)
Fixpoint utf8_chars (l : list ascii) : list (list ascii) :=
  match l with
  | [] => []
  | b0 :: r0 =>
      if (N_of_ascii b0 <? 192)%N then [b0] :: utf8_chars r0
      else match r0 with
        | [] => [[b0]]
        | b1 :: r1 =>
            if (N_of_ascii b0 <? 224)%N then [b0; b1] :: utf8_chars r1
            else match r1 with
              | [] => [[b0; b1]]
              | b2 :: r2 =>
                  if (N_of_ascii b0 <? 240)%N then [b0; b1; b2] :: utf8_chars r2
                  else match r2 with
                    | [] => [[b0; b1; b2]]
                    | b3 :: r3 => [b0; b1; b2; b3] :: utf8_chars r3
                    end
              end
        end
  end.

Definition code_point (ch : list ascii) : N :=
  match map N_of_ascii ch with
  | [b0] => b0
  | [b0; b1] => (b0 - 192) * 64 + (b1 - 128)
  | [b0; b1; b2] => (b0 - 224) * 4096 + (b1 - 128) * 64 + (b2 - 128)
  | [b0; b1; b2; b3] =>
      (b0 - 240) * 262144 + (b1 - 128) * 4096 + (b2 - 128) * 64 + (b3 - 128)
  | _ => 0
  end%N.

(** WhiteSpace (U+0009, U+000B, U+000C, U+0020, U+00A0, U+FEFF and the
    space separators U+1680, U+2000-U+200A, U+202F, U+205F, U+3000) and
    LineTerminator (U+000A, U+000D, U+2028, U+2029). *)
Definition js_whitespace (c : N) : bool :=
  existsb (N.eqb c) [9; 10; 11; 12; 13; 32; 160; 5760; 8232; 8233; 8239; 8287; 12288; 65279]%N
  || ((8192 <=? c) && (c <=? 8202))%N.

Fixpoint drop_spaces (l : list (list ascii)) : list (list ascii) :=
  match l with
  | ch :: r => if js_whitespace (code_point ch) then drop_spaces r else l
  | [] => []
  end.

Definition js_trim (s : string) : string :=
  string_of_list_ascii
    (List.concat (rev (drop_spaces (rev (drop_spaces (utf8_chars (list_ascii_of_string s))))))).

Definition js_length (s : string) : nat :=
  fold_right (fun ch n => ((if Nat.eqb (List.length ch) 4 then 2 else 1) + n)%nat) 0%nat
    (utf8_chars (list_ascii_of_string s)).

(** ** sellItem (src/controllers/itemController.js, 444-528)

    Split in the three steps the controller awaits one after the other,
    so that the sequential call and interleavings of concurrent calls use
    the same code: the reads and checks, [receipt.save()], [item.save()],
    and the [receipt.populate] read that builds the response. *)

(** Lines 450-478: [Item.findById], the owner, active and quantity checks,
    [Account.findById(buyerId)].  Returns the loaded item document. *)
Definition sell_check (itemId caller : N) (quantitySold : Z) (buyerId : N)
  : M Item :=
  d <- get ;;
  match findItemById itemId d with
  | None => throw (NotFound "Item not found")
  | Some item =>
      if negb (N.eqb (item_seller item) caller) then
        throw (Unauthorized "You can only sell your own items")
      else if negb (isActive item) then
        throw (BadRequest "Cannot sell inactive item")
      else if quantitySold >? quantity item then
        throw (BadRequest "Insufficient quantity available")
      else
        match findAccountById buyerId d with
        | None => throw (NotFound "Buyer not found")
        | Some _ => ret item
        end
  end.

(** Lines 481-497: [new Receipt({...})] and [await receipt.save()].
    Schema validation (unnamed/part_008): [quantitySold] has [min: 0.01],
    on whole numbers [quantitySold > 0]; [notes] is trimmed by its setter
    and has [maxLength: 200].  Mongoose reports every failing path in one
    ValidationError; the model keeps the message of the first.  The other
    fields are copied from the item, whose schema already requires them.
    [fails] models a failing database write. *)
Definition sell_write_receipt (fails : bool) (item : Item) (buyerId : N)
  (quantitySold : Z) (notes : string) : M Receipt :=
  if quantitySold <=? 0 then
    throw (ValidationError "Quantity sold must be greater than 0")
  else if (200 <? js_length (js_trim notes))%nat then
    throw (ValidationError "Notes cannot exceed 200 characters")
  else if fails then throw WriteFailed
  else
    rid <- fresh_id ;;
    let rc := mkReceipt rid (item_id item) (item_seller item) buyerId
                (itemName item) (itemPrice item) quantitySold
                (itemPrice item * quantitySold) (image item) (js_trim notes) in
    _ <- modify (fun d => set_receipts (receipts d ++ [rc]) d) ;;
    ret rc.

(** Lines 499-506: [item.quantity -= quantitySold], [isActive = false] when
    the result is [<= 0], [await item.save()].  The loaded document was
    read in [sell_check]; Mongoose writes its modified paths ([quantity],
    and [isActive] when it was flipped) over the stored document, after
    validating [quantity >= 0]. *)
Definition sell_write_item (fails : bool) (item : Item) (quantitySold : Z)
  : M unit :=
  let newq := quantity item - quantitySold in
  if newq <? 0 then throw (ValidationError "Quantity cannot be negative")
  else if fails then throw WriteFailed
  else
    d <- get ;;
    match findItemById (item_id item) d with
    | None => throw DocumentNotFoundError
    | Some cur =>
        let cur' := mkItem (item_id cur) (item_seller cur) (itemName cur)
                      (itemPrice cur) newq
                      (if newq <=? 0 then false else isActive cur)
                      (image cur) in
        put (set_items (replace_item cur' (items d)) d)
    end.

(** Lines 509-518: [await receipt.populate([...])] reads the seller and
    buyer accounts into the response; an account that is gone is
    populated as [null], so only a failing database read ends in an
    error.  Nothing is written.  The populated fields are not modelled. *)
Definition receipt_populate (fails : bool) (rc : Receipt) : M Receipt :=
  if fails then throw ReadFailed else ret rc.

(** Which of the database operations of a sale fail. *)
Record faults : Type := mkFaults {
  receipt_write_fails : bool;
  item_write_fails : bool;
  populate_fails : bool
}.


Definition sellItem (f : faults) (itemId caller : N) (quantitySold : Z)
  (buyerId : N) (notes : string) : M Receipt :=
  item <- sell_check itemId caller quantitySold buyerId ;;
  rc <- sell_write_receipt (receipt_write_fails f) item buyerId quantitySold notes ;;
  _ <- sell_write_item (item_write_fails f) item quantitySold ;;
  receipt_populate (populate_fails f) rc.

(** ** Concurrent sales

    Each request is handled independently; the three awaited steps of
    [sellItem] of two requests may interleave.  A request is in one of
    the phases below; [sell_step] runs its next step against the shared
    database.  The [receipt.populate] read after the item write neither
    writes nor, without a fault, fails, so a request is done once its
    item write has run. *)

Record sell_req : Type := mkSellReq {
  req_item : N;
  req_caller : N;
  req_quantity : Z;
  req_buyer : N;
  req_notes : string
}.

Inductive sell_phase : Type :=
| SStart
| SChecked (item : Item)
| SReceipted (item : Item) (rc : Receipt)
| SDone (r : res Receipt).

Definition sell_step (rq : sell_req) (ph : sell_phase) (d : DB)
  : DB * sell_phase :=
  match ph with
  | SStart =>
      match sell_check (req_item rq) (req_caller rq) (req_quantity rq)
              (req_buyer rq) d with
      | (d', Ok item) => (d', SChecked item)
      | (d', Err e) => (d', SDone (Err e))
      end
  | SChecked item =>
      match sell_write_receipt false item (req_buyer rq) (req_quantity rq)
              (req_notes rq) d with
      | (d', Ok rc) => (d', SReceipted item rc)
      | (d', Err e) => (d', SDone (Err e))
      end
  | SReceipted item rc =>
      match sell_write_item false item (req_quantity rq) d with
      | (d', Ok _) => (d', SDone (Ok rc))
      | (d', Err e) => (d', SDone (Err e))
      end
  | SDone r => (d, SDone r)
  end.

Record sys2 : Type := mkSys2 {
  sys_db : DB;
  phase_a : sell_phase;
  phase_b : sell_phase
}.

(** A schedule says which request takes the next step: [true] for the
    first, [false] for the second. *)
Fixpoint run2 (ra rb : sell_req) (sched : list bool) (s : sys2) : sys2 :=
  match sched with
  | [] => s
  | true :: rest =>
      let '(d', pa) := sell_step ra (phase_a s) (sys_db s) in
      run2 ra rb rest (mkSys2 d' pa (phase_b s))
  | false :: rest =>
      let '(d', pb) := sell_step rb (phase_b s) (sys_db s) in
      run2 ra rb rest (mkSys2 d' (phase_a s) pb)
  end.

Definition items_nonneg (d : DB) : Prop :=
  Forall (fun it => 0 <= quantity it) (items d).

(** ** Strings *)

Definition lower_ascii (c : ascii) : ascii :=
  let n := nat_of_ascii c in
  if (65 <=? n)%nat && (n <=? 90)%nat then ascii_of_nat (n + 32) else c.

(** [String.prototype.toLowerCase], on the ASCII letters. *)
Fixpoint toLowerCase (s : string) : string :=
  match s with
  | EmptyString => EmptyString
  | String c r => String (lower_ascii c) (toLowerCase r)
  end.

Fixpoint includes_char (c : ascii) (s : string) : bool :=
  match s with
  | EmptyString => false
  | String x r => Ascii.eqb x c || includes_char c r
  end.

(** [s.split(c)] for a one-character separator. *)
Fixpoint split_on (c : ascii) (s : string) : list string :=
  match s with
  | EmptyString => [EmptyString]
  | String x r =>
      if Ascii.eqb x c then EmptyString :: split_on c r
      else match split_on c r with
           | [] => [String x EmptyString]
           | w :: ws => String x w :: ws
           end
  end.

(** [s.replace(/\./g, "")]. *)
Fixpoint remove_dots (s : string) : string :=
  match s with
  | EmptyString => EmptyString
  | String x r =>
      if Ascii.eqb x "." then remove_dots r else String x (remove_dots r)
  end.

(** [normalizeEmail] (unnamed/part_007, 18-31). *)
Definition normalizeEmail (email : string) : string :=
  let parts := split_on "@" (toLowerCase email) in
  let localPart := nth 0 parts EmptyString in
  match nth_error parts 1 with
  | Some domain =>
      if String.eqb domain "gmail.com" || String.eqb domain "googlemail.com"
      then (remove_dots localPart ++ "@" ++ domain)%string
      else toLowerCase email
  | None => toLowerCase email
  end.

(** [Number.prototype.toString()] on integers: decimal digits. *)
Definition digit_char (n : N) : ascii := ascii_of_N (48 + n).

Fixpoint digits_aux (fuel : nat) (n : N) (acc : string) : string :=
  match fuel with
  | O => acc
  | S f =>
      let acc' := String (digit_char (n mod 10)) acc in
      if (n <? 10)%N then acc' else digits_aux f (n / 10) acc'
  end.

Definition N_toString (n : N) : string := digits_aux (S (N.size_nat n)) n "".

Definition Z_toString (z : Z) : string :=
  if z <? 0 then String "-" (N_toString (Z.to_N (- z)))
  else N_toString (Z.to_N z).

Definition is_digit (c : ascii) : bool :=
  (48 <=? N_of_ascii c)%N && (N_of_ascii c <=? 57)%N.

(** The OTP schema's [match: /^\d+$/]. *)
Fixpoint all_digits (s : string) : bool :=
  match s with
  | EmptyString => false
  | String c EmptyString => is_digit c
  | String c r => is_digit c && all_digits r
  end.

(** ** PhilSMS service (unnamed/part_002) *)

(** [generateOTP] (26-28): [Math.floor(100000 + Math.random() * 900000)
    .toString()]; [r] is the value of [Math.random()], a number in [0, 1),
    taken here as an exact rational. *)
Definition generateOTP (r : Q) : string :=
  Z_toString (Qfloor (inject_Z 100000 + r * inject_Z 900000)).

(** [verifyOTP] (115-121), at the current time [now]. *)
Definition philsms_verifyOTP (storedOTP inputOTP : string) (expiresAt now : Z)
  : bool :=
  let isExpired := now >? expiresAt in
  let isMatch := String.eqb storedOTP inputOTP in
  negb isExpired && isMatch.

(** [s.replace(/\D/g, "")]: keep the ASCII digits. *)
Fixpoint keep_digits (s : string) : string :=
  match s with
  | EmptyString => EmptyString
  | String c r => if is_digit c then String c (keep_digits r) else keep_digits r
  end.

(** [formatPhoneNumber] (89-110); [startsWith] is [String.prefix]. *)
Definition formatPhoneNumber (phoneNumber : string) : string :=
  let cleaned := keep_digits phoneNumber in
  if String.prefix "9" cleaned && Nat.eqb (String.length cleaned) 10 then
    ("63" ++ cleaned)%string
  else if String.prefix "0" cleaned then
    ("63" ++ substring 1 (String.length cleaned - 1) cleaned)%string
  else if negb (String.prefix "+63" cleaned) then
    ("63" ++ cleaned)%string
  else cleaned.

(** ** Accounts and OTP records in the store *)

(** The session token of [generateToken(account._id)]. *)
Record session_token : Type := generateToken { token_subject : N }.

Definition findAccountByContact (c : string) (d : DB) : option Account :=
  find (fun a => String.eqb (contactNo a) c) (accounts d).

(** [OTP.findOne({ userId }).sort({ createdAt: -1 })]: the record of the
    user with the latest [createdAt] (the first one among equals). *)
Definition pick_latest (uid : N) (best : option OTP) (o : OTP) : option OTP :=
  if N.eqb (userId o) uid then
    match best with
    | None => Some o
    | Some b => if createdAt o >? createdAt b then Some o else best
    end
  else best.

Definition latest_otp (uid : N) (d : DB) : option OTP :=
  fold_left (pick_latest uid) (otps d) None.

Definition otps_of (uid : N) (d : DB) : list OTP :=
  filter (fun o => N.eqb (userId o) uid) (otps d).

Definition otps_not_of (uid : N) (d : DB) : list OTP :=
  filter (fun o => negb (N.eqb (userId o) uid)) (otps d).

(** Every OTP record is created with [expiresAt = now + 5 * 60 * 1000]
    and [createdAt = now]. *)
Definition otp_lifetimes (d : DB) : Prop :=
  Forall (fun o => expiresAt o = createdAt o + 300000) (otps d).

(** [Account.findOne] and [Account.findById] hydrate the stored document
    ([init]): a path the stored document lacks gets its schema default.
    Of the fields modelled here only [sellerApprovalStatus] can be missing
    (the pre-save hook clears it on non-sellers), and its default is
    ["pending"]; [approvedBy] and [approvedAt] have no default.  A path
    filled in this way is written back by the next [save()] of the
    document, as Mongoose also saves the non-null paths in the default
    state. *)
Definition account_init (a : Account) : Account :=
  mkAccount (acc_id a) (username a) (email a) (contactNo a) (password a)
    (role_of a) (isVerified a)
    (match sellerApprovalStatus a with None => Some pending | Some s => Some s end)
    (approvedBy a) (approvedAt a).

Definition with_verified (a : Account) : Account :=
  mkAccount (acc_id a) (username a) (email a) (contactNo a) (password a)
    (role_of a) true (sellerApprovalStatus a) (approvedBy a) (approvedAt a).

(** [account.save()] of the loaded account after setting [isVerified]: the
    pre-save hook changes nothing, as neither the password nor the role is
    modified; the document, defaults included, replaces the stored one. *)
Definition save_account (a : Account) : M unit :=
  modify (fun d => set_accounts (replace_account a (accounts d)) d).

(** [OTP.findByIdAndDelete(id)]. *)
Definition delete_otp (id : N) : M unit :=
  modify (fun d => set_otps (filter (fun o => negb (N.eqb (otp_id o) id)) (otps d)) d).

(** [OTP.deleteMany({ userId })]. *)
Definition delete_otps_of (uid : N) : M unit :=
  modify (fun d => set_otps (otps_not_of uid d) d).

(** [OTP.create({ userId, otp, expiresAt })] at time [now], with the schema
    validation of the code. *)
Definition create_otp (now : Z) (uid : N) (code : string) (exp : Z) : M OTP :=
  if negb (all_digits code) then throw (ValidationError "OTP must contain only digits")
  else
    id <- fresh_id ;;
    let o := mkOTP id uid code exp now in
    _ <- modify (fun d => set_otps (otps d ++ [o]) d) ;;
    ret o.

(** ** verifyOTP controller (unnamed/part_007, 141-207) *)

Definition verifyOTP (now : Z) (contact code : string) : M session_token :=
  d <- get ;;
  match option_map account_init (findAccountByContact contact d) with
  | None => throw (NotFound "Account not found with this contact number")
  | Some account =>
      if isVerified account then throw (BadRequest "Account is already verified")
      else
        match latest_otp (acc_id account) d with
        | None => throw (BadRequest "No OTP found. Please request a new one")
        | Some otpRecord =>
            if negb (philsms_verifyOTP (otp otpRecord) code (expiresAt otpRecord) now)
            then throw (BadRequest "Invalid or expired OTP")
            else
              _ <- save_account (with_verified account) ;;
              _ <- delete_otp (otp_id otpRecord) ;;
              ret (generateToken (acc_id account))
        end
  end.

(** ** resendOTP controller (unnamed/part_007, 303-348)

    [Math.ceil(ms / 1000)] for the remaining positive milliseconds. *)
Definition resendOTP (now : Z) (r : Q) (contact : string) : M unit :=
  d <- get ;;
  match findAccountByContact contact d with
  | None => throw (NotFound "Account not found with this contact number")
  | Some account =>
      if isVerified account then throw (BadRequest "Account is already verified")
      else
        _ <- match latest_otp (acc_id account) d with
        | Some lastOtp =>
            if expiresAt lastOtp >? now then
              throw (TooManyRequests
                ("Please wait " ++ Z_toString ((expiresAt lastOtp - now + 999) / 1000)
                 ++ " seconds before requesting a new OTP"))
            else ret tt
        | None => ret tt
        end ;;
        let otpCode := generateOTP r in
        let exp := now + 5 * 60 * 1000 in
        _ <- delete_otps_of (acc_id account) ;;
        _ <- create_otp now (acc_id account) otpCode exp ;;
        ret tt
  end.

(** ** Account documents (src/models/Accounts.js)

    [new Account(fields)] fills the fields that are absent with the schema
    defaults: [role] ["buyer"], [isVerified] [false] and
    [sellerApprovalStatus] ["pending"] (an unconditional default); the
    [lowercase: true] option lowercases [username] and [email].  On a new
    document the paths given to the constructor are the modified ones;
    defaulted paths are not. *)

Record AccountInput : Type := mkAccountInput {
  in_username : string;
  in_email : string;
  in_contactNo : string;
  in_password : string;
  in_role : option role;
  in_isVerified : option bool;
  in_sellerApprovalStatus : option approval
}.

Definition new_account (id : N) (x : AccountInput) : Account :=
  mkAccount id (toLowerCase (in_username x)) (toLowerCase (in_email x))
    (in_contactNo x) (in_password x)
    (match in_role x with Some r => r | None => buyer end)
    (match in_isVerified x with Some b => b | None => false end)
    (match in_sellerApprovalStatus x with Some s => Some s | None => Some pending end)
    None None.

Definition set_password (h : string) (a : Account) : Account :=
  mkAccount (acc_id a) (username a) (email a) (contactNo a) h
    (role_of a) (isVerified a) (sellerApprovalStatus a) (approvedBy a) (approvedAt a).

Definition set_approval (st : option approval) (by_ : option N) (at_ : option Z)
  (a : Account) : Account :=
  mkAccount (acc_id a) (username a) (email a) (contactNo a) (password a)
    (role_of a) (isVerified a) st by_ at_.

(** [accountSchema.pre("save")] (83-107); [hash] is bcrypt with a fresh
    salt. *)
Definition accountPreSave (hash : string -> string)
  (passwordModified roleModified : bool) (a : Account) : Account :=
  let a1 := if passwordModified then set_password (hash (password a)) a else a in
  if roleModified then
    if role_eqb (role_of a1) seller
    then set_approval (Some pending) (approvedBy a1) (approvedAt a1) a1
    else set_approval None None None a1
  else a1.

(** The approval fields agree with the role: [sellerApprovalStatus] is
    set exactly on sellers. *)
Definition approval_invariant (a : Account) : Prop :=
  sellerApprovalStatus a <> None <-> role_of a = seller.

(** What the account writes keep: a seller has a [sellerApprovalStatus];
    any other account has none or the default ["pending"], and neither
    [approvedBy] nor [approvedAt]. *)
Definition approval_fields_ok (a : Account) : Prop :=
  (role_of a = seller -> sellerApprovalStatus a <> None) /\
  (role_of a <> seller ->
     (sellerApprovalStatus a = None \/ sellerApprovalStatus a = Some pending) /\
     approvedBy a = None /\ approvedAt a = None).

(** The [contactNo] pattern [/^9\d{9}$/]. *)
Definition is_ph_mobile (s : string) : bool :=
  match s with
  | String c _ => Ascii.eqb c "9" && Nat.eqb (String.length s) 10 && all_digits s
  | EmptyString => false
  end.

(** [Account.create(fields)]: construct, validate ([contactNo] pattern,
    password [minLength: 8]), run the pre-save hook, insert (the unique
    indexes refuse a duplicate username, email or contact number). *)
Definition account_create (hash : string -> string) (x : AccountInput) : M Account :=
  d <- get ;;
  let a0 := new_account (next_id d) x in
  if negb (is_ph_mobile (contactNo a0)) then
    throw (ValidationError "Please provide a valid Philippine phone number starting with 9")
  else if (String.length (password a0) <? 8)%nat then
    throw (ValidationError "Password must be at least 8 characters long")
  else if existsb (fun b => String.eqb (username b) (username a0)
                            || String.eqb (email b) (email a0)
                            || String.eqb (contactNo b) (contactNo a0)) (accounts d) then
    throw (Conflict "E11000 duplicate key error")
  else
    let a := accountPreSave hash true (match in_role x with Some _ => true | None => false end) a0 in
    _ <- put (set_accounts (accounts d ++ [a]) (bump_id d)) ;;
    ret a.

(** [doc.save()] on a loaded account, with the paths set since loading. *)
Definition account_save (hash : string -> string)
  (passwordModified roleModified : bool) (a : Account) : M Account :=
  let a' := accountPreSave hash passwordModified roleModified a in
  _ <- modify (fun d => set_accounts (replace_account a' (accounts d)) d) ;;
  ret a'.

(** ** login (unnamed/part_007, 212-298) *)

Definition login_match (identifier : string) (a : Account) : bool :=
  let normalizedIdentifier :=
    if includes_char "@" identifier then normalizeEmail identifier
    else toLowerCase identifier in
  String.eqb (username a) (toLowerCase identifier)
  || String.eqb (email a) normalizedIdentifier
  || String.eqb (contactNo a) identifier.

Definition login_lookup (identifier : string) (d : DB) : option Account :=
  find (login_match identifier) (accounts d).

Definition msg_pending : string :=
  "Your seller account is pending approval. Please wait for administrator review.".
Definition msg_rejected : string :=
  "Your seller account has been rejected. Please contact support for more information.".

(** [comparePassword] is [bcrypt.compare(candidate, storedHash)]. *)
Definition login (comparePassword : string -> string -> bool)
  (identifier pw : string) : M session_token :=
  d <- get ;;
  match option_map account_init (login_lookup identifier d) with
  | None => throw (NotFound "Account does not exist")
  | Some account =>
      if negb (isVerified account) then
        throw (Unauthenticated "Account not verified. Please verify your phone number first.")
      else
        _ <- (if role_eqb (role_of account) seller then
                match sellerApprovalStatus account with
                | Some pending => throw (Unauthenticated msg_pending)
                | Some rejected => throw (Unauthenticated msg_rejected)
                | _ => ret tt
                end
              else ret tt) ;;
        if negb (comparePassword pw (password account)) then
          throw (Unauthenticated "Invalid username/email/phone number and password")
        else ret (generateToken (acc_id account))
  end.

(** ** signup (unnamed/part_007, 36-136) *)

Definition parse_signup_role (s : string) : option role :=
  if String.eqb s "buyer" then Some buyer
  else if String.eqb s "seller" then Some seller
  else None.

Definition signup (hash : string -> string) (now : Z) (r : Q)
  (uname mail contact pw confirmPassword roleName : string) : M N :=
  match parse_signup_role roleName with
  | None => throw (BadRequest "Role must be either 'buyer' or 'seller'")
  | Some rl =>
      if negb (String.eqb pw confirmPassword) then
        throw (BadRequest "Passwords do not match")
      else
        d <- get ;;
        match find (fun a => String.eqb (username a) (toLowerCase uname)
                             || String.eqb (email a) (toLowerCase mail)
                             || String.eqb (contactNo a) contact) (accounts d) with
        | Some existing =>
            if negb (isVerified existing) then
              throw (Conflict "Account exists but is not verified. Please verify your phone number first.")
            else
              throw (Conflict "Account with the provided username, email, or contact number already exists")
        | None =>
            account <- account_create hash
              (mkAccountInput (toLowerCase uname) (toLowerCase mail) contact pw
                 (Some rl) (Some false) None) ;;
            let otpCode := generateOTP r in
            let exp := now + 5 * 60 * 1000 in
            _ <- create_otp now (acc_id account) otpCode exp ;;
            ret (acc_id account)
        end
  end.

(** ** createAdminAccount (src/controllers/authController.js, 268-342) *)

Definition createAdminAccount (hash : string -> string)
  (uname mail contact pw confirmPassword : string) : M Account :=
  if negb (String.eqb pw confirmPassword) then
    throw (BadRequest "Passwords do not match")
  else
    d <- get ;;
    if existsb (fun a => String.eqb (username a) (toLowerCase uname)) (accounts d) then
      throw (Conflict "Username already exists")
    else if existsb (fun a => String.eqb (email a) (toLowerCase mail)) (accounts d) then
      throw (Conflict "Email already exists")
    else if existsb (fun a => String.eqb (contactNo a) contact) (accounts d) then
      throw (Conflict "Contact number already exists")
    else
      account_create hash
        (mkAccountInput (toLowerCase uname) (toLowerCase mail) contact pw
           (Some admin) (Some true) None).

(** ** updateSellerApprovalStatus (src/controllers/authController.js, 647-695) *)

(** The filter [{ _id: sellerId, role: "seller",
    sellerApprovalStatus: "pending" }].  The document it finds has a
    [sellerApprovalStatus], so hydrating it adds no default. *)
Definition pending_seller_filter (sellerId : N) (a : Account) : bool :=
  N.eqb (acc_id a) sellerId && role_eqb (role_of a) seller
  && match sellerApprovalStatus a with
     | Some pending => true
     | _ => false
     end.

Definition updateSellerApprovalStatus (hash : string -> string) (now : Z)
  (adminId sellerId : N) (status : string) : M Account :=
  let st := if String.eqb status "approved" then Some approved
            else if String.eqb status "rejected" then Some rejected
            else None in
  match st with
  | None => throw (BadRequest "Status must be either 'approved' or 'rejected'")
  | Some s =>
      d <- get ;;
      match find (pending_seller_filter sellerId) (accounts d) with
      | None => throw (NotFound "Pending seller account not found")
      | Some sellerAccount =>
          account_save hash false false
            (set_approval (Some s) (Some adminId) (Some now) sellerAccount)
      end
  end.

(** ** Profile updates (src/controllers/authController.js: updateAdminAccount
    418-505, updateUserProfile 735-823)

    The fields [firstName], [lastName], [dateOfBirth] and [address] are
    not modelled.  A field of the request body is a string, [""] standing
    for a missing one: the code only tests each for truthiness before
    using it. *)

Definition is_given (s : string) : bool := negb (String.eqb s "").

(** [Account.findOne({ <field>: value, _id: { $ne: self } })]. *)
Definition exists_other (self : N) (p : Account -> bool) (d : DB) : bool :=
  existsb (fun b => p b && negb (N.eqb (acc_id b) self)) (accounts d).

(** The three conflict checks, in the order of the code. *)
Definition profile_conflict (self : N) (acc : Account) (uname mail contact : string)
  (d : DB) : option error :=
  if is_given uname && negb (String.eqb (toLowerCase uname) (username acc))
     && exists_other self (fun b => String.eqb (username b) (toLowerCase uname)) d
  then Some (Conflict "Username already exists")
  else if is_given mail && negb (String.eqb (toLowerCase mail) (email acc))
     && exists_other self (fun b => String.eqb (email b) (toLowerCase mail)) d
  then Some (Conflict "Email already exists")
  else if is_given contact && negb (String.eqb contact (contactNo acc))
     && exists_other self (fun b => String.eqb (contactNo b) contact) d
  then Some (Conflict "Contact number already exists")
  else None.

(** The assignments [if (username) account.username = username.toLowerCase()]
    and the like. *)
Definition apply_profile (uname mail contact : string) (a : Account) : Account :=
  mkAccount (acc_id a)
    (if is_given uname then toLowerCase uname else username a)
    (if is_given mail then toLowerCase mail else email a)
    (if is_given contact then contact else contactNo a)
    (password a) (role_of a) (isVerified a)
    (sellerApprovalStatus a) (approvedBy a) (approvedAt a).

(** [await account.save()] of the updated document: the [contactNo]
    pattern is validated (the stored password is a bcrypt hash, which
    passes [minLength: 8]), then the pre-save hook runs with neither
    [password] nor [role] modified and the document is written. *)
Definition profile_save (hash : string -> string) (a : Account) : M Account :=
  if negb (is_ph_mobile (contactNo a)) then
    throw (ValidationError "Please provide a valid Philippine phone number starting with 9")
  else account_save hash false false a.

(** [userId] is [req.user._id], the authenticated account. *)
Definition updateUserProfile (hash : string -> string) (userId : N)
  (uname mail contact : string) : M Account :=
  d <- get ;;
  match option_map account_init (findAccountById userId d) with
  | None => throw (NotFound "User account not found")
  | Some userAccount =>
      match profile_conflict userId userAccount uname mail contact d with
      | Some e => throw e
      | None => profile_save hash (apply_profile uname mail contact userAccount)
      end
  end.

Definition updateAdminAccount (hash : string -> string) (adminId : N)
  (uname mail contact : string) : M Account :=
  d <- get ;;
  match option_map account_init
          (find (fun a => N.eqb (acc_id a) adminId && role_eqb (role_of a) admin)
             (accounts d)) with
  | None => throw (NotFound "Admin account not found")
  | Some adminAccount =>
      match profile_conflict adminId adminAccount uname mail contact d with
      | Some e => throw e
      | None => profile_save hash (apply_profile uname mail contact adminAccount)
      end
  end.

(** ** Carts (src/models/Cart.js; src/controllers/authController.js, 849-997)

    Quantities are whole numbers here, where the [Number] sums and
    comparisons of the code are exact. *)

(** [Cart.findOne({ user })]. *)
Definition findCart (uid : N) (d : DB) : option Cart :=
  find (fun c => N.eqb (cart_user c) uid) (carts d).

(** [cart.findItem(itemId)]: the first line of the item. *)
Definition cart_findItem (itemId : N) (c : Cart) : option CartLine :=
  find (fun l => N.eqb (line_item l) itemId) (cart_items c).

Definition set_cart_items (ls : list CartLine) (c : Cart) : Cart :=
  mkCart (cart_user c) ls.

(** Assigning [quantity] on the line [findItem] returned. *)
Fixpoint update_first_line (itemId : N) (q : Z) (ls : list CartLine) : list CartLine :=
  match ls with
  | [] => []
  | l :: ls' =>
      if N.eqb (line_item l) itemId then mkLine (line_item l) q :: ls'
      else l :: update_first_line itemId q ls'
  end.

(** [cart.updateItemQuantity(itemId, quantity)]. *)
Definition cart_updateItemQuantity (itemId : N) (q : Z) (c : Cart) : Cart :=
  match cart_findItem itemId c with
  | Some _ => set_cart_items (update_first_line itemId q (cart_items c)) c
  | None => c
  end.

(** [cart.addItem(itemId, quantity)]. *)
Definition cart_addItem (itemId : N) (q : Z) (c : Cart) : Cart :=
  match cart_findItem itemId c with
  | Some existingItem =>
      set_cart_items (update_first_line itemId (line_quantity existingItem + q) (cart_items c)) c
  | None => set_cart_items (cart_items c ++ [mkLine itemId q]) c
  end.

(** [cart.save()]: the line validation ([min: 0.01], so a whole quantity
    must be positive), then the user's cart is replaced, or inserted when
    it is new. *)
Definition cart_save (c : Cart) : M unit :=
  if existsb (fun l => line_quantity l <=? 0) (cart_items c) then
    throw (ValidationError "Quantity must be greater than 0")
  else
    modify (fun d =>
      if existsb (fun c' => N.eqb (cart_user c') (cart_user c)) (carts d)
      then set_carts (map (fun c' => if N.eqb (cart_user c') (cart_user c) then c else c')
                          (carts d)) d
      else set_carts (carts d ++ [c]) d).

(** [addToCart]: [itemId] is absent when the body has none; [parsedQuantity]
    is [parseFloat(quantity)], [0] being falsy. *)
Definition addToCart (userId : N) (itemId : option N) (parsedQuantity : Z) : M unit :=
  match itemId with
  | None => throw (BadRequest "Item ID and quantity are required")
  | Some iid =>
      if parsedQuantity =? 0 then throw (BadRequest "Item ID and quantity are required")
      else if parsedQuantity <=? 0 then throw (BadRequest "Quantity must be a positive number")
      else
        d <- get ;;
        match findItemById iid d with
        | None => throw (NotFound "Item not found")
        | Some item =>
            if negb (isActive item) then throw (BadRequest "Item is no longer available")
            else if parsedQuantity >? quantity item then
              throw (BadRequest "Insufficient quantity available")
            else if N.eqb (item_seller item) userId then
              throw (BadRequest "You cannot add your own items to cart")
            else
              let cart := match findCart userId d with
                          | Some c => c
                          | None => mkCart userId []
                          end in
              match cart_findItem iid cart with
              | Some existingCartItem =>
                  let newQuantity := line_quantity existingCartItem + parsedQuantity in
                  if newQuantity >? quantity item then
                    throw (BadRequest "Total quantity exceeds available stock")
                  else cart_save (cart_updateItemQuantity iid newQuantity cart)
              | None => cart_save (cart_addItem iid parsedQuantity cart)
              end
        end
  end.

(** The response of [getCart]: the lines shown (item, quantity,
    [totalPrice]), [cartTotal], [itemCount] and [sellerCount]. *)
Record cart_summary : Type := mkCartSummary {
  cart_data : list (Item * Z * Z);
  cartTotal : Z;
  itemCount : nat;
  sellerCount : nat
}.

(** The [map] of [getCart] over the populated lines: a line whose item no
    longer exists is dropped; for the others [cartTotal] grows by
    [itemPrice * quantity] and the seller id is added to [sellerIds]
    ([cartItem.item.seller._id] throws when the seller does not exist). *)
Fixpoint getCart_lines (d : DB) (ls : list CartLine) (cartTotal : Z) (sellerIds : list N)
  : option (list (Item * Z * Z) * Z * list N) :=
  match ls with
  | [] => Some ([], cartTotal, sellerIds)
  | l :: ls' =>
      match findItemById (line_item l) d with
      | None => getCart_lines d ls' cartTotal sellerIds
      | Some it =>
          match findAccountById (item_seller it) d with
          | None => None
          | Some s =>
              let totalPrice := itemPrice it * line_quantity l in
              match getCart_lines d ls' (cartTotal + totalPrice)
                      (if existsb (N.eqb (acc_id s)) sellerIds then sellerIds
                       else sellerIds ++ [acc_id s]) with
              | None => None
              | Some (data, t, ids) => Some ((it, line_quantity l, totalPrice) :: data, t, ids)
              end
          end
      end
  end.

Definition getCart (userId : N) : M cart_summary :=
  d <- get ;;
  match findCart userId d with
  | None => ret (mkCartSummary [] 0 0 0)
  | Some cart =>
      match getCart_lines d (cart_items cart) 0 [] with
      | None => throw (TypeError "Cannot read properties of null (reading '_id')")
      | Some (data, total, sellerIds) =>
          ret (mkCartSummary data total (List.length (cart_items cart)) (List.length sellerIds))
      end
  end.

(** No two lines of a cart refer to the same item. *)
Definition cart_lines_distinct (c : Cart) : Prop :=
  NoDup (map line_item (cart_items c)).

(** The total the claim describes: [itemPrice * quantity] summed over the
    lines whose item still exists. *)
Definition cart_sum (d : DB) (ls : list CartLine) : Z :=
  fold_right (fun l acc =>
                match findItemById (line_item l) d with
                | Some it => itemPrice it * line_quantity l + acc
                | None => acc
                end) 0 ls.

(** ** More cart operations (src/models/Cart.js; src/controllers/authController.js, 1004-1186) *)

(** [cart.removeItem(itemId)]. *)
Definition cart_removeItem (itemId : N) (c : Cart) : Cart :=
  set_cart_items (filter (fun l => negb (N.eqb (line_item l) itemId)) (cart_items c)) c.

(** [cart.clearItems()]. *)
Definition cart_clearItems (c : Cart) : Cart := set_cart_items [] c.

(** [updateCartItem]: [quantity] is absent ([undefined]) or the number
    [parseFloat] gives. *)
Definition updateCartItem (userId : N) (itemId : option N) (quantity_in : option Z)
  : M unit :=
  match itemId, quantity_in with
  | None, _ | _, None => throw (BadRequest "Item ID and quantity are required")
  | Some iid, Some parsedQuantity =>
      if parsedQuantity <? 0 then
        throw (BadRequest "Quantity must be a non-negative number")
      else
        d <- get ;;
        match findCart userId d with
        | None => throw (NotFound "Cart not found")
        | Some cart =>
            match cart_findItem iid cart with
            | None => throw (NotFound "Item not found in cart")
            | Some _ =>
                if parsedQuantity =? 0 then cart_save (cart_removeItem iid cart)
                else
                  match findItemById iid d with
                  | None => throw (NotFound "Item not found")
                  | Some item =>
                      if negb (isActive item) then
                        throw (BadRequest "Item is no longer available")
                      else if parsedQuantity >? quantity item then
                        throw (BadRequest "Insufficient quantity available")
                      else cart_save (cart_updateItemQuantity iid parsedQuantity cart)
                  end
            end
        end
  end.

Definition removeFromCart (userId : N) (itemId : option N) : M unit :=
  match itemId with
  | None => throw (BadRequest "Item ID is required")
  | Some iid =>
      d <- get ;;
      match findCart userId d with
      | None => throw (NotFound "Cart not found")
      | Some cart =>
          match cart_findItem iid cart with
          | None => throw (NotFound "Item not found in cart")
          | Some _ => cart_save (cart_removeItem iid cart)
          end
      end
  end.

Definition clearCart (userId : N) : M unit :=
  d <- get ;;
  match findCart userId d with
  | None => throw (NotFound "Cart not found")
  | Some cart => cart_save (cart_clearItems cart)
  end.

(** The response of [getCartSummary]. *)
Record cart_totals : Type := mkCartTotals {
  sum_itemCount : nat;
  sum_sellerCount : nat;
  sum_cartTotal : Z;
  formattedTotal : string
}.

(** The peso sign U+20B1, in UTF-8. *)
Definition peso_sign : string :=
  String (ascii_of_nat 226) (String (ascii_of_nat 130) (String (ascii_of_nat 177) EmptyString)).

(** [n.toFixed(2)] on a whole number. *)
Definition toFixed2 (n : Z) : string := (Z_toString n ++ ".00")%string.

(** The [forEach] of [getCartSummary]: the lines are populated with
    ["itemPrice seller"] only, so [item.seller] is the seller id. *)
Fixpoint summary_lines (d : DB) (ls : list CartLine) (cartTotal : Z) (sellerIds : list N)
  : Z * list N :=
  match ls with
  | [] => (cartTotal, sellerIds)
  | l :: ls' =>
      match findItemById (line_item l) d with
      | None => summary_lines d ls' cartTotal sellerIds
      | Some it =>
          summary_lines d ls' (cartTotal + itemPrice it * line_quantity l)
            (if existsb (N.eqb (item_seller it)) sellerIds then sellerIds
             else sellerIds ++ [item_seller it])
      end
  end.

Definition getCartSummary (userId : N) : M cart_totals :=
  d <- get ;;
  match findCart userId d with
  | None => ret (mkCartTotals 0 0 0 (peso_sign ++ "0.00")%string)
  | Some cart =>
      let '(cartTotal, sellerIds) := summary_lines d (cart_items cart) 0 [] in
      ret (mkCartTotals (List.length (cart_items cart)) (List.length sellerIds) cartTotal
             (peso_sign ++ toFixed2 cartTotal)%string)
  end.

(** ** Item status and deletion (src/controllers/itemController.js, 325-440) *)

(** [Item.findByIdAndDelete(id)]: the first document with the id. *)
Fixpoint remove_first_item (id : N) (l : list Item) : list Item :=
  match l with
  | [] => []
  | x :: r => if N.eqb (item_id x) id then r else x :: remove_first_item id r
  end.

(** [deleteItem] (325-360); [deleteItemHard] (405-440) has the same body.
    The Cloudinary [deleteImage] call is outside the database and its
    failure is caught and ignored, so it has no effect here. *)
Definition deleteItem (caller itemId : N) : M unit :=
  d <- get ;;
  match findItemById itemId d with
  | None => throw (NotFound "Item not found")
  | Some item =>
      if negb (N.eqb (item_seller item) caller) then
        throw (Unauthorized "You can only delete your own items")
      else modify (fun d => set_items (remove_first_item itemId (items d)) d)
  end.

Definition deleteItemHard (caller itemId : N) : M unit := deleteItem caller itemId.

Definition set_active (b : bool) (it : Item) : Item :=
  mkItem (item_id it) (item_seller it) (itemName it) (itemPrice it) (quantity it) b (image it).

(** [setItemActiveStatus] (365-400): [isActive] is absent unless the body
    holds a boolean. *)
Definition setItemActiveStatus (caller itemId : N) (isActive_in : option bool) : M Item :=
  match isActive_in with
  | None => throw (BadRequest "isActive must be a boolean")
  | Some b =>
      d <- get ;;
      match findItemById itemId d with
      | None => throw (NotFound "Item not found")
      | Some item =>
          if negb (N.eqb (item_seller item) caller) then
            throw (Unauthorized "You can only update your own items")
          else
            let item' := set_active b item in
            _ <- modify (fun d => set_items (replace_item item' (items d)) d) ;;
            ret item'
      end
  end.

(** ** deleteAdminAccount (src/controllers/authController.js, 509-532) *)

(** [Account.findByIdAndDelete(id)]: the first document with the id. *)
Fixpoint remove_first_account (id : N) (l : list Account) : list Account :=
  match l with
  | [] => []
  | x :: r => if N.eqb (acc_id x) id then r else x :: remove_first_account id r
  end.

Definition deleteAdminAccount (adminId : N) : M unit :=
  d <- get ;;
  match find (fun a => N.eqb (acc_id a) adminId && role_eqb (role_of a) admin) (accounts d) with
  | None => throw (NotFound "Admin account not found")
  | Some _ => modify (fun d => set_accounts (remove_first_account adminId (accounts d)) d)
  end.

(** ** A small store used by the examples *)

Definition seller_acc : Account :=
  mkAccount 1 "reyes" "reyes@example.com" "9123456789" "pw:tinda123"
    seller true (Some approved) (Some 3%N) (Some 0).

Definition buyer_acc : Account :=
  mkAccount 2 "santos" "santos@example.com" "9123456780" "pw:bili1234"
    buyer true None None None.

Definition shop_item : Item :=
  mkItem 10 1 "Tilapia" 20 5 true "https://res.cloudinary.com/tilapia.jpg".

Definition shop_db : DB :=
  mkDB [seller_acc; buyer_acc] [shop_item] [] [] [] 100.

Definition sale_a : sell_req := mkSellReq 10 1 3 2 "first".
Definition sale_b : sell_req := mkSellReq 10 1 3 2 "second".

Definition pending_acc : Account :=
  mkAccount 4 "dela_cruz" "delacruz@example.com" "9171234567" "pw:isda5678"
    buyer false None None None.

(** Two OTP records of [pending_acc]: the older one still valid at time
    300000, the newer one already expired. *)
Definition otp_old : OTP := mkOTP 50 4 "483920" 400000 0.
Definition otp_new : OTP := mkOTP 51 4 "120934" 200000 1000.

Definition otp_db : DB :=
  mkDB [seller_acc; pending_acc] [] [] [otp_old; otp_new] [] 100.

(** The store right after [pending_acc] signed up at time 1000: one OTP
    record, valid for five minutes. *)
Definition live_otp : OTP := mkOTP 52 4 "120934" 301000 1000.

Definition live_db : DB :=
  mkDB [seller_acc; pending_acc] [] [] [live_otp] [] 100.

(** A cart of [buyer_acc] holding one unit of [shop_item]. *)
Definition shop_cart : Cart := mkCart 2 [mkLine 10 1].

Definition cart_db : DB :=
  mkDB [seller_acc; buyer_acc] [shop_item] [] [] [shop_cart] 100.

(** An administrator and a seller awaiting approval. *)
Definition admin_acc : Account :=
  mkAccount 3 "admin_luz" "luz@example.com" "9181112222" "hash:bantay123"
    admin true None None None.

Definition pending_seller : Account :=
  mkAccount 5 "bautista" "bautista@example.com" "9181234567" "hash:lambat123"
    seller true (Some pending) None None.

Definition approval_db : DB :=
  mkDB [admin_acc; pending_seller] [] [] [] [] 100.


Definition toy_hash (p : string) : string := "hash:" ++ p.
Definition toy_compare (p h : string) : bool := String.eqb h (toy_hash p).

(** ** Generic lemmas on the store *)

Lemma find_replace_item (it : Item) (l : list Item) (x : Item) :
  find (fun y => N.eqb (item_id y) (item_id it)) l = Some x ->
  find (fun y => N.eqb (item_id y) (item_id it)) (replace_item it l) = Some it.
Proof.
  induction l as [|y l IH]; simpl; [discriminate|].
  destruct (N.eqb (item_id y) (item_id it)) eqn:E; simpl.
  - intros _. rewrite N.eqb_refl. reflexivity.
  - rewrite E. exact IH.
Qed.

Lemma findItemById_set_receipts (id : N) (l : list Receipt) (d : DB) :
  findItemById id (set_receipts l d) = findItemById id d.
Proof. reflexivity. Qed.

Lemma findItemById_bump (id : N) (d : DB) :
  findItemById id (bump_id d) = findItemById id d.
Proof. reflexivity. Qed.

(** Unfold the monad and the steps of a controller. *)
Ltac run_m :=
  repeat (unfold bind, ret, throw, get, put, modify, fresh_id in *; cbn beta iota in *).

Lemma account_init_id (a : Account) : acc_id (account_init a) = acc_id a.
Proof. reflexivity. Qed.

Lemma account_init_isVerified (a : Account) :
  isVerified (account_init a) = isVerified a.
Proof. reflexivity. Qed.

Lemma account_init_role (a : Account) : role_of (account_init a) = role_of a.
Proof. reflexivity. Qed.

Lemma account_init_contact (a : Account) : contactNo (account_init a) = contactNo a.
Proof. reflexivity. Qed.

(** Case split on the innermost scrutinees of a hypothesis about a run. *)
Ltac split_matches_in H :=
  repeat (match type of H with
          | context [match ?x with _ => _ end] =>
              lazymatch x with
              | context [match _ with _ => _ end] => fail
              | _ => destruct x eqn:?
              end
          end; cbn beta iota in H).

(** ** C1: a sale within stock, and a sale beyond stock *)


(** ** Effects of the steps of a sale *)

Lemma bind_inv {A B} (m : M A) (k : A -> M B) (d d' : DB) (r : res B) :
  bind m k d = (d', r) ->
  (exists e, m d = (d', Err e) /\ r = Err e) \/
  (exists d1 a, m d = (d1, Ok a) /\ k a d1 = (d', r)).
Proof.
  unfold bind. destruct (m d) as [d1 [a|e]]; intro H.
  - right. exists d1, a. split; [reflexivity|exact H].
  - left. inversion H; subst. exists e. split; reflexivity.
Qed.

(** The checks only read. *)
Lemma sell_check_reads (itemId caller buyerId : N) (q : Z) (d d' : DB)
  (r : res Item) :
  sell_check itemId caller q buyerId d = (d', r) ->
  d' = d /\
  (forall item, r = Ok item ->
     findItemById itemId d = Some item /\ item_seller item = caller /\
     isActive item = true /\ q <= quantity item).
Proof.
  unfold sell_check. run_m.
  destruct (findItemById itemId d) as [item|] eqn:Hf;
    [|intro H; inversion H; subst; split; [reflexivity|discriminate]].
  destruct (N.eqb (item_seller item) caller) eqn:Hs; cbn;
    [|intro H; inversion H; subst; split; [reflexivity|discriminate]].
  destruct (isActive item) eqn:Ha; cbn;
    [|intro H; inversion H; subst; split; [reflexivity|discriminate]].
  destruct (q >? quantity item) eqn:Hq; cbn;
    [intro H; inversion H; subst; split; [reflexivity|discriminate]|].
  destruct (findAccountById buyerId d); intro H; inversion H; subst;
    (split; [reflexivity|]); intros it Hit; inversion Hit; subst.
  apply N.eqb_eq in Hs. rewrite Z.gtb_ltb in Hq. apply Z.ltb_ge in Hq.
  repeat split; assumption.
Qed.

Lemma find_item_id (itemId : N) (d : DB) (item : Item) :
  findItemById itemId d = Some item -> item_id item = itemId.
Proof.
  unfold findItemById. intro H. apply find_some in H.
  destruct H as [_ H]. apply N.eqb_eq in H. exact H.
Qed.

(** The receipt write touches only the receipts (and the id counter);
    it either fails with nothing written or appends one Receipt. *)
Lemma sell_write_receipt_effect (fails : bool) (item : Item) (buyerId : N)
  (q : Z) (notes : string) (d d' : DB) (r : res Receipt) :
  sell_write_receipt fails item buyerId q notes d = (d', r) ->
  items d' = items d /\
  ((exists e, r = Err e /\ d' = d) \/
   (exists rc, r = Ok rc /\ receipts d' = receipts d ++ [rc] /\
      rc_item rc = item_id item /\ rc_quantitySold rc = q /\
      rc_totalAmount rc = itemPrice item * q)).
Proof.
  unfold sell_write_receipt.
  destruct (q <=? 0); [intro H; inversion H; subst; split;
                       [reflexivity | left; eexists; split; reflexivity]|].
  destruct (200 <? js_length (js_trim notes))%nat;
    [intro H; inversion H; subst; split;
     [reflexivity | left; eexists; split; reflexivity]|].
  run_m.
  destruct fails; intro H; inversion H; subst; split; try reflexivity.
  - left. eexists. split; reflexivity.
  - right. eexists. repeat split.
Qed.

(** A failing item write writes nothing. *)
Lemma sell_write_item_err (fails : bool) (item : Item) (q : Z)
  (d d' : DB) (e : error) :
  sell_write_item fails item q d = (d', Err e) -> d' = d.
Proof.
  unfold sell_write_item. run_m.
  destruct (quantity item - q <? 0); [intro H; inversion H; reflexivity|].
  destruct fails; [intro H; inversion H; reflexivity|].
  destruct (findItemById (item_id item) d); intro H; inversion H; reflexivity.
Qed.

(** A successful item write leaves the receipts and stores the quantity
    computed from the loaded item. *)
Lemma sell_write_item_ok (fails : bool) (item : Item) (q : Z) (d d' : DB) (u : unit) :
  sell_write_item fails item q d = (d', Ok u) ->
  receipts d' = receipts d /\
  exists cur', findItemById (item_id item) d' = Some cur' /\
               quantity cur' = quantity item - q.
Proof.
  unfold sell_write_item. run_m.
  destruct (quantity item - q <? 0); [discriminate|].
  destruct fails; [discriminate|].
  destruct (findItemById (item_id item) d) as [cur|] eqn:Hc; [|discriminate].
  intro H. inversion H; subst; clear H. split; [reflexivity|].
  match goal with |- context [replace_item ?it _] => exists it end.
  split; [|cbn; lia].
  assert (Hid : item_id cur = item_id item).
  { unfold findItemById in Hc. apply find_some in Hc as [_ Hc]. apply N.eqb_eq. exact Hc. }
  unfold findItemById in *. cbn.
  rewrite <- Hid in *.
  exact (find_replace_item
    (mkItem (item_id cur) (item_seller cur) (itemName cur) (itemPrice cur)
       (quantity item - q) (if quantity item - q <=? 0 then false else isActive cur)
       (image cur)) (items d) cur Hc).
Qed.

Lemma receipt_populate_err (fails : bool) (rc : Receipt) (d d' : DB) (e : error) :
  receipt_populate fails rc d = (d', Err e) -> d' = d /\ e = ReadFailed.
Proof.
  unfold receipt_populate, throw, ret. destruct fails; intro H; inversion H; split; reflexivity.
Qed.

(** ** C2: the two writes of a sale are separate *)

(** C2 (as the code does it).  [sellItem] writes the Receipt, then the
    item, then reads the accounts for the response, with no transaction
    and no compensating action.  When the call ends in an error, one of
    three states persists: nothing written; exactly one new Receipt for
    the item, with the requested quantity, and the items unchanged (the
    item write failed after the Receipt write); or that Receipt and the
    decremented item both (the populate read failed after both writes). *)
Theorem sellItem_error_effects (f : faults) (d d' : DB)
  (itemId caller buyerId : N) (q : Z) (notes : string) (e : error) :
  sellItem f itemId caller q buyerId notes d = (d', Err e) ->
  (items d' = items d /\ receipts d' = receipts d) \/
  (items d' = items d /\
   exists rc, receipts d' = receipts d ++ [rc] /\
              rc_item rc = itemId /\ rc_quantitySold rc = q) \/
  (e = ReadFailed /\
   (exists rc, receipts d' = receipts d ++ [rc] /\
               rc_item rc = itemId /\ rc_quantitySold rc = q) /\
   exists item item', findItemById itemId d = Some item /\
     findItemById itemId d' = Some item' /\ quantity item' = quantity item - q).
Proof.
  unfold sellItem. intro H.
  apply bind_inv in H as [[e1 [H1 _]] | [d1 [item [H1 H]]]].
  { apply sell_check_reads in H1 as [-> _]. left. split; reflexivity. }
  apply sell_check_reads in H1 as [-> Hok].
  destruct (Hok item eq_refl) as [Hf _].
  pose proof (find_item_id _ _ _ Hf) as Hid.
  apply bind_inv in H as [[e2 [H2 _]] | [d2 [rc [H2 H]]]].
  { apply sell_write_receipt_effect in H2 as [Hi [[e3 [_ ->]] | [rc [Hr _]]]];
      [left; split; reflexivity | discriminate]. }
  apply sell_write_receipt_effect in H2 as [Hi [[e3 [Hr _]] | [rc' [Hr [Hrs [Hri [Hrq _]]]]]]];
    [discriminate|].
  inversion Hr; subst rc'.
  apply bind_inv in H as [[e3 [H3 _]] | [d3 [u [H3 H]]]].
  - apply sell_write_item_err in H3. subst d2. right. left. split; [exact Hi|].
    exists rc. repeat split; congruence.
  - apply receipt_populate_err in H as [-> ->].
    apply sell_write_item_ok in H3 as [Hr3 [cur' [Hc' Hq']]].
    right. right. split; [reflexivity|]. split.
    + exists rc. rewrite Hr3. repeat split; congruence.
    + exists item, cur'. rewrite <- Hid. split; [congruence|]. split; assumption.
Qed.

(** ** C3: concurrent sales *)

Lemma sell_write_item_nonneg (fails : bool) (item : Item) (q : Z)
  (d d' : DB) (r : res unit) :
  items_nonneg d ->
  sell_write_item fails item q d = (d', r) ->
  items_nonneg d'.
Proof.
  unfold sell_write_item, items_nonneg. run_m. intros Hn.
  destruct (quantity item - q <? 0) eqn:Hq;
    [intro H; inversion H; subst; exact Hn|].
  destruct fails; [intro H; inversion H; subst; exact Hn|].
  destruct (findItemById (item_id item) d) as [cur|];
    intro H; inversion H; subst; [|exact Hn].
  cbn. unfold replace_item. apply Forall_map.
  apply Z.ltb_ge in Hq.
  eapply Forall_impl; [|exact Hn]. intros x Hx. cbn.
  destruct (N.eqb (item_id x) (item_id cur)); cbn; [exact Hq | exact Hx].
Qed.

Lemma sell_step_nonneg (rq : sell_req) (ph : sell_phase) (d : DB) :
  items_nonneg d -> items_nonneg (fst (sell_step rq ph d)).
Proof.
  intro Hn. destruct ph as [|item|item rc|r]; unfold sell_step; [| | |exact Hn].
  - destruct (sell_check (req_item rq) (req_caller rq) (req_quantity rq)
              (req_buyer rq) d) as [d' [a|e]] eqn:H;
      apply sell_check_reads in H as [-> _]; exact Hn.
  - destruct (sell_write_receipt false item (req_buyer rq) (req_quantity rq)
              (req_notes rq) d) as [d' [a|e]] eqn:H;
      apply sell_write_receipt_effect in H as [Hi _];
      unfold items_nonneg; cbn; rewrite Hi; exact Hn.
  - destruct (sell_write_item false item (req_quantity rq) d)
      as [d' [a|e]] eqn:H;
      apply sell_write_item_nonneg in H; cbn; assumption.
Qed.

(** C3 (as the code does it).  Concurrent sales are not serialized: each
    request reads the item, checks it, writes its Receipt and then writes
    the quantity it read minus its own quantity, so two sales whose
    quantities each fit the stock but together exceed it can both succeed
    (see the counterexample).  What does hold under every interleaving of
    two sales is that no item quantity ever becomes negative: every item
    write is validated against [quantity >= 0]. *)
Theorem run2_quantity_nonneg (ra rb : sell_req) (sched : list bool)
  (s : sys2) :
  items_nonneg (sys_db s) ->
  items_nonneg (sys_db (run2 ra rb sched s)).
Proof.
  revert s. induction sched as [|[|] rest IH]; intros s Hn; cbn; [exact Hn| |].
  - pose proof (sell_step_nonneg ra (phase_a s) (sys_db s) Hn) as H.
    destruct (sell_step ra (phase_a s) (sys_db s)) as [d' pa].
    apply IH. exact H.
  - pose proof (sell_step_nonneg rb (phase_b s) (sys_db s) Hn) as H.
    destruct (sell_step rb (phase_b s) (sys_db s)) as [d' pb].
    apply IH. exact H.
Qed.

(** ** Witnesses and counterexamples for C1-C3 *)



(** C2 as stated fails: when the item write fails after the Receipt was
    written, the Receipt stays while the stock was not decremented. *)
Lemma sellItem_receipt_without_decrement :
  let '(d', r) := sellItem (mkFaults false true false) 10 1 5 2 "" shop_db in
  r = Err WriteFailed /\
  receipts shop_db = [] /\
  List.length (receipts d') = 1%nat /\
  option_map quantity (findItemById 10 d') = Some 5 /\
  ~ ((receipts d' = receipts shop_db /\
      findItemById 10 d' = findItemById 10 shop_db) \/
     (receipts d' <> receipts shop_db /\
      findItemById 10 d' <> findItemById 10 shop_db)).
Proof.
  vm_compute. split; [reflexivity|]. split; [reflexivity|].
  split; [reflexivity|]. split; [reflexivity|].
  intros [[H _] | [_ H]]; [discriminate | apply H; reflexivity].
Qed.

(** C3 as stated fails: two sales of 3 from a stock of 5, interleaved as
    check A, check B, write A, write B, both succeed; two Receipts are
    written and the later item write leaves quantity 2. *)
Lemma concurrent_sales_both_succeed :
  let s := run2 sale_a sale_b [true; false; true; true; false; false]
             (mkSys2 shop_db SStart SStart) in
  req_quantity sale_a <= quantity shop_item /\
  req_quantity sale_b <= quantity shop_item /\
  req_quantity sale_a + req_quantity sale_b > quantity shop_item /\
  (exists rca rcb, phase_a s = SDone (Ok rca) /\ phase_b s = SDone (Ok rcb)) /\
  List.length (receipts (sys_db s)) = 2%nat /\
  option_map quantity (findItemById 10 (sys_db s)) = Some 2.
Proof.
  vm_compute. split; [discriminate|]. split; [discriminate|].
  split; [reflexivity|]. split; [eexists _, _; split; reflexivity|].
  split; reflexivity.
Qed.

(** ** C8: OTP codes *)

Lemma digit_char_is_digit (n : N) : is_digit (digit_char (n mod 10)) = true.
Proof.
  unfold is_digit, digit_char.
  pose proof (N.mod_lt n 10 ltac:(discriminate)) as Hm.
  generalize dependent (n mod 10)%N. intros m Hm.
  rewrite N_ascii_embedding by lia.
  apply andb_true_intro; split; apply N.leb_le; lia.
Qed.

Lemma all_digits_cons (c : ascii) (s : string) :
  is_digit c = true -> (s = EmptyString \/ all_digits s = true) ->
  all_digits (String c s) = true.
Proof.
  intros Hc [-> | Hs]; cbn; [exact Hc|].
  destruct s; [discriminate|]. rewrite Hc, Hs. reflexivity.
Qed.

Lemma digits_aux_all_digits (fuel : nat) (n : N) (acc : string) :
  (acc = EmptyString \/ all_digits acc = true) ->
  (0 < fuel)%nat ->
  all_digits (digits_aux fuel n acc) = true.
Proof.
  revert n acc. induction fuel as [|f IH]; intros n acc Hacc Hf; [lia|].
  cbn. pose proof (all_digits_cons _ acc (digit_char_is_digit n) Hacc) as Hc.
  destruct (n <? 10)%N; [exact Hc|].
  destruct f as [|f]; [exact Hc|].
  apply IH; [right; exact Hc | lia].
Qed.

Lemma digits_aux_length (k : nat) (fuel : nat) (n : N) (acc : string) :
  (10 ^ N.of_nat k <= n < 10 ^ N.of_nat (S k))%N ->
  (k < fuel)%nat ->
  String.length (digits_aux fuel n acc) = (S k + String.length acc)%nat.
Proof.
  revert fuel n acc. induction k as [|k IH]; intros fuel n acc Hn Hf.
  - destruct fuel as [|f]; [lia|]. cbn in Hn |- *.
    replace (n <? 10)%N with true by (symmetry; apply N.ltb_lt; lia).
    reflexivity.
  - destruct fuel as [|f]; [lia|]. cbn [digits_aux].
    replace (n <? 10)%N with false.
    2:{ symmetry; apply N.ltb_ge.
        rewrite Nat2N.inj_succ, N.pow_succ_r' in Hn.
        pose proof (N.pow_nonzero 10 (N.of_nat k)). lia. }
    rewrite (IH f (n / 10)%N).
    + cbn. lia.
    + rewrite (Nat2N.inj_succ (S k)), (Nat2N.inj_succ k), !N.pow_succ_r' in Hn.
      rewrite Nat2N.inj_succ, N.pow_succ_r'.
      split.
      * apply N.div_le_lower_bound; lia.
      * apply N.Div0.div_lt_upper_bound; lia.
    + lia.
Qed.

Lemma generateOTP_value (r : Q) :
  (0 <= r < 1)%Q ->
  (100000 <= Qfloor (inject_Z 100000 + r * inject_Z 900000) <= 999999)%Z.
Proof.
  intros [H0 H1]. split.
  - rewrite <- (Qfloor_Z 100000). apply Qfloor_resp_le.
    setoid_replace (inject_Z 100000) with (inject_Z 100000 + 0)%Q at 1
      by ring.
    apply Qplus_le_compat; [apply Qle_refl|].
    apply Qmult_le_0_compat; [exact H0|]. unfold Qle; cbn; lia.
  - assert (Hx : (inject_Z 100000 + r * inject_Z 900000 < inject_Z 1000000)%Q).
    { setoid_replace (inject_Z 1000000)
        with (inject_Z 100000 + 1 * inject_Z 900000)%Q by reflexivity.
      apply Qplus_lt_r. apply Qmult_lt_r; [reflexivity | exact H1]. }
    pose proof (Qfloor_le (inject_Z 100000 + r * inject_Z 900000)) as Hf.
    assert (Hlt : (inject_Z (Qfloor (inject_Z 100000 + r * inject_Z 900000))
                  < inject_Z 1000000)%Q) by (eapply Qle_lt_trans; eauto).
    rewrite <- Zlt_Qlt in Hlt. lia.
Qed.

Lemma generateOTP_shape (r : Q) :
  (0 <= r < 1)%Q ->
  exists n, (100000 <= n <= 999999)%Z /\ generateOTP r = Z_toString n /\
     String.length (generateOTP r) = 6%nat /\
     all_digits (generateOTP r) = true.
Proof.
  intro Hr.
  pose proof (generateOTP_value r Hr) as Hv.
  set (n := Qfloor (inject_Z 100000 + r * inject_Z 900000)) in *.
  exists n. split; [exact Hv|]. split; [reflexivity|].
  unfold generateOTP. fold n. clearbody n.
  unfold Z_toString. replace (n <? 0) with false
    by (symmetry; apply Z.ltb_ge; lia).
  unfold N_toString. split.
  - rewrite (digits_aux_length 5); [reflexivity| |].
    + change (10 ^ N.of_nat 5)%N with 100000%N.
      change (10 ^ N.of_nat 6)%N with 1000000%N. lia.
    + assert (Hs : (Pos.size_nat 100000 <= N.size_nat (Z.to_N n))%nat).
      { destruct (Z.to_N n) as [|p] eqn:Hp; [lia|]. cbn [N.size_nat].
        destruct (Pos.eq_dec p 100000) as [->|Hne]; [lia|].
        apply Pos.size_nat_monotone. lia. }
      cbn in Hs. lia.
  - apply digits_aux_all_digits; [left; reflexivity | lia].
Qed.

Lemma philsms_verifyOTP_spec (storedOTP inputOTP : string) (exp now : Z) :
  philsms_verifyOTP storedOTP inputOTP exp now = true
  <-> storedOTP = inputOTP /\ now <= exp.
Proof.
  unfold philsms_verifyOTP.
  rewrite andb_true_iff, negb_true_iff, String.eqb_eq, Z.gtb_ltb, Z.ltb_ge.
  tauto.
Qed.

(** C8.  For every value [r] of [Math.random()] (so [0 <= r < 1]),
    [generateOTP] returns the decimal string of a number in
    [100000..999999], of exactly 6 characters, all of them digits; and the
    service's [verifyOTP(stored, input, expiresAt)] at time [now] is true
    exactly when [stored = input] and [now] is not past [expiresAt]: a
    matching code is refused once [now > expiresAt]. *)
Theorem otp_codes_and_check (r : Q) :
  (0 <= r < 1)%Q ->
  (exists n, (100000 <= n <= 999999)%Z /\ generateOTP r = Z_toString n /\
     String.length (generateOTP r) = 6%nat /\
     all_digits (generateOTP r) = true) /\
  (forall (storedOTP inputOTP : string) (expiresAt now : Z),
     philsms_verifyOTP storedOTP inputOTP expiresAt now = true
     <-> storedOTP = inputOTP /\ now <= expiresAt).
Proof.
  intro Hr. split.
  - exact (generateOTP_shape r Hr).
  - intros storedOTP inputOTP exp now. apply philsms_verifyOTP_spec.
Qed.

(** ** C4: verifyOTP *)

(** C4 (as the code does it).  [verifyOTP(contactNo, code)] fails with
    NotFound when no account has the contact number; fails with
    BadRequest (the code uses BadRequest, not Conflict) when the account
    is already verified; fails with BadRequest when the account has no
    OTP record, or the code differs from the most recent record, or that
    record is expired ([now > expiresAt]); otherwise it marks the account
    verified, deletes that OTP record and returns a session token for the
    account, leaving everything else unchanged.  The saved document is the
    loaded one: a stored account without [sellerApprovalStatus] is written
    back with the default ["pending"] ([account_init]). *)
Theorem verifyOTP_outcomes (now : Z) (contact code : string) (d : DB) :
  (findAccountByContact contact d = None ->
     exists m, verifyOTP now contact code d = (d, Err (NotFound m))) /\
  (forall account : Account,
     findAccountByContact contact d = Some account ->
     (isVerified account = true ->
        exists m, verifyOTP now contact code d = (d, Err (BadRequest m))) /\
     (isVerified account = false ->
        latest_otp (acc_id account) d = None ->
        exists m, verifyOTP now contact code d = (d, Err (BadRequest m))) /\
     (forall rec : OTP,
        isVerified account = false ->
        latest_otp (acc_id account) d = Some rec ->
        (otp rec <> code \/ now > expiresAt rec) ->
        exists m, verifyOTP now contact code d = (d, Err (BadRequest m))) /\
     (forall rec : OTP,
        isVerified account = false ->
        latest_otp (acc_id account) d = Some rec ->
        otp rec = code -> now <= expiresAt rec ->
        verifyOTP now contact code d =
          (set_otps (filter (fun o => negb (N.eqb (otp_id o) (otp_id rec))) (otps d))
             (set_accounts (replace_account (with_verified (account_init account))
                              (accounts d)) d),
           Ok (generateToken (acc_id account))))).
Proof.
  unfold verifyOTP. run_m. split.
  { intro H. rewrite H. eexists. reflexivity. }
  intros account Hacc. rewrite Hacc. cbn [option_map].
  rewrite account_init_isVerified, account_init_id.
  split; [intro Hv; rewrite Hv; eexists; reflexivity|].
  split; [intros Hv Hl; rewrite Hv, Hl; eexists; reflexivity|].
  split.
  - intros rec Hv Hl Hbad. rewrite Hv, Hl.
    replace (philsms_verifyOTP (otp rec) code (expiresAt rec) now) with false.
    + eexists. reflexivity.
    + symmetry. apply not_true_iff_false. rewrite philsms_verifyOTP_spec.
      intros [Heq Hle]. destruct Hbad as [Hne | Hgt]; [contradiction | lia].
  - intros rec Hv Hl Hc He. rewrite Hv, Hl.
    replace (philsms_verifyOTP (otp rec) code (expiresAt rec) now) with true
      by (symmetry; apply philsms_verifyOTP_spec; split; assumption).
    unfold save_account, delete_otp. run_m. reflexivity.
Qed.

(** C4 as stated fails: for an already verified account the error is
    BadRequest, not Conflict. *)
Lemma verifyOTP_verified_is_not_conflict :
  findAccountByContact "9123456789" shop_db = Some seller_acc /\
  isVerified seller_acc = true /\
  verifyOTP 0 "9123456789" "123456" shop_db
    = (shop_db, Err (BadRequest "Account is already verified")) /\
  is_conflict (BadRequest "Account is already verified") = false.
Proof. repeat split; reflexivity. Qed.

(** ** C5: resendOTP *)

Lemma fold_pick_latest_none_of (uid : N) (l : list OTP) (acc : option OTP) :
  Forall (fun o => N.eqb (userId o) uid = false) l ->
  fold_left (pick_latest uid) l acc = acc.
Proof.
  revert acc. induction l as [|o l IH]; intros acc Hl; [reflexivity|].
  inversion Hl; subst. cbn. unfold pick_latest at 2.
  match goal with H : N.eqb (userId o) uid = false |- _ => rewrite H end.
  apply IH. assumption.
Qed.

Lemma otps_not_of_none (uid : N) (d : DB) :
  Forall (fun o => N.eqb (userId o) uid = false) (otps_not_of uid d).
Proof.
  unfold otps_not_of. apply Forall_forall. intros o Ho.
  apply filter_In in Ho as [_ Ho]. apply negb_true_iff in Ho. exact Ho.
Qed.

Lemma filter_none_of (uid : N) (l : list OTP) :
  Forall (fun o => N.eqb (userId o) uid = false) l ->
  filter (fun o => N.eqb (userId o) uid) l = [].
Proof.
  induction l as [|o l IH]; intro Hl; [reflexivity|].
  inversion Hl; subst. cbn.
  match goal with H : N.eqb (userId o) uid = false |- _ => rewrite H end.
  apply IH. assumption.
Qed.

Lemma filter_not_of_idem (uid : N) (l : list OTP) :
  filter (fun o => negb (N.eqb (userId o) uid))
    (filter (fun o => negb (N.eqb (userId o) uid)) l)
  = filter (fun o => negb (N.eqb (userId o) uid)) l.
Proof.
  induction l as [|o l IH]; [reflexivity|]. cbn.
  destruct (N.eqb (userId o) uid) eqn:E; cbn; [exact IH|].
  rewrite E. cbn. rewrite IH. reflexivity.
Qed.

Lemma latest_otp_last (uid : N) (l : list OTP) (o : OTP) :
  Forall (fun x => N.eqb (userId x) uid = false) l -> userId o = uid ->
  fold_left (pick_latest uid) (l ++ [o]) None = Some o.
Proof.
  intros Hl Ho. rewrite fold_left_app, (fold_pick_latest_none_of _ _ _ Hl).
  cbn. unfold pick_latest. rewrite Ho, N.eqb_refl. reflexivity.
Qed.

(** [resendOTP] decides on the latest record of the account. *)
Lemma resendOTP_latest_outcomes (now : Z) (r : Q) (contact : string) (d : DB)
  (account : Account) :
  (0 <= r < 1)%Q ->
  findAccountByContact contact d = Some account ->
  isVerified account = false ->
  (forall last : OTP,
     latest_otp (acc_id account) d = Some last ->
     expiresAt last > now ->
     exists m, resendOTP now r contact d = (d, Err (TooManyRequests m))) /\
  ((forall last : OTP,
      latest_otp (acc_id account) d = Some last -> expiresAt last <= now) ->
   let o := mkOTP (next_id d) (acc_id account) (generateOTP r)
              (now + 5 * 60 * 1000) now in
   exists d',
     resendOTP now r contact d = (d', Ok tt) /\
     accounts d' = accounts d /\
     otps d' = otps_not_of (acc_id account) d ++ [o]).
Proof.
  intros Hr Hacc Hv.
  destruct (generateOTP_shape r Hr) as [n [_ [_ [_ Hdig]]]].
  unfold resendOTP. run_m. rewrite Hacc, Hv. split.
  - intros last Hl Hgt. rewrite Hl.
    replace (expiresAt last >? now) with true
      by (symmetry; rewrite Z.gtb_ltb; apply Z.ltb_lt; lia).
    eexists. reflexivity.
  - intros Hall.
    assert (Hpre : match latest_otp (acc_id account) d with
                   | Some lastOtp => (expiresAt lastOtp >? now) = false
                   | None => True
                   end).
    { destruct (latest_otp (acc_id account) d) as [last|] eqn:Hl; [|exact I].
      specialize (Hall last eq_refl).
      rewrite Z.gtb_ltb; apply Z.ltb_ge; lia. }
    destruct (latest_otp (acc_id account) d) as [last|];
      [rewrite Hpre|]; cbn beta iota.
    all: unfold delete_otps_of, create_otp; run_m; rewrite Hdig; cbn;
      eexists; split; [reflexivity|]; split; reflexivity.
Qed.

Lemma pick_latest_self (uid : N) (acc : option OTP) (o : OTP) :
  N.eqb (userId o) uid = true ->
  exists p, pick_latest uid acc o = Some p /\ createdAt o <= createdAt p.
Proof.
  intro E. unfold pick_latest. rewrite E. destruct acc as [b|].
  - destruct (createdAt o >? createdAt b) eqn:C.
    + exists o. split; [reflexivity | lia].
    + exists b. split; [reflexivity|]. rewrite Z.gtb_ltb in C. apply Z.ltb_ge in C. exact C.
  - exists o. split; [reflexivity | lia].
Qed.

Lemma pick_latest_mono (uid : N) (b o : OTP) :
  exists p, pick_latest uid (Some b) o = Some p /\ createdAt b <= createdAt p.
Proof.
  unfold pick_latest. destruct (N.eqb (userId o) uid).
  - destruct (createdAt o >? createdAt b) eqn:C.
    + exists o. split; [reflexivity|]. rewrite Z.gtb_ltb in C. apply Z.ltb_lt in C. lia.
    + exists b. split; [reflexivity | lia].
  - exists b. split; [reflexivity | lia].
Qed.

Lemma fold_pick_in (uid : N) (l : list OTP) (acc : option OTP) (x : OTP) :
  fold_left (pick_latest uid) l acc = Some x ->
  acc = Some x \/ In x (filter (fun o => N.eqb (userId o) uid) l).
Proof.
  revert acc. induction l as [|o l IH]; intros acc H; [left; exact H|].
  cbn in H. apply IH in H as [H|H].
  - unfold pick_latest in H. cbn. destruct (N.eqb (userId o) uid) eqn:E.
    + destruct acc as [b|].
      * destruct (createdAt o >? createdAt b);
          [injection H as ->; right; left; reflexivity | left; exact H].
      * injection H as ->. right. left. reflexivity.
    + left. exact H.
  - right. cbn. destruct (N.eqb (userId o) uid); [right|]; exact H.
Qed.

Lemma fold_pick_ge (uid : N) (l : list OTP) (acc : option OTP) (x : OTP) :
  fold_left (pick_latest uid) l acc = Some x ->
  (forall b, acc = Some b -> createdAt b <= createdAt x) /\
  (forall o, In o (filter (fun o => N.eqb (userId o) uid) l) -> createdAt o <= createdAt x).
Proof.
  revert acc. induction l as [|o l IH]; intros acc H.
  - cbn in H. subst acc. split; [intros b Hb; injection Hb as ->; lia | intros o []].
  - cbn in H. destruct (IH _ H) as [Hacc Hl]. split.
    + intros b ->. destruct (pick_latest_mono uid b o) as (p & Hp & Hle).
      specialize (Hacc p Hp). lia.
    + intros o' Ho'. cbn in Ho'. destruct (N.eqb (userId o) uid) eqn:E.
      * destruct Ho' as [<- | Ho']; [|exact (Hl o' Ho')].
        destruct (pick_latest_self uid acc o E) as (p & Hp & Hle).
        specialize (Hacc p Hp). lia.
      * exact (Hl o' Ho').
Qed.

Lemma fold_pick_none (uid : N) (l : list OTP) (acc : option OTP) :
  fold_left (pick_latest uid) l acc = None ->
  acc = None /\ filter (fun o => N.eqb (userId o) uid) l = [].
Proof.
  revert acc. induction l as [|o l IH]; intros acc H; [split; [exact H | reflexivity]|].
  cbn in H. apply IH in H as [Ha Hf]. unfold pick_latest in Ha. cbn.
  destruct (N.eqb (userId o) uid).
  - destruct acc as [b|]; [destruct (createdAt o >? createdAt b)|]; discriminate.
  - split; [exact Ha | exact Hf].
Qed.

(** With five-minute lifetimes the latest record expires last: some record
    of the account is unexpired exactly when the latest one is. *)
Lemma latest_otp_expires_last (uid : N) (d : DB) (now : Z) :
  otp_lifetimes d ->
  (exists o, In o (otps_of uid d) /\ expiresAt o > now) <->
  (exists last, latest_otp uid d = Some last /\ expiresAt last > now).
Proof.
  intro Hlt. unfold otp_lifetimes in Hlt. rewrite Forall_forall in Hlt.
  unfold latest_otp, otps_of. split.
  - intros (o & Ho & Hgt).
    destruct (fold_left (pick_latest uid) (otps d) None) as [last|] eqn:Hl.
    + exists last. split; [reflexivity|].
      destruct (fold_pick_ge _ _ _ _ Hl) as [_ Hge]. specialize (Hge o Ho).
      destruct (fold_pick_in _ _ _ _ Hl) as [Hn|Hin]; [discriminate|].
      apply filter_In in Ho as [Ho _]. apply filter_In in Hin as [Hin _].
      rewrite (Hlt o Ho) in Hgt. rewrite (Hlt last Hin). lia.
    + apply fold_pick_none in Hl as [_ Hl]. rewrite Hl in Ho. destruct Ho.
  - intros (last & Hl & Hgt). exists last. split; [|exact Hgt].
    destruct (fold_pick_in _ _ _ _ Hl) as [Hn|Hin]; [discriminate | exact Hin].
Qed.

Lemma account_create_otps (hash : string -> string) (x : AccountInput) (d d' : DB)
  (r : res Account) :
  account_create hash x d = (d', r) -> otps d' = otps d.
Proof.
  unfold account_create. run_m. intro H.
  split_matches_in H; inversion H; reflexivity.
Qed.

Lemma create_otp_lifetimes (now : Z) (uid : N) (code : string) (exp : Z) (d d' : DB)
  (r : res OTP) :
  exp = now + 300000 -> otp_lifetimes d ->
  create_otp now uid code exp d = (d', r) -> otp_lifetimes d'.
Proof.
  intros He Hl. unfold create_otp. run_m. intro H.
  split_matches_in H; inversion H; subst; clear H; [exact Hl|].
  unfold otp_lifetimes in *. cbn. apply Forall_app. split; [exact Hl|].
  constructor; [reflexivity | constructor].
Qed.

Lemma Forall_filter_keep {A : Type} (P : A -> Prop) (f : A -> bool) (l : list A) :
  Forall P l -> Forall P (filter f l).
Proof.
  rewrite !Forall_forall. intros Hl x Hx. apply filter_In in Hx as [Hx _]. exact (Hl x Hx).
Qed.

Lemma signup_lifetimes (hash : string -> string) (now : Z) (q : Q)
  (uname mail contact pw cp roleName : string) (d d' : DB) (r : res N) :
  otp_lifetimes d ->
  signup hash now q uname mail contact pw cp roleName d = (d', r) ->
  otp_lifetimes d'.
Proof.
  intros Hl. unfold signup. run_m. intro H.
  split_matches_in H; inversion H; subst; clear H; try exact Hl.
  all: match goal with
       | Ha : account_create _ _ _ = (?d1, _) |- _ =>
           assert (Hl1 : otp_lifetimes d1)
             by (unfold otp_lifetimes; rewrite (account_create_otps _ _ _ _ _ Ha); exact Hl)
       end.
  all: try exact Hl1.
  all: match goal with
       | Ho : create_otp _ _ _ _ _ = _ |- _ =>
           exact (create_otp_lifetimes _ _ _ _ _ _ _ eq_refl Hl1 Ho)
       end.
Qed.

Lemma resendOTP_lifetimes (now : Z) (r : Q) (contact : string) (d d' : DB) (res' : res unit) :
  otp_lifetimes d ->
  resendOTP now r contact d = (d', res') ->
  otp_lifetimes d'.
Proof.
  intros Hl. unfold resendOTP, delete_otps_of. run_m. intro H.
  split_matches_in H; inversion H; subst; clear H; try exact Hl.
  all: match goal with
       | Ho : create_otp _ _ _ _ _ = _ |- _ =>
           refine (create_otp_lifetimes _ _ _ _ _ _ _ eq_refl _ Ho);
           unfold otp_lifetimes, otps_not_of; cbn; apply Forall_filter_keep; exact Hl
       end.
Qed.

Lemma verifyOTP_lifetimes (now : Z) (contact code : string) (d d' : DB) (r : res session_token) :
  otp_lifetimes d ->
  verifyOTP now contact code d = (d', r) ->
  otp_lifetimes d'.
Proof.
  intros Hl. unfold verifyOTP, save_account, delete_otp. run_m. intro H.
  split_matches_in H; inversion H; subst; clear H; try exact Hl.
  unfold otp_lifetimes in *. cbn. apply Forall_filter_keep. exact Hl.
Qed.

(** C5.  Only [signup], [resendOTP] and [verifyOTP] write OTP records,
    and each keeps [otp_lifetimes]: every record expires five minutes
    after it was created.  On such a store, for an existing unverified
    account: if an unexpired OTP record of the account exists
    ([expiresAt > now]), [resendOTP] fails with TooManyRequests and the
    store is unchanged, so no record is created or deleted; if all of its
    records are expired (or there is none), it deletes every record of
    the account, keeps the others, and creates exactly one new record,
    expiring five minutes after [now], which is then the latest; and on
    the resulting store [verifyOTP] refuses every code other than the new
    one with BadRequest, so a previous code no longer verifies unless it
    happens to equal the new one. *)
Theorem resendOTP_outcomes (now : Z) (r : Q) (contact : string) (d : DB)
  (account : Account) :
  (0 <= r < 1)%Q ->
  otp_lifetimes d ->
  findAccountByContact contact d = Some account ->
  isVerified account = false ->
  ((exists o, In o (otps_of (acc_id account) d) /\ expiresAt o > now) ->
     exists m, resendOTP now r contact d = (d, Err (TooManyRequests m))) /\
  ((forall o, In o (otps_of (acc_id account) d) -> expiresAt o <= now) ->
   let o := mkOTP (next_id d) (acc_id account) (generateOTP r)
              (now + 5 * 60 * 1000) now in
   exists d',
     resendOTP now r contact d = (d', Ok tt) /\
     otps d' = otps_not_of (acc_id account) d ++ [o] /\
     otps_of (acc_id account) d' = [o] /\
     otps_not_of (acc_id account) d' = otps_not_of (acc_id account) d /\
     latest_otp (acc_id account) d' = Some o /\
     expiresAt o = now + 300000 /\
     (forall (t : Z) (code : string), code <> generateOTP r ->
        exists m, verifyOTP t contact code d' = (d', Err (BadRequest m)))) /\
  (forall (hash : string -> string) (d1 d2 : DB),
     otp_lifetimes d1 ->
     (forall now' q uname mail contact' pw cp roleName (res' : res N),
        signup hash now' q uname mail contact' pw cp roleName d1 = (d2, res') ->
        otp_lifetimes d2) /\
     (forall now' q contact' (res' : res unit),
        resendOTP now' q contact' d1 = (d2, res') -> otp_lifetimes d2) /\
     (forall now' contact' code (res' : res session_token),
        verifyOTP now' contact' code d1 = (d2, res') -> otp_lifetimes d2)).
Proof.
  intros Hr Hlt Hacc Hv.
  destruct (resendOTP_latest_outcomes now r contact d account Hr Hacc Hv) as [Hbusy Hok].
  split; [|split].
  - intro Hex. apply (latest_otp_expires_last _ _ now Hlt) in Hex as (last & Hl & Hgt).
    exact (Hbusy last Hl Hgt).
  - intros Hall o.
    assert (Hall' : forall last, latest_otp (acc_id account) d = Some last ->
                                 expiresAt last <= now).
    { intros last Hl.
      destruct (fold_pick_in _ _ _ _ Hl) as [Hn|Hin]; [discriminate|].
      exact (Hall last Hin). }
    destruct (Hok Hall') as (d' & Hrun & Hacc' & Hotps).
    pose proof (otps_not_of_none (acc_id account) d) as Hn.
    assert (Hl' : latest_otp (acc_id account) d' = Some o).
    { unfold latest_otp. rewrite Hotps. apply latest_otp_last; [exact Hn | reflexivity]. }
    exists d'. split; [exact Hrun|]. split; [exact Hotps|].
    split; [|split; [|split; [exact Hl'|split; [reflexivity|]]]].
    + unfold otps_of. rewrite Hotps, filter_app, (filter_none_of _ _ Hn).
      cbn. rewrite N.eqb_refl. reflexivity.
    + unfold otps_not_of at 1. rewrite Hotps, filter_app. cbn.
      rewrite N.eqb_refl. cbn. rewrite app_nil_r.
      unfold otps_not_of. apply filter_not_of_idem.
    + intros t code Hc.
      assert (Hf' : findAccountByContact contact d' = Some account)
        by (unfold findAccountByContact in *; rewrite Hacc'; exact Hacc).
      unfold verifyOTP. run_m. rewrite Hf'. cbn [option_map].
      rewrite account_init_isVerified, account_init_id, Hv, Hl'. cbn.
      replace (philsms_verifyOTP (generateOTP r) code (now + 300000) t) with false.
      * eexists. reflexivity.
      * symmetry. apply not_true_iff_false. rewrite philsms_verifyOTP_spec.
        intros [Heq _]. exact (Hc (eq_sym Heq)).
  - intros hash d1 d2 Hl1. split; [|split]; intros.
    + eapply signup_lifetimes; eassumption.
    + eapply resendOTP_lifetimes; eassumption.
    + eapply verifyOTP_lifetimes; eassumption.
Qed.

(** ** C6: login and seller approval *)

(** C6.  For a verified seller account found by the identifier and a
    correct password, [login] fails with Unauthenticated while
    [sellerApprovalStatus] is pending, fails with Unauthenticated and a
    different message while it is rejected, and returns a session token
    for the account once it is approved; the store is never changed. *)
Theorem login_seller_approval_gate (comparePassword : string -> string -> bool)
  (identifier pw : string) (d : DB) (account : Account) :
  login_lookup identifier d = Some account ->
  role_of account = seller ->
  isVerified account = true ->
  comparePassword pw (password account) = true ->
  (sellerApprovalStatus account = Some pending ->
     login comparePassword identifier pw d = (d, Err (Unauthenticated msg_pending))) /\
  (sellerApprovalStatus account = Some rejected ->
     login comparePassword identifier pw d = (d, Err (Unauthenticated msg_rejected))) /\
  msg_pending <> msg_rejected /\
  (sellerApprovalStatus account = Some approved ->
     login comparePassword identifier pw d = (d, Ok (generateToken (acc_id account)))).
Proof.
  intros Hl Hr Hv Hp. unfold login. run_m.
  rewrite Hl. cbn [option_map account_init isVerified role_of sellerApprovalStatus
                   password acc_id].
  rewrite Hv, Hr. cbn.
  split; [intro Hs; rewrite Hs; reflexivity|].
  split; [intro Hs; rewrite Hs; reflexivity|].
  split; [discriminate|].
  intro Hs. rewrite Hs. cbn. rewrite Hp. reflexivity.
Qed.

(** ** Roles *)

Lemma role_eqb_seller (r : role) : role_eqb r seller = true <-> r = seller.
Proof. destruct r; cbn; split; congruence. Qed.

(** ** Account creation *)

Lemma account_create_ok (hash : string -> string) (x : AccountInput) (d d' : DB) (a : Account) :
  account_create hash x d = (d', Ok a) ->
  a = accountPreSave hash true (match in_role x with Some _ => true | None => false end)
        (new_account (next_id d) x) /\
  d' = set_accounts (accounts d ++ [a]) (bump_id d).
Proof.
  unfold account_create. run_m. intro H.
  split_matches_in H; inversion H; subst; split; reflexivity.
Qed.

Lemma create_otp_ok (now : Z) (uid : N) (code : string) (exp : Z) (d d' : DB) (o : OTP) :
  create_otp now uid code exp d = (d', Ok o) ->
  accounts d' = accounts d /\ otps d' = otps d ++ [o] /\ userId o = uid.
Proof.
  unfold create_otp. run_m. intro H.
  split_matches_in H; inversion H; subst; repeat split.
Qed.

Lemma createAdminAccount_ok (hash : string -> string) (uname mail contact pw cp : string)
  (d d' : DB) (a : Account) :
  createAdminAccount hash uname mail contact pw cp d = (d', Ok a) ->
  existsb (fun b => String.eqb (contactNo b) contact) (accounts d) = false /\
  account_create hash
    (mkAccountInput (toLowerCase uname) (toLowerCase mail) contact pw
       (Some admin) (Some true) None) d = (d', Ok a).
Proof.
  unfold createAdminAccount. run_m. intro H.
  split_matches_in H; try discriminate. split; [reflexivity | assumption].
Qed.

Lemma signup_ok (hash : string -> string) (now : Z) (r : Q)
  (uname mail contact pw cp roleName : string) (d d' : DB) (id : N) :
  signup hash now r uname mail contact pw cp roleName d = (d', Ok id) ->
  exists (rl : role) (a : Account),
    parse_signup_role roleName = Some rl /\
    a = accountPreSave hash true true
          (new_account (next_id d)
             (mkAccountInput (toLowerCase uname) (toLowerCase mail) contact pw
                (Some rl) (Some false) None)) /\
    acc_id a = id /\ In a (accounts d') /\ otps_of id d' <> [].
Proof.
  unfold signup. run_m. intro H.
  split_matches_in H; try discriminate.
  inversion H; subst; clear H.
  match goal with
  | Ha : account_create _ _ _ = (_, Ok ?acc), Ho : create_otp _ _ _ _ _ = (_, Ok _) |- _ =>
      apply account_create_ok in Ha as [Ha Hd]; apply create_otp_ok in Ho as [Hacc [Hotps Huid]];
      exists r0, acc
  end.
  subst. split; [reflexivity|]. split; [reflexivity|]. split; [reflexivity|].
  split.
  - rewrite Hacc. cbn. apply in_or_app. right. left. reflexivity.
  - unfold otps_of. rewrite Hotps, filter_app. cbn. rewrite Huid, N.eqb_refl.
    intro Hc. apply app_eq_nil in Hc as [_ Hc]. discriminate.
Qed.

Lemma find_app_last {A : Type} (f : A -> bool) (l : list A) (a : A) :
  existsb f l = false -> f a = true -> find f (l ++ [a]) = Some a.
Proof.
  induction l as [|b l IH]; cbn; intros Hl Ha.
  - rewrite Ha. reflexivity.
  - apply orb_false_iff in Hl as [Hb Hl]. rewrite Hb. apply IH; assumption.
Qed.

Lemma signup_unverified (hash : string -> string) (now : Z) (r : Q)
  (uname mail contact pw cp roleName : string) (d d' : DB) (id : N) :
  signup hash now r uname mail contact pw cp roleName d = (d', Ok id) ->
  exists a, In a (accounts d') /\ acc_id a = id /\ isVerified a = false /\
            approval_invariant a /\ otps_of id d' <> [].
Proof.
  intro H. apply signup_ok in H as (rl & a & _ & Ha & Hid & Hin & Hotp).
  exists a. repeat split; try assumption.
  - subst a. unfold accountPreSave. cbn. destruct (role_eqb rl seller); reflexivity.
  - subst a. unfold accountPreSave. cbn. destruct (role_eqb rl seller) eqn:E; cbn.
    + apply role_eqb_seller in E. congruence.
    + intro Hc. contradiction.
  - subst a. unfold accountPreSave. cbn. destruct (role_eqb rl seller) eqn:E; cbn.
    + intros _. discriminate.
    + intro Hc. subst rl. discriminate.
Qed.

(** ** C10: administrator accounts *)

(** C10.  An account created by [createAdminAccount] is stored verified,
    with role admin, and no OTP record is created; with a password check
    that accepts the stored hash of the password, [login] with that
    password succeeds at once, and [verifyOTP] and [resendOTP] on its
    contact number are refused (BadRequest, already verified) without
    changing the store.  An account created by [signup] is instead stored
    unverified, with an OTP record. *)
Theorem createAdminAccount_verified_login (hash : string -> string)
  (comparePassword : string -> string -> bool)
  (uname mail contact pw : string) (d d' : DB) (a : Account) :
  (forall p, comparePassword p (hash p) = true) ->
  createAdminAccount hash uname mail contact pw pw d = (d', Ok a) ->
  isVerified a = true /\ role_of a = admin /\ contactNo a = contact /\
  In a (accounts d') /\ otps d' = otps d /\
  (forall identifier : string, login_lookup identifier d' = Some a ->
     login comparePassword identifier pw d' = (d', Ok (generateToken (acc_id a)))) /\
  (forall (now : Z) (code : string),
     exists m, verifyOTP now contact code d' = (d', Err (BadRequest m))) /\
  (forall (now : Z) (r : Q),
     exists m, resendOTP now r contact d' = (d', Err (BadRequest m))) /\
  (forall (now : Z) (r : Q) (uname2 mail2 contact2 pw2 roleName : string)
          (d2 d2' : DB) (id : N),
     signup hash now r uname2 mail2 contact2 pw2 pw2 roleName d2 = (d2', Ok id) ->
     exists a2, In a2 (accounts d2') /\ acc_id a2 = id /\ isVerified a2 = false /\
                otps_of id d2' <> []).
Proof.
  intros Hcmp H. apply createAdminAccount_ok in H as [Hc H].
  apply account_create_ok in H as [Ha Hd].
  assert (Hv : isVerified a = true) by (rewrite Ha; reflexivity).
  assert (Hr : role_of a = admin) by (rewrite Ha; reflexivity).
  assert (Hct : contactNo a = contact) by (rewrite Ha; reflexivity).
  assert (Hpw : password a = hash pw) by (rewrite Ha; reflexivity).
  assert (Hf : findAccountByContact contact d' = Some a).
  { rewrite Hd. unfold findAccountByContact. cbn.
    apply find_app_last; [exact Hc | rewrite Hct; apply String.eqb_refl]. }
  split; [exact Hv|]. split; [exact Hr|]. split; [exact Hct|].
  split; [rewrite Hd; cbn; apply in_or_app; right; left; reflexivity|].
  split; [rewrite Hd; reflexivity|].
  split; [|split; [|split]].
  - intros identifier Hl. unfold login. run_m.
    rewrite Hl. cbn [option_map account_init isVerified role_of password acc_id].
    rewrite Hv, Hr. cbn. rewrite Hpw, Hcmp. reflexivity.
  - intros now code. unfold verifyOTP. run_m. rewrite Hf. cbn [option_map].
    rewrite account_init_isVerified, Hv. eexists. reflexivity.
  - intros now r. unfold resendOTP. run_m. rewrite Hf, Hv. eexists. reflexivity.
  - intros now r uname2 mail2 contact2 pw2 roleName d2 d2' id Hs.
    apply signup_unverified in Hs as (a2 & Hin & Hid & Hv2 & _ & Ho).
    exists a2. repeat split; assumption.
Qed.

(** ** The approval fields under the account writes *)

Lemma replace_account_Forall (P : Account -> Prop) (a : Account) (l : list Account) :
  Forall P l -> P a -> Forall P (replace_account a l).
Proof.
  intros Hl Ha. unfold replace_account. apply Forall_map.
  eapply Forall_impl; [|exact Hl]. intros x Hx. cbn.
  destruct (N.eqb (acc_id x) (acc_id a)); assumption.
Qed.

Lemma preSave_role_modified_inv (hash : string -> string) (pm : bool) (a : Account) :
  approval_invariant (accountPreSave hash pm true a).
Proof.
  unfold accountPreSave, approval_invariant.
  assert (Hr : role_of (if pm then set_password (hash (password a)) a else a) = role_of a)
    by (destruct pm; reflexivity).
  destruct (role_eqb (role_of (if pm then set_password (hash (password a)) a else a)) seller) eqn:E;
    rewrite Hr in E; cbn; rewrite Hr.
  - apply role_eqb_seller in E. split; congruence.
  - split; [congruence|]. intro Hc. apply role_eqb_seller in Hc. congruence.
Qed.

Lemma preSave_role_modified_ok (hash : string -> string) (pm : bool) (a : Account) :
  approval_fields_ok (accountPreSave hash pm true a).
Proof.
  unfold accountPreSave, approval_fields_ok.
  assert (Hr : role_of (if pm then set_password (hash (password a)) a else a) = role_of a)
    by (destruct pm; reflexivity).
  destruct (role_eqb (role_of (if pm then set_password (hash (password a)) a else a)) seller) eqn:E;
    rewrite Hr in E; cbn; rewrite Hr.
  - apply role_eqb_seller in E. split; [intros _; discriminate | intro Hc; contradiction].
  - split.
    + intro Hc. apply role_eqb_seller in Hc. congruence.
    + intros _. split; [left|split]; reflexivity.
Qed.

Lemma account_init_ok (a : Account) :
  approval_fields_ok a -> approval_fields_ok (account_init a).
Proof.
  unfold approval_fields_ok, account_init. cbn. intros [H1 H2]. split.
  - intros _. destruct (sellerApprovalStatus a); discriminate.
  - intro Hr. destruct (H2 Hr) as [Hs [Hb Ht]].
    split; [|split; assumption].
    destruct Hs as [-> | ->]; right; reflexivity.
Qed.

Lemma with_verified_ok (a : Account) :
  approval_fields_ok a -> approval_fields_ok (with_verified a).
Proof. intro H. exact H. Qed.

Lemma apply_profile_ok (uname mail contact : string) (a : Account) :
  approval_fields_ok a -> approval_fields_ok (apply_profile uname mail contact a).
Proof. intro H. exact H. Qed.

Lemma option_map_init_some (o : option Account) (a : Account) :
  option_map account_init o = Some a -> exists b, o = Some b /\ a = account_init b.
Proof.
  destruct o as [b|]; cbn; intro H; [|discriminate].
  inversion H. exists b. split; reflexivity.
Qed.

Lemma find_Forall {A : Type} (P : A -> Prop) (f : A -> bool) (l : list A) (x : A) :
  Forall P l -> find f l = Some x -> P x.
Proof.
  intros Hl Hf. apply find_some in Hf as [Hin _].
  rewrite Forall_forall in Hl. exact (Hl x Hin).
Qed.

Lemma remove_first_account_Forall (P : Account -> Prop) (id : N) (l : list Account) :
  Forall P l -> Forall P (remove_first_account id l).
Proof.
  induction l as [|x l IH]; intro Hl; cbn; [constructor|].
  inversion Hl; subst. destruct (N.eqb (acc_id x) id); [assumption|].
  constructor; [assumption | apply IH; assumption].
Qed.

Lemma account_create_err (hash : string -> string) (x : AccountInput) (d d' : DB) (e : error) :
  account_create hash x d = (d', Err e) -> d' = d.
Proof.
  unfold account_create. run_m. intro H.
  split_matches_in H; inversion H; reflexivity.
Qed.

Lemma account_create_inv (hash : string -> string) (x : AccountInput) (d d' : DB)
  (r : res Account) :
  in_role x <> None ->
  Forall approval_fields_ok (accounts d) ->
  account_create hash x d = (d', r) ->
  Forall approval_fields_ok (accounts d').
Proof.
  intros Hr Hl H. destruct r as [a|e].
  - apply account_create_ok in H as [Ha Hd]. subst d'. cbn.
    apply Forall_app. split; [exact Hl|]. constructor; [|constructor].
    subst a. destruct (in_role x); [|congruence]. apply preSave_role_modified_ok.
  - apply account_create_err in H. subst. exact Hl.
Qed.

Lemma create_otp_accounts (now : Z) (uid : N) (code : string) (exp : Z) (d d' : DB)
  (r : res OTP) :
  create_otp now uid code exp d = (d', r) -> accounts d' = accounts d.
Proof.
  unfold create_otp. run_m. intro H.
  split_matches_in H; inversion H; reflexivity.
Qed.

Lemma signup_inv (hash : string -> string) (now : Z) (q : Q)
  (uname mail contact pw cp roleName : string) (d d' : DB) (r : res N) :
  Forall approval_fields_ok (accounts d) ->
  signup hash now q uname mail contact pw cp roleName d = (d', r) ->
  Forall approval_fields_ok (accounts d').
Proof.
  intros Hl. unfold signup. run_m. intro H.
  split_matches_in H; inversion H; subst; clear H; try exact Hl.
  all: match goal with
       | Ha : account_create _ _ _ = (?d1, _) |- _ =>
           assert (Hl1 : Forall approval_fields_ok (accounts d1))
             by (eapply account_create_inv; [|exact Hl|exact Ha]; cbn; discriminate)
       end.
  all: try exact Hl1.
  all: match goal with
       | Ho : create_otp _ _ _ _ _ = _ |- _ => apply create_otp_accounts in Ho; rewrite Ho
       end; exact Hl1.
Qed.

Lemma createAdminAccount_inv (hash : string -> string) (uname mail contact pw cp : string)
  (d d' : DB) (r : res Account) :
  Forall approval_fields_ok (accounts d) ->
  createAdminAccount hash uname mail contact pw cp d = (d', r) ->
  Forall approval_fields_ok (accounts d').
Proof.
  intros Hl. unfold createAdminAccount. run_m. intro H.
  split_matches_in H; try (inversion H; subst; exact Hl).
  eapply account_create_inv; [|exact Hl|exact H]. cbn. discriminate.
Qed.

(** A document loaded from the store and saved back. *)
Ltac loaded_ok Hl :=
  match goal with
  | Ho : option_map account_init _ = Some _ |- _ =>
      apply option_map_init_some in Ho as (b & Hb & ->);
      try unfold findAccountByContact, findAccountById in Hb;
      apply account_init_ok; exact (find_Forall _ _ _ _ Hl Hb)
  end.

Lemma verifyOTP_inv (now : Z) (contact code : string) (d d' : DB) (r : res session_token) :
  Forall approval_fields_ok (accounts d) ->
  verifyOTP now contact code d = (d', r) ->
  Forall approval_fields_ok (accounts d').
Proof.
  intros Hl. unfold verifyOTP, save_account, delete_otp. run_m. intro H.
  split_matches_in H; inversion H; subst; clear H; try exact Hl.
  cbn. apply replace_account_Forall; [exact Hl|].
  apply with_verified_ok. loaded_ok Hl.
Qed.

Lemma updateSellerApprovalStatus_inv (hash : string -> string) (now : Z)
  (adminId sellerId : N) (status : string) (d d' : DB) (r : res Account) :
  Forall approval_fields_ok (accounts d) ->
  updateSellerApprovalStatus hash now adminId sellerId status d = (d', r) ->
  Forall approval_fields_ok (accounts d').
Proof.
  intros Hl. unfold updateSellerApprovalStatus, account_save. run_m. intro H.
  split_matches_in H; inversion H; subst; clear H; try exact Hl.
  all: cbn; apply replace_account_Forall; [exact Hl| ].
  all: match goal with
       | Hf : find _ _ = Some ?acc |- _ =>
           apply find_some in Hf as [_ Hp]; unfold pending_seller_filter in Hp;
           apply andb_true_iff in Hp as [Hp _]; apply andb_true_iff in Hp as [_ Hp];
           apply role_eqb_seller in Hp
       end.
  all: unfold approval_fields_ok; cbn;
    split; [intros _; discriminate | intro Hc; contradiction].
Qed.

Lemma profile_save_inv (hash : string -> string) (a : Account) (d d' : DB) (r : res Account) :
  Forall approval_fields_ok (accounts d) ->
  approval_fields_ok a ->
  profile_save hash a d = (d', r) ->
  Forall approval_fields_ok (accounts d').
Proof.
  intros Hl Ha. unfold profile_save, account_save. run_m. intro H.
  split_matches_in H; inversion H; subst; clear H; [exact Hl|].
  cbn. apply replace_account_Forall; [exact Hl|]. exact Ha.
Qed.

Lemma updateUserProfile_inv (hash : string -> string) (userId : N)
  (uname mail contact : string) (d d' : DB) (r : res Account) :
  Forall approval_fields_ok (accounts d) ->
  updateUserProfile hash userId uname mail contact d = (d', r) ->
  Forall approval_fields_ok (accounts d').
Proof.
  intros Hl. unfold updateUserProfile. unfold bind at 1, get. cbn beta iota.
  destruct (option_map account_init (findAccountById userId d)) as [a|] eqn:Ho.
  - destruct (profile_conflict userId a uname mail contact d) as [e|].
    + unfold throw. intro H. inversion H; subst. exact Hl.
    + apply profile_save_inv; [exact Hl|]. apply apply_profile_ok. loaded_ok Hl.
  - unfold throw. intro H. inversion H; subst. exact Hl.
Qed.

Lemma updateAdminAccount_inv (hash : string -> string) (adminId : N)
  (uname mail contact : string) (d d' : DB) (r : res Account) :
  Forall approval_fields_ok (accounts d) ->
  updateAdminAccount hash adminId uname mail contact d = (d', r) ->
  Forall approval_fields_ok (accounts d').
Proof.
  intros Hl. unfold updateAdminAccount. unfold bind at 1, get. cbn beta iota.
  destruct (option_map account_init
              (find (fun a => N.eqb (acc_id a) adminId && role_eqb (role_of a) admin)
                 (accounts d))) as [a|] eqn:Ho.
  - destruct (profile_conflict adminId a uname mail contact d) as [e|].
    + unfold throw. intro H. inversion H; subst. exact Hl.
    + apply profile_save_inv; [exact Hl|]. apply apply_profile_ok. loaded_ok Hl.
  - unfold throw. intro H. inversion H; subst. exact Hl.
Qed.

Lemma deleteAdminAccount_inv (adminId : N) (d d' : DB) (r : res unit) :
  Forall approval_fields_ok (accounts d) ->
  deleteAdminAccount adminId d = (d', r) ->
  Forall approval_fields_ok (accounts d').
Proof.
  intros Hl. unfold deleteAdminAccount. run_m. intro H.
  split_matches_in H; inversion H; subst; clear H; [|exact Hl].
  cbn. apply remove_first_account_Forall. exact Hl.
Qed.

(** ** C9: the seller approval fields *)

(** C9 (as the code does it).  The pre-save hook acts on saves where
    [role] is modified: then role seller sets [sellerApprovalStatus] to
    pending, and any other role clears [sellerApprovalStatus],
    [approvedBy] and [approvedAt], so the saved account has a status
    exactly when it is a seller; a save that does not modify [role]
    leaves the role and the three fields as they are.  An account created
    with an explicit role has a status exactly when it is a seller.  No
    controller changes the role of a stored account, and every controller
    that writes accounts ([signup], [createAdminAccount], [verifyOTP],
    [updateSellerApprovalStatus], [updateUserProfile],
    [updateAdminAccount], [deleteAdminAccount]) keeps [approval_fields_ok]
    on all stored accounts, whatever its outcome: every seller has a
    status, and a non-seller has no [approvedBy], no [approvedAt] and at
    most the default status pending (which a save of the loaded document
    writes back). *)
Theorem account_approval_invariant (hash : string -> string) :
  (forall (pm : bool) (a : Account),
     role_of (accountPreSave hash pm true a) = role_of a /\
     (role_of a = seller ->
        sellerApprovalStatus (accountPreSave hash pm true a) = Some pending) /\
     (role_of a <> seller ->
        sellerApprovalStatus (accountPreSave hash pm true a) = None /\
        approvedBy (accountPreSave hash pm true a) = None /\
        approvedAt (accountPreSave hash pm true a) = None) /\
     approval_invariant (accountPreSave hash pm true a)) /\
  (forall (pm : bool) (a : Account),
     role_of (accountPreSave hash pm false a) = role_of a /\
     sellerApprovalStatus (accountPreSave hash pm false a) = sellerApprovalStatus a /\
     approvedBy (accountPreSave hash pm false a) = approvedBy a /\
     approvedAt (accountPreSave hash pm false a) = approvedAt a) /\
  (forall (x : AccountInput) (d d' : DB) (a : Account),
     in_role x <> None ->
     account_create hash x d = (d', Ok a) ->
     approval_invariant a) /\
  (forall (d d' : DB),
     Forall approval_fields_ok (accounts d) ->
     (forall now q uname mail contact pw cp roleName (r : res N),
        signup hash now q uname mail contact pw cp roleName d = (d', r) ->
        Forall approval_fields_ok (accounts d')) /\
     (forall uname mail contact pw cp (r : res Account),
        createAdminAccount hash uname mail contact pw cp d = (d', r) ->
        Forall approval_fields_ok (accounts d')) /\
     (forall now contact code (r : res session_token),
        verifyOTP now contact code d = (d', r) ->
        Forall approval_fields_ok (accounts d')) /\
     (forall now adminId sellerId status (r : res Account),
        updateSellerApprovalStatus hash now adminId sellerId status d = (d', r) ->
        Forall approval_fields_ok (accounts d')) /\
     (forall userId uname mail contact (r : res Account),
        updateUserProfile hash userId uname mail contact d = (d', r) ->
        Forall approval_fields_ok (accounts d')) /\
     (forall adminId uname mail contact (r : res Account),
        updateAdminAccount hash adminId uname mail contact d = (d', r) ->
        Forall approval_fields_ok (accounts d')) /\
     (forall adminId (r : res unit),
        deleteAdminAccount adminId d = (d', r) ->
        Forall approval_fields_ok (accounts d'))).
Proof.
  split; [|split; [|split]].
  - intros pm a.
    split; [unfold accountPreSave; destruct pm; cbn; destruct (role_eqb _ seller); reflexivity|].
    split; [|split]; [| |apply preSave_role_modified_inv];
      unfold accountPreSave;
      assert (Hr : role_of (if pm then set_password (hash (password a)) a else a) = role_of a)
        by (destruct pm; reflexivity);
      destruct (role_eqb (role_of (if pm then set_password (hash (password a)) a else a)) seller) eqn:E;
      rewrite Hr in E; intro Hs.
    + reflexivity.
    + apply role_eqb_seller in Hs. congruence.
    + apply role_eqb_seller in E. contradiction.
    + repeat split.
  - intros pm a. destruct pm; repeat split.
  - intros x d d' a Hr H. apply account_create_ok in H as [Ha _]. subst a.
    destruct (in_role x); [|congruence]. apply preSave_role_modified_inv.
  - intros d d' Hl.
    split; [|split; [|split; [|split; [|split; [|split]]]]]; intros.
    + eapply signup_inv; eassumption.
    + eapply createAdminAccount_inv; eassumption.
    + eapply verifyOTP_inv; eassumption.
    + eapply updateSellerApprovalStatus_inv; eassumption.
    + eapply updateUserProfile_inv; eassumption.
    + eapply updateAdminAccount_inv; eassumption.
    + eapply deleteAdminAccount_inv; eassumption.
Qed.

(** C9 as stated fails: the approval status is not present only on
    sellers.  A buyer who signs up is stored without a status, but the
    [verifyOTP] that verifies the account saves the loaded document,
    which carries the schema default, so the stored buyer then has
    [sellerApprovalStatus] pending. *)
Lemma verified_buyer_keeps_pending :
  Forall approval_invariant (accounts shop_db) /\
  signup toy_hash 0 (1#2) "Cruz" "cruz@example.com" "9170000000"
    "isda12345" "isda12345" "buyer" shop_db
    = (fst (signup toy_hash 0 (1#2) "Cruz" "cruz@example.com" "9170000000"
              "isda12345" "isda12345" "buyer" shop_db), Ok 100%N) /\
  findAccountById 100
    (fst (signup toy_hash 0 (1#2) "Cruz" "cruz@example.com" "9170000000"
            "isda12345" "isda12345" "buyer" shop_db))
    = Some (mkAccount 100 "cruz" "cruz@example.com" "9170000000" (toy_hash "isda12345")
              buyer false None None None) /\
  exists d' a,
    verifyOTP 1000 "9170000000" (generateOTP (1#2))
      (fst (signup toy_hash 0 (1#2) "Cruz" "cruz@example.com" "9170000000"
              "isda12345" "isda12345" "buyer" shop_db))
      = (d', Ok (generateToken 100)) /\
    findAccountById 100 d' = Some a /\
    role_of a = buyer /\ sellerApprovalStatus a = Some pending /\
    ~ approval_invariant a.
Proof.
  split.
  { cbn. constructor; [|constructor; [|constructor]];
      unfold approval_invariant; cbn; split; congruence. }
  split; [vm_compute; reflexivity|].
  split; [vm_compute; reflexivity|].
  eexists. eexists. split; [vm_compute; reflexivity|].
  split; [vm_compute; reflexivity|].
  split; [reflexivity|]. split; [reflexivity|].
  unfold approval_invariant. cbn. intros [H _]. discriminate (H ltac:(discriminate)).
Qed.

(** ** Carts *)

Lemma update_first_line_items (itemId : N) (q : Z) (ls : list CartLine) :
  map line_item (update_first_line itemId q ls) = map line_item ls.
Proof.
  induction ls as [|l ls IH]; cbn; [reflexivity|].
  destruct (N.eqb (line_item l) itemId); cbn; [reflexivity|]. rewrite IH. reflexivity.
Qed.

Lemma update_first_line_find (itemId : N) (q : Z) (ls : list CartLine) (l : CartLine) :
  find (fun l => N.eqb (line_item l) itemId) ls = Some l ->
  find (fun l => N.eqb (line_item l) itemId) (update_first_line itemId q ls)
  = Some (mkLine itemId q).
Proof.
  induction ls as [|x ls IH]; cbn; [discriminate|].
  destruct (N.eqb (line_item x) itemId) eqn:E; cbn.
  - intros _. rewrite E. apply N.eqb_eq in E. rewrite E. reflexivity.
  - rewrite E. exact IH.
Qed.

Lemma update_first_line_pos (itemId : N) (q : Z) (ls : list CartLine) :
  Forall (fun l => 0 < line_quantity l) ls -> 0 < q ->
  Forall (fun l => 0 < line_quantity l) (update_first_line itemId q ls).
Proof.
  induction ls as [|l ls IH]; cbn; intros Hl Hq; [constructor|].
  inversion Hl; subst.
  destruct (N.eqb (line_item l) itemId); constructor; cbn; auto.
Qed.

Lemma existsb_nonpos_false (ls : list CartLine) :
  Forall (fun l => 0 < line_quantity l) ls ->
  existsb (fun l => line_quantity l <=? 0) ls = false.
Proof.
  induction ls as [|l ls IH]; intro Hl; [reflexivity|].
  inversion Hl; subst. cbn. rewrite IH by assumption.
  replace (line_quantity l <=? 0) with false by (symmetry; apply Z.leb_gt; lia).
  reflexivity.
Qed.

Lemma find_map_replace_cart (u : N) (c : Cart) (l : list Cart) :
  cart_user c = u ->
  existsb (fun c' => N.eqb (cart_user c') u) l = true ->
  find (fun c' => N.eqb (cart_user c') u)
    (map (fun c' => if N.eqb (cart_user c') u then c else c') l) = Some c.
Proof.
  intro Hu. induction l as [|x l IH]; cbn; [discriminate|].
  destruct (N.eqb (cart_user x) u) eqn:E; cbn.
  - intros _. rewrite Hu, N.eqb_refl. reflexivity.
  - rewrite E. exact IH.
Qed.

Lemma cart_save_ok (c : Cart) (d : DB) :
  Forall (fun l => 0 < line_quantity l) (cart_items c) ->
  exists d', cart_save c d = (d', Ok tt) /\ findCart (cart_user c) d' = Some c.
Proof.
  intro Hpos. unfold cart_save. rewrite existsb_nonpos_false by exact Hpos.
  run_m. eexists. split; [reflexivity|].
  destruct (existsb (fun c' => N.eqb (cart_user c') (cart_user c)) (carts d)) eqn:E;
    unfold findCart; cbn.
  - apply find_map_replace_cart; [reflexivity | exact E].
  - apply find_app_last; [exact E | apply N.eqb_refl].
Qed.

Lemma cart_save_distinct (c : Cart) (d d' : DB) (r : res unit) :
  Forall cart_lines_distinct (carts d) -> cart_lines_distinct c ->
  cart_save c d = (d', r) -> Forall cart_lines_distinct (carts d').
Proof.
  intros Hl Hc. unfold cart_save. run_m. intro H.
  split_matches_in H; inversion H; subst; clear H; cbn; [exact Hl| |].
  - apply Forall_map. eapply Forall_impl; [|exact Hl].
    intros x Hx. cbn. destruct (N.eqb (cart_user x) (cart_user c)); assumption.
  - apply Forall_app. split; [exact Hl|]. constructor; [exact Hc | constructor].
Qed.

Lemma find_none_not_in (itemId : N) (ls : list CartLine) :
  find (fun l => N.eqb (line_item l) itemId) ls = None ->
  ~ In itemId (map line_item ls).
Proof.
  induction ls as [|l ls IH]; cbn; [tauto|].
  destruct (N.eqb (line_item l) itemId) eqn:E; [discriminate|].
  intros Hf [Heq | Hin].
  - subst. rewrite N.eqb_refl in E. discriminate.
  - exact (IH Hf Hin).
Qed.

Lemma getCart_lines_total (d : DB) (ls : list CartLine) :
  forall (t : Z) (ids : list N) data t' ids',
  getCart_lines d ls t ids = Some (data, t', ids') -> t' = t + cart_sum d ls.
Proof.
  induction ls as [|l ls IH]; intros t ids data t' ids' H; cbn in H |- *.
  - inversion H; subst. lia.
  - destruct (findItemById (line_item l) d) as [it|].
    + destruct (findAccountById (item_seller it) d); [|discriminate].
      destruct (getCart_lines d ls (t + itemPrice it * line_quantity l) _)
        as [[[data0 t0] ids0]|] eqn:E; [|discriminate].
      inversion H; subst. apply IH in E. unfold cart_sum in E. lia.
    + apply IH in H. exact H.
Qed.

Lemma NoDup_snoc {A : Type} (l : list A) (x : A) :
  NoDup l -> ~ In x l -> NoDup (l ++ [x]).
Proof.
  induction l as [|y l IH]; cbn; intros Hl Hx.
  - constructor; [tauto | constructor].
  - inversion Hl; subst. constructor.
    + rewrite in_app_iff. cbn. intros [H | [H | []]]; [contradiction|]. subst. tauto.
    + apply IH; [assumption | tauto].
Qed.

Lemma addToCart_distinct (userId : N) (itemId : option N) (q : Z) (d d' : DB) (r : res unit) :
  Forall cart_lines_distinct (carts d) ->
  addToCart userId itemId q d = (d', r) ->
  Forall cart_lines_distinct (carts d').
Proof.
  intros Hl. unfold addToCart. run_m. intro H. cbn zeta in H.
  split_matches_in H; try (inversion H; subst; exact Hl).
  all: eapply cart_save_distinct; [exact Hl| |exact H].
  all: assert (Hc : forall c0, findCart userId d = Some c0 -> cart_lines_distinct c0)
         by (intros ? Hf; apply find_some in Hf as [Hf _];
             rewrite Forall_forall in Hl; apply Hl; exact Hf).
  all: unfold cart_lines_distinct, cart_updateItemQuantity, cart_addItem.
  all: repeat match goal with
       | Hf : cart_findItem _ _ = _ |- _ => rewrite Hf
       end; cbn.
  all: try rewrite update_first_line_items.
  all: try (apply Hc; assumption).
  all: try (rewrite map_app; apply NoDup_snoc;
            [apply Hc; assumption || constructor
            | apply find_none_not_in; assumption]).
  all: cbn; repeat constructor; intros [].
Qed.

(** ** C7: the cart *)

(** C7.  [addToCart(itemId, quantity)] by [userId]: when the user's cart
    already holds a line for the item (and the add passes the checks),
    the quantity is summed into that line and the cart keeps the same
    lines; no call ever puts two lines for the same item in a cart.  With
    a positive quantity, the call fails with NotFound when the item does
    not exist, and with BadRequest when the item is inactive, when the
    user is the item's seller, or when the existing line's quantity plus
    the requested one exceeds the item's stock; a quantity [<= 0] is
    refused with BadRequest; refusals change nothing.  When [getCart]
    answers, its [cartTotal] is the sum of [itemPrice * quantity] over the
    lines of the user's cart whose item still exists. *)
Theorem addToCart_merge_and_getCart_total (userId iid : N) (q : Z) (d : DB) :
  (forall (item : Item) (c : Cart) (l : CartLine),
     findItemById iid d = Some item -> isActive item = true ->
     0 < q <= quantity item -> item_seller item <> userId ->
     findCart userId d = Some c ->
     Forall (fun l => 0 < line_quantity l) (cart_items c) ->
     cart_findItem iid c = Some l -> line_quantity l + q <= quantity item ->
     exists d', addToCart userId (Some iid) q d = (d', Ok tt) /\
       exists c', findCart userId d' = Some c' /\
         map line_item (cart_items c') = map line_item (cart_items c) /\
         cart_findItem iid c' = Some (mkLine iid (line_quantity l + q))) /\
  (forall (d' : DB) (r : res unit),
     Forall cart_lines_distinct (carts d) ->
     addToCart userId (Some iid) q d = (d', r) ->
     Forall cart_lines_distinct (carts d')) /\
  (q <= 0 -> exists m, addToCart userId (Some iid) q d = (d, Err (BadRequest m))) /\
  (0 < q -> findItemById iid d = None ->
     exists m, addToCart userId (Some iid) q d = (d, Err (NotFound m))) /\
  (forall item : Item, 0 < q -> findItemById iid d = Some item ->
     isActive item = false ->
     exists m, addToCart userId (Some iid) q d = (d, Err (BadRequest m))) /\
  (forall item : Item, 0 < q -> findItemById iid d = Some item ->
     item_seller item = userId ->
     exists m, addToCart userId (Some iid) q d = (d, Err (BadRequest m))) /\
  (forall (item : Item) (c : Cart) (l : CartLine), 0 < q ->
     findItemById iid d = Some item -> findCart userId d = Some c ->
     cart_findItem iid c = Some l -> line_quantity l + q > quantity item ->
     exists m, addToCart userId (Some iid) q d = (d, Err (BadRequest m))) /\
  (forall (d' : DB) (s : cart_summary),
     getCart userId d = (d', Ok s) ->
     d' = d /\
     cartTotal s = cart_sum d (match findCart userId d with
                              | Some c => cart_items c
                              | None => []
                              end)).
Proof.
  split; [|split; [|split; [|split; [|split; [|split; [|split]]]]]].
  - intros item c l Hi Ha Hq Hs Hc Hpos Hl Hle.
    assert (Hu : cart_user c = userId)
      by (apply find_some in Hc as [_ Hc]; apply N.eqb_eq; exact Hc).
    assert (Hlpos : 0 < line_quantity l)
      by (unfold cart_findItem in Hl; apply find_some in Hl as [Hin _];
          rewrite Forall_forall in Hpos; exact (Hpos l Hin)).
    set (c' := set_cart_items (update_first_line iid (line_quantity l + q) (cart_items c)) c).
    assert (Hpos' : Forall (fun l => 0 < line_quantity l) (cart_items c'))
      by (apply update_first_line_pos; [exact Hpos | lia]).
    destruct (cart_save_ok c' d Hpos') as [d' [Hsave Hfind]].
    exists d'. split.
    + unfold addToCart. run_m. cbn zeta.
      replace (q =? 0) with false by (symmetry; apply Z.eqb_neq; lia).
      replace (q <=? 0) with false by (symmetry; apply Z.leb_gt; lia).
      rewrite Hi, Ha. cbn.
      replace (q >? quantity item) with false
        by (symmetry; rewrite Z.gtb_ltb; apply Z.ltb_ge; lia).
      replace (N.eqb (item_seller item) userId) with false
        by (symmetry; apply N.eqb_neq; exact Hs).
      rewrite Hc, Hl.
      replace (line_quantity l + q >? quantity item) with false
        by (symmetry; rewrite Z.gtb_ltb; apply Z.ltb_ge; lia).
      unfold cart_updateItemQuantity. rewrite Hl. exact Hsave.
    + exists c'. split; [rewrite <- Hu; exact Hfind|]. split.
      * apply update_first_line_items.
      * apply update_first_line_find with (l := l). exact Hl.
  - intros d' r Hl H. eapply addToCart_distinct; eassumption.
  - intro Hq. unfold addToCart. run_m.
    destruct (q =? 0); [eexists; reflexivity|].
    replace (q <=? 0) with true by (symmetry; apply Z.leb_le; exact Hq).
    eexists. reflexivity.
  - intros Hq Hi. unfold addToCart. run_m.
    replace (q =? 0) with false by (symmetry; apply Z.eqb_neq; lia).
    replace (q <=? 0) with false by (symmetry; apply Z.leb_gt; lia).
    rewrite Hi. eexists. reflexivity.
  - intros item Hq Hi Ha. unfold addToCart. run_m.
    replace (q =? 0) with false by (symmetry; apply Z.eqb_neq; lia).
    replace (q <=? 0) with false by (symmetry; apply Z.leb_gt; lia).
    rewrite Hi, Ha. eexists. reflexivity.
  - intros item Hq Hi Hs. unfold addToCart. run_m.
    replace (q =? 0) with false by (symmetry; apply Z.eqb_neq; lia).
    replace (q <=? 0) with false by (symmetry; apply Z.leb_gt; lia).
    rewrite Hi, Hs, N.eqb_refl.
    destruct (negb (isActive item)); [eexists; reflexivity|].
    destruct (q >? quantity item); eexists; reflexivity.
  - intros item c l Hq Hi Hc Hl Hgt. unfold addToCart. run_m. cbn zeta.
    replace (q =? 0) with false by (symmetry; apply Z.eqb_neq; lia).
    replace (q <=? 0) with false by (symmetry; apply Z.leb_gt; lia).
    rewrite Hi, Hc, Hl.
    replace (line_quantity l + q >? quantity item) with true
      by (symmetry; rewrite Z.gtb_ltb; apply Z.ltb_lt; lia).
    destruct (negb (isActive item)); [eexists; reflexivity|].
    destruct (q >? quantity item); [eexists; reflexivity|].
    destruct (N.eqb (item_seller item) userId); eexists; reflexivity.
  - intros d' s. unfold getCart. run_m. intro H.
    split_matches_in H; inversion H; subst; clear H; split; try reflexivity.
    cbn. match goal with
         | He : getCart_lines _ _ _ _ = Some _ |- _ => apply getCart_lines_total in He
         end. lia.
Qed.

(** ** Witnesses *)

Lemma sellItem_error_effects_witness :
  exists d',
  sellItem (mkFaults false false true) 10 1 5 2 "" shop_db = (d', Err ReadFailed) /\
  ((items d' = items shop_db /\ receipts d' = receipts shop_db) \/
   (items d' = items shop_db /\
    exists rc, receipts d' = receipts shop_db ++ [rc] /\
               rc_item rc = 10%N /\ rc_quantitySold rc = 5) \/
   (ReadFailed = ReadFailed /\
    (exists rc, receipts d' = receipts shop_db ++ [rc] /\
                rc_item rc = 10%N /\ rc_quantitySold rc = 5) /\
    exists item item', findItemById 10 shop_db = Some item /\
      findItemById 10 d' = Some item' /\ quantity item' = quantity item - 5)).
Proof.
  exists (fst (sellItem (mkFaults false false true) 10 1 5 2 "" shop_db)).
  assert (H : sellItem (mkFaults false false true) 10 1 5 2 "" shop_db
    = (fst (sellItem (mkFaults false false true) 10 1 5 2 "" shop_db), Err ReadFailed))
    by (vm_compute; reflexivity).
  split; [exact H|].
  exact (sellItem_error_effects (mkFaults false false true) shop_db _ 10 1 2 5 "" ReadFailed H).
Defined.

Lemma run2_quantity_nonneg_witness :
  items_nonneg shop_db /\
  items_nonneg (sys_db (run2 sale_a sale_b [true; false; true; true; false; false]
                          (mkSys2 shop_db SStart SStart))).
Proof.
  assert (H : items_nonneg shop_db)
    by (unfold items_nonneg; simpl; constructor; [simpl; lia | constructor]).
  split; [exact H|].
  exact (run2_quantity_nonneg sale_a sale_b _ (mkSys2 shop_db SStart SStart) H).
Defined.

Lemma otp_codes_and_check_witness :
  (0 <= 1#2 < 1)%Q /\
  (exists n, (100000 <= n <= 999999)%Z /\ generateOTP (1#2) = Z_toString n /\
     String.length (generateOTP (1#2)) = 6%nat /\
     all_digits (generateOTP (1#2)) = true) /\
  (forall (storedOTP inputOTP : string) (expiresAt now : Z),
     philsms_verifyOTP storedOTP inputOTP expiresAt now = true
     <-> storedOTP = inputOTP /\ now <= expiresAt).
Proof.
  assert (Hr : (0 <= 1#2 < 1)%Q) by (unfold Qle, Qlt; simpl; lia).
  split; [exact Hr|].
  exact (otp_codes_and_check (1#2) Hr).
Defined.

Lemma verifyOTP_outcomes_witness :
  findAccountByContact "9171234567" live_db = Some pending_acc /\
  isVerified pending_acc = false /\
  latest_otp (acc_id pending_acc) live_db = Some live_otp /\
  otp live_otp = "120934"%string /\ 1000 <= expiresAt live_otp /\
  verifyOTP 1000 "9171234567" "120934" live_db =
    (set_otps (filter (fun o => negb (N.eqb (otp_id o) (otp_id live_otp))) (otps live_db))
       (set_accounts (replace_account (with_verified (account_init pending_acc))
                        (accounts live_db)) live_db),
     Ok (generateToken (acc_id pending_acc))).
Proof.
  assert (Hf : findAccountByContact "9171234567" live_db = Some pending_acc)
    by reflexivity.
  assert (Hv : isVerified pending_acc = false) by reflexivity.
  assert (Hl : latest_otp (acc_id pending_acc) live_db = Some live_otp) by reflexivity.
  assert (Hc : otp live_otp = "120934"%string) by reflexivity.
  assert (He : 1000 <= expiresAt live_otp) by (simpl; lia).
  repeat (split; [assumption|]).
  destruct (verifyOTP_outcomes 1000 "9171234567" "120934" live_db) as [_ Hacc].
  destruct (Hacc pending_acc Hf) as (_ & _ & _ & Hok).
  exact (Hok live_otp Hv Hl Hc He).
Defined.

Lemma resendOTP_outcomes_witness :
  (0 <= 1#2 < 1)%Q /\
  otp_lifetimes live_db /\
  findAccountByContact "9171234567" live_db = Some pending_acc /\
  isVerified pending_acc = false /\
  (exists m, resendOTP 200000 (1#2) "9171234567" live_db
               = (live_db, Err (TooManyRequests m))) /\
  (forall o, In o (otps_of (acc_id pending_acc) live_db) -> expiresAt o <= 301000) /\
  exists d',
    resendOTP 301000 (1#2) "9171234567" live_db = (d', Ok tt) /\
    otps_of (acc_id pending_acc) d' =
      [mkOTP (next_id live_db) (acc_id pending_acc) (generateOTP (1#2))
         (301000 + 5 * 60 * 1000) 301000].
Proof.
  assert (Hr : (0 <= 1#2 < 1)%Q) by (unfold Qle, Qlt; simpl; lia).
  assert (Hlt : otp_lifetimes live_db)
    by (unfold otp_lifetimes; cbn; constructor; [reflexivity | constructor]).
  assert (Hf : findAccountByContact "9171234567" live_db = Some pending_acc)
    by reflexivity.
  assert (Hv : isVerified pending_acc = false) by reflexivity.
  assert (Hall : forall o, In o (otps_of (acc_id pending_acc) live_db) ->
                           expiresAt o <= 301000)
    by (intros o Ho; cbn in Ho; destruct Ho as [<- | []]; cbn; lia).
  split; [exact Hr|]. split; [exact Hlt|]. split; [exact Hf|]. split; [exact Hv|].
  split.
  - destruct (resendOTP_outcomes 200000 (1#2) "9171234567" live_db pending_acc Hr Hlt Hf Hv)
      as [Hbusy _].
    apply Hbusy. exists live_otp. split; [left; reflexivity | cbn; lia].
  - split; [exact Hall|].
    destruct (resendOTP_outcomes 301000 (1#2) "9171234567" live_db pending_acc Hr Hlt Hf Hv)
      as [_ [Hok _]].
    destruct (Hok Hall) as (d' & Hrun & _ & Hof & _).
    exists d'. split; assumption.
Defined.

Lemma login_seller_approval_gate_witness :
  login_lookup "reyes" shop_db = Some seller_acc /\
  role_of seller_acc = seller /\ isVerified seller_acc = true /\
  (fun p h => String.eqb h ("pw:" ++ p)%string) "tinda123"%string (password seller_acc) = true /\
  sellerApprovalStatus seller_acc = Some approved /\
  login (fun p h => String.eqb h ("pw:" ++ p)%string) "reyes" "tinda123" shop_db
    = (shop_db, Ok (generateToken 1)).
Proof.
  assert (Hl : login_lookup "reyes" shop_db = Some seller_acc) by reflexivity.
  assert (Hr : role_of seller_acc = seller) by reflexivity.
  assert (Hv : isVerified seller_acc = true) by reflexivity.
  assert (Hp : (fun p h => String.eqb h ("pw:" ++ p)%string) "tinda123"%string (password seller_acc) = true)
    by reflexivity.
  assert (Hs : sellerApprovalStatus seller_acc = Some approved) by reflexivity.
  repeat (split; [assumption|]).
  destruct (login_seller_approval_gate (fun p h => String.eqb h ("pw:" ++ p)%string)
              "reyes" "tinda123" shop_db seller_acc Hl Hr Hv Hp) as (_ & _ & _ & Hok).
  exact (Hok Hs).
Defined.

Lemma addToCart_merge_and_getCart_total_witness :
  findItemById 10 cart_db = Some shop_item /\
  findCart 2 cart_db = Some shop_cart /\
  cart_findItem 10 shop_cart = Some (mkLine 10 1) /\
  (exists d', addToCart 2 (Some 10%N) 2 cart_db = (d', Ok tt) /\
     exists c', findCart 2 d' = Some c' /\
       map line_item (cart_items c') = map line_item (cart_items shop_cart) /\
       cart_findItem 10 c' = Some (mkLine 10 (1 + 2))) /\
  (exists m, addToCart 2 (Some 10%N) 5 cart_db = (cart_db, Err (BadRequest m))) /\
  (forall (d' : DB) (s : cart_summary),
     getCart 2 cart_db = (d', Ok s) -> d' = cart_db /\ cartTotal s = 20 * 1 + 0).
Proof.
  assert (Hi : findItemById 10 cart_db = Some shop_item) by reflexivity.
  assert (Hc : findCart 2 cart_db = Some shop_cart) by reflexivity.
  assert (Hl : cart_findItem 10 shop_cart = Some (mkLine 10 1)) by reflexivity.
  split; [exact Hi|]. split; [exact Hc|]. split; [exact Hl|].
  destruct (addToCart_merge_and_getCart_total 2 10 2 cart_db)
    as (Hmerge & _ & _ & _ & _ & _ & _ & Hget).
  split.
  - apply (Hmerge shop_item shop_cart (mkLine 10 1) Hi).
    all: simpl; try reflexivity; try lia.
    all: try (intro Hs; discriminate Hs).
    constructor; [simpl; lia | constructor].
  - split.
    + destruct (addToCart_merge_and_getCart_total 2 10 5 cart_db)
        as (_ & _ & _ & _ & _ & _ & Hover & _).
      apply (Hover shop_item shop_cart (mkLine 10 1)); simpl; try reflexivity; lia.
    + intros d' s H. apply Hget in H. exact H.
Defined.

Lemma account_approval_invariant_witness :
  Forall approval_fields_ok (accounts shop_db) /\
  Forall approval_fields_ok
    (accounts (fst (signup toy_hash 0 (1#2) "Mara" "mara@example.com" "9181112222"
                      "isda12345" "isda12345" "seller" shop_db))).
Proof.
  assert (Hinv : Forall approval_fields_ok (accounts shop_db)).
  { apply Forall_forall. intros x Hx. simpl in Hx.
    destruct Hx as [<- | [<- | []]]; unfold approval_fields_ok; simpl.
    - split; [intros _; discriminate | intro Hr; exfalso; exact (Hr eq_refl)].
    - split; [intro Hr; discriminate Hr | intros _; split; [left|split]; reflexivity]. }
  split; [exact Hinv|].
  destruct (account_approval_invariant toy_hash) as (_ & _ & _ & Hw).
  destruct (Hw shop_db (fst (signup toy_hash 0 (1#2) "Mara" "mara@example.com" "9181112222"
                      "isda12345" "isda12345" "seller" shop_db)) Hinv) as [Hs _].
  apply (Hs 0 (1#2) "Mara"%string "mara@example.com"%string "9181112222"%string
            "isda12345"%string "isda12345"%string "seller"%string (snd (signup toy_hash 0 (1#2) "Mara" "mara@example.com" "9181112222"
                             "isda12345" "isda12345" "seller" shop_db))).
  apply surjective_pairing.
Defined.

Lemma createAdminAccount_verified_login_witness :
  (forall p, toy_compare p (toy_hash p) = true) /\
  exists d' a,
    createAdminAccount toy_hash "Admin1" "admin1@example.com" "9190001111"
      "longpassword" "longpassword" shop_db = (d', Ok a) /\
    isVerified a = true /\ otps d' = otps shop_db /\
    login toy_compare "admin1" "longpassword" d' = (d', Ok (generateToken (acc_id a))).
Proof.
  assert (Hcmp : forall p, toy_compare p (toy_hash p) = true)
    by (intro p; apply String.eqb_refl).
  split; [exact Hcmp|].
  assert (Hrun : createAdminAccount toy_hash "Admin1" "admin1@example.com" "9190001111"
      "longpassword" "longpassword" shop_db
      = (fst (createAdminAccount toy_hash "Admin1" "admin1@example.com" "9190001111"
                "longpassword" "longpassword" shop_db),
         Ok (mkAccount 100 "admin1" "admin1@example.com" "9190001111"
               (toy_hash "longpassword") admin true None None None)))
    by (vm_compute; reflexivity).
  destruct (createAdminAccount_verified_login toy_hash toy_compare "Admin1"
              "admin1@example.com" "9190001111" "longpassword" shop_db _ _ Hcmp Hrun)
    as (Hv & _ & _ & _ & Ho & Hl & _).
  eexists _, _. split; [exact Hrun|]. split; [exact Hv|]. split; [exact Ho|].
  apply Hl. vm_compute. reflexivity.
Defined.

(** ** Phone numbers for the SMS gateway *)

Lemma all_digits_inv (c : ascii) (s : string) :
  all_digits (String c s) = true ->
  is_digit c = true /\ (s = EmptyString \/ all_digits s = true).
Proof.
  cbn. destruct s as [|c' s'].
  - intro H. split; [exact H | left; reflexivity].
  - intro H. apply andb_true_iff in H. destruct H as [H1 H2].
    split; [exact H1 | right; exact H2].
Qed.

Lemma keep_digits_shape (s : string) :
  keep_digits s = EmptyString \/ all_digits (keep_digits s) = true.
Proof.
  induction s as [|c s IH]; cbn; [left; reflexivity|].
  destruct (is_digit c) eqn:Hc; [|exact IH].
  right. apply all_digits_cons; assumption.
Qed.

Lemma keep_digits_id (s : string) :
  all_digits s = true -> keep_digits s = s.
Proof.
  induction s as [|c s IH]; [reflexivity|].
  intro H. apply all_digits_inv in H. destruct H as [Hc [-> | Hs]]; cbn; rewrite Hc;
    [reflexivity|]. rewrite (IH Hs). reflexivity.
Qed.

Lemma substring_0_length (s : string) : substring 0 (String.length s) s = s.
Proof. induction s as [|c s IH]; cbn; [reflexivity|]. rewrite IH. reflexivity. Qed.

Lemma digits_no_plus (s : string) :
  (s = EmptyString \/ all_digits s = true) -> String.prefix "+63" s = false.
Proof.
  intros [-> | H]; [reflexivity|].
  destruct s as [|c s]; [reflexivity|].
  apply all_digits_inv in H. destruct H as [Hc _]. cbn [String.prefix].
  destruct (ascii_dec "+" c) as [<-|]; [discriminate Hc | reflexivity].
Qed.

Lemma formatPhoneNumber_form (s : string) :
  exists t, formatPhoneNumber s = ("63" ++ t)%string /\
            (t = EmptyString \/ all_digits t = true).
Proof.
  unfold formatPhoneNumber.
  pose proof (keep_digits_shape s) as Hk.
  destruct (String.prefix "9" (keep_digits s) && Nat.eqb (String.length (keep_digits s)) 10);
    [eexists; split; [reflexivity | exact Hk]|].
  destruct (String.prefix "0" (keep_digits s)) eqn:H0.
  - destruct (keep_digits s) as [|c r] eqn:E; [discriminate H0|].
    exists r. cbn [String.length]. replace (S (String.length r) - 1)%nat with (String.length r) by lia.
    cbn [substring]. rewrite substring_0_length. split; [reflexivity|].
    destruct Hk as [Hk|Hk]; [discriminate Hk|]. apply all_digits_inv in Hk. tauto.
  - rewrite (digits_no_plus _ Hk). cbn [negb].
    eexists; split; [reflexivity | exact Hk].
Qed.

(** X1. Whatever the input, [formatPhoneNumber] returns a string that
    starts with "63" and consists of decimal digits only: the branch that
    would return the cleaned number unchanged (no "+63" prefix test can
    succeed on a digit string) is never taken. *)
Theorem formatPhoneNumber_shape (phoneNumber : string) :
  String.prefix "63" (formatPhoneNumber phoneNumber) = true /\
  all_digits (formatPhoneNumber phoneNumber) = true.
Proof.
  destruct (formatPhoneNumber_form phoneNumber) as [t [-> Ht]]. split.
  - cbn [String.prefix append].
    destruct (ascii_dec "6" "6"); [|congruence].
    destruct (ascii_dec "3" "3"); [|congruence]. destruct t; reflexivity.
  - apply all_digits_cons; [reflexivity|]. right.
    apply all_digits_cons; [reflexivity | exact Ht].
Qed.

(** X2. A contact number of the account schema's form (a 9 followed by
    nine digits) is sent to the gateway as "63" followed by the number. *)
Theorem formatPhoneNumber_mobile (contactNo : string) :
  is_ph_mobile contactNo = true ->
  formatPhoneNumber contactNo = ("63" ++ contactNo)%string.
Proof.
  intro H. destruct contactNo as [|c r]; [discriminate H|].
  unfold is_ph_mobile in H.
  apply andb_true_iff in H. destruct H as [H Hd].
  apply andb_true_iff in H. destruct H as [Hc Hl].
  apply Ascii.eqb_eq in Hc. subst c.
  unfold formatPhoneNumber. rewrite (keep_digits_id _ Hd).
  cbn [String.prefix]. rewrite Hl.
  destruct (ascii_dec "9" "9"); [|congruence]. destruct r; reflexivity.
Qed.

(** X3. When the digits of the input neither start with 0 nor form a
    ten-digit number starting with 9, "63" is put in front of the digits,
    even when they already start with 63 (so "+63 917 123 4567" becomes
    "63639171234567"). *)
Theorem formatPhoneNumber_other (phoneNumber : string) :
  String.prefix "0" (keep_digits phoneNumber) = false ->
  ~ (String.prefix "9" (keep_digits phoneNumber) = true /\
     String.length (keep_digits phoneNumber) = 10%nat) ->
  formatPhoneNumber phoneNumber = ("63" ++ keep_digits phoneNumber)%string.
Proof.
  intros H0 H9. unfold formatPhoneNumber.
  destruct (String.prefix "9" (keep_digits phoneNumber)) eqn:E9;
  destruct (Nat.eqb (String.length (keep_digits phoneNumber)) 10) eqn:El; cbn [andb];
  try (exfalso; apply H9; split; [reflexivity | apply Nat.eqb_eq; exact El]);
  rewrite H0, (digits_no_plus _ (keep_digits_shape phoneNumber)); reflexivity.
Qed.

(** ** Email normalisation *)

Lemma lower_ascii_idem (c : ascii) : lower_ascii (lower_ascii c) = lower_ascii c.
Proof. destruct c as [[] [] [] [] [] [] [] []]; reflexivity. Qed.

Lemma lower_ascii_at (c : ascii) : Ascii.eqb (lower_ascii c) "@" = Ascii.eqb c "@".
Proof. destruct c as [[] [] [] [] [] [] [] []]; reflexivity. Qed.

Lemma toLowerCase_app (a b : string) :
  toLowerCase (a ++ b) = (toLowerCase a ++ toLowerCase b)%string.
Proof. induction a as [|c a IH]; cbn; [reflexivity|]. rewrite IH. reflexivity. Qed.

Lemma toLowerCase_idem (s : string) : toLowerCase (toLowerCase s) = toLowerCase s.
Proof.
  induction s as [|c s IH]; cbn; [reflexivity|]. rewrite lower_ascii_idem, IH. reflexivity.
Qed.

Lemma includes_at_lower (s : string) :
  includes_char "@" (toLowerCase s) = includes_char "@" s.
Proof. induction s as [|c s IH]; cbn; [reflexivity|]. rewrite lower_ascii_at, IH. reflexivity. Qed.

Lemma split_on_app (a b : string) :
  includes_char "@" a = false ->
  split_on "@" (a ++ String "@" b) = a :: split_on "@" b.
Proof.
  induction a as [|c a IH]; cbn; intro H.
  - reflexivity.
  - apply orb_false_iff in H. destruct H as [Hc Ha].
    rewrite Hc, (IH Ha). reflexivity.
Qed.

Lemma split_on_parts (s : string) :
  Forall (fun w => includes_char "@" w = false /\
                   (toLowerCase s = s -> toLowerCase w = w)) (split_on "@" s).
Proof.
  induction s as [|c s IH]; cbn.
  - constructor; [split; reflexivity | constructor].
  - destruct (Ascii.eqb c "@") eqn:Hc.
    + constructor; [split; reflexivity|].
      eapply Forall_impl; [|exact IH]. cbn. intros w [H1 H2]. split; [exact H1|].
      intro Hl. injection Hl as _ Hs'. exact (H2 Hs').
    + destruct (split_on "@" s) as [|w ws] eqn:E.
      * constructor; [|constructor]. cbn. rewrite Hc. split; [reflexivity|].
        intro Hl. injection Hl as Hc' _. rewrite Hc'. reflexivity.
      * inversion IH as [|? ? [Hw1 Hw2] Hws]; subst.
        constructor.
        -- cbn. rewrite Hc, Hw1. split; [reflexivity|].
           intro Hl. injection Hl as Hc' Hs'. rewrite Hc', (Hw2 Hs'). reflexivity.
        -- eapply Forall_impl; [|exact Hws]. cbn.
           intros x [H1 H2]. split; [exact H1|]. intro Hl. injection Hl as _ Hs'.
           exact (H2 Hs').
Qed.

Lemma remove_dots_idem (s : string) : remove_dots (remove_dots s) = remove_dots s.
Proof.
  induction s as [|c s IH]; cbn; [reflexivity|].
  destruct (Ascii.eqb c ".") eqn:Hc; [exact IH|]. cbn. rewrite Hc, IH. reflexivity.
Qed.

Lemma remove_dots_parts (s : string) :
  (includes_char "@" s = false -> includes_char "@" (remove_dots s) = false) /\
  (toLowerCase s = s -> toLowerCase (remove_dots s) = remove_dots s).
Proof.
  induction s as [|c s [IH1 IH2]]; cbn; [split; reflexivity|].
  destruct (Ascii.eqb c "."); split.
  - intro H. apply orb_false_iff in H. apply IH1. tauto.
  - intro H. injection H as _ Hs'. exact (IH2 Hs').
  - intro H. apply orb_false_iff in H. cbn. rewrite (proj1 H), IH1 by tauto. reflexivity.
  - intro H. injection H as Hc' Hs'. cbn. rewrite Hc', (IH2 Hs'). reflexivity.
Qed.

Lemma normalizeEmail_lower_fixed (email : string) :
  toLowerCase email = email ->
  (forall lp dom rest, split_on "@" email <> lp :: dom :: rest \/
     (String.eqb dom "gmail.com" || String.eqb dom "googlemail.com") = false) ->
  normalizeEmail email = email.
Proof.
  intros Hl Hs. unfold normalizeEmail. rewrite Hl.
  destruct (split_on "@" email) as [|lp [|dom rest]] eqn:E; cbn [nth_error]; try reflexivity.
  destruct (Hs lp dom rest) as [H|H]; [congruence|]. rewrite H. reflexivity.
Qed.

(** X4. For a Gmail address, letter case and the dots of the part before
    the "@" do not matter: when [localPart] holds no "@",
    [localPart ++ "@gmail.com"] is normalised to the lower-cased
    [localPart] without its dots, followed by "@gmail.com"; and whatever
    follows a second "@" after the domain is dropped. *)
Theorem normalizeEmail_gmail (localPart rest : string) :
  includes_char "@" localPart = false ->
  normalizeEmail (localPart ++ "@gmail.com") =
    (remove_dots (toLowerCase localPart) ++ "@gmail.com")%string /\
  normalizeEmail (localPart ++ "@gmail.com@" ++ rest) =
    (remove_dots (toLowerCase localPart) ++ "@gmail.com")%string.
Proof.
  intro H. rewrite <- includes_at_lower in H. unfold normalizeEmail.
  rewrite !toLowerCase_app. split.
  - replace (toLowerCase "@gmail.com") with (String "@" "gmail.com") by reflexivity.
    rewrite (split_on_app _ _ H).
    change (split_on "@" "gmail.com") with ["gmail.com"%string]. reflexivity.
  - replace (toLowerCase "@gmail.com@")
      with (String "@" ("gmail.com" ++ String "@" EmptyString)) by reflexivity.
    cbn [append]. rewrite (split_on_app _ _ H).
    change (String "g" (String "m" (String "a" (String "i" (String "l" (String "."
             (String "c" (String "o" (String "m" (String "@" (toLowerCase rest)))))))))))
      with ("gmail.com" ++ String "@" (toLowerCase rest))%string.
    rewrite (split_on_app "gmail.com" _ eq_refl). reflexivity.
Qed.

(** X5. [normalizeEmail] is idempotent: normalising an address that is
    already normalised leaves it unchanged. *)
Theorem normalizeEmail_idem (email : string) :
  normalizeEmail (normalizeEmail email) = normalizeEmail email.
Proof.
  pose proof (toLowerCase_idem email) as HL.
  pose proof (split_on_parts (toLowerCase email)) as HP.
  remember (normalizeEmail email) as n eqn:Hn. unfold normalizeEmail in Hn.
  destruct (split_on "@" (toLowerCase email)) as [|lp [|dom rest]] eqn:E;
    cbn [nth_error nth] in Hn.
  - subst n. apply normalizeEmail_lower_fixed; [exact HL|].
    intros. left. rewrite E. discriminate.
  - subst n. apply normalizeEmail_lower_fixed; [exact HL|].
    intros. left. rewrite E. discriminate.
  - destruct (String.eqb dom "gmail.com" || String.eqb dom "googlemail.com") eqn:Hg.
    + inversion HP as [|? ? [Hlp1 Hlp2] HP']; subst.
      inversion HP' as [|? ? [Hd1 Hd2] _]; subst.
      specialize (Hlp2 HL). specialize (Hd2 HL).
      destruct (remove_dots_parts lp) as [Hr1 Hr2].
      specialize (Hr1 Hlp1). specialize (Hr2 Hlp2).
      unfold normalizeEmail.
      rewrite toLowerCase_app, Hr2. cbn [toLowerCase append]. rewrite Hd2.
      replace (lower_ascii "@") with "@"%char by reflexivity.
      rewrite (split_on_app _ _ Hr1).
      apply orb_true_iff in Hg.
      destruct Hg as [Hg|Hg]; apply String.eqb_eq in Hg; subst dom;
        cbn [split_on Ascii.eqb nth_error nth]; rewrite remove_dots_idem; reflexivity.
    + subst n. apply normalizeEmail_lower_fixed; [exact HL|].
      intros lp' dom' rest'. rewrite E.
      destruct (list_eq_dec string_dec (lp :: dom :: rest) (lp' :: dom' :: rest')) as [Heq|Hne];
        [right; inversion Heq; subst; exact Hg | left; exact Hne].
Qed.

(** ** Login *)

(** X6. [login] never changes the store, and it returns a token only for
    the first account the identifier matches, when that account is
    verified, the password is accepted by [comparePassword] and, for a
    seller, the approval status is neither pending nor rejected; the token
    is the account's id. *)
Theorem login_success_conditions (comparePassword : string -> string -> bool)
  (identifier pw : string) (d : DB) :
  fst (login comparePassword identifier pw d) = d /\
  (forall tok, snd (login comparePassword identifier pw d) = Ok tok ->
   exists account,
     login_lookup identifier d = Some account /\
     isVerified account = true /\
     comparePassword pw (password account) = true /\
     (role_of account = seller ->
        sellerApprovalStatus account <> Some pending /\
        sellerApprovalStatus account <> Some rejected) /\
     tok = generateToken (acc_id account)).
Proof.
  unfold login. run_m.
  destruct (login_lookup identifier d) as [account|] eqn:Hl;
    cbn [option_map account_init isVerified role_of sellerApprovalStatus password acc_id];
    [|split; [reflexivity | discriminate]].
  destruct (isVerified account) eqn:Hv; cbn; [|split; [reflexivity | discriminate]].
  destruct (role_eqb (role_of account) seller) eqn:Hr;
    [destruct (sellerApprovalStatus account) as [[| |]|] eqn:Hs|]; cbn;
    (destruct (comparePassword pw (password account)) eqn:Hp; cbn);
    (split; [reflexivity|]); intros tok Ht; try discriminate Ht;
    injection Ht as <-; exists account;
    (repeat split; try assumption; try reflexivity; try discriminate);
    intros Hs'; try congruence;
    match goal with H : role_of account = seller |- _ =>
      apply (proj2 (role_eqb_seller _)) in H; congruence end.
Qed.

(** ** Sign-up, verification and resending, composed *)

Lemma create_otp_rec (now : Z) (uid : N) (code : string) (exp : Z) (d d' : DB) (o : OTP) :
  create_otp now uid code exp d = (d', Ok o) ->
  o = mkOTP (next_id d) uid code exp now /\ accounts d' = accounts d /\
  otps d' = otps d ++ [o].
Proof.
  unfold create_otp. run_m. intro H.
  split_matches_in H; inversion H; subst; repeat split.
Qed.

Lemma filter_nil_Forall {A : Type} (f : A -> bool) (l : list A) :
  filter f l = [] -> Forall (fun x => f x = false) l.
Proof.
  induction l as [|x l IH]; cbn; intro H; [constructor|].
  destruct (f x) eqn:E; [discriminate|]. constructor; [exact E | exact (IH H)].
Qed.

Lemma existsb_false_of_find_none {A : Type} (f g : A -> bool) (l : list A) :
  find f l = None -> (forall x, g x = true -> f x = true) -> existsb g l = false.
Proof.
  induction l as [|x l IH]; cbn; intros Hf Hgf; [reflexivity|].
  destruct (f x) eqn:Ef; [discriminate|].
  destruct (g x) eqn:Eg; [rewrite (Hgf x Eg) in Ef; discriminate|].
  exact (IH Hf Hgf).
Qed.

Lemma find_replace_account (p : Account -> bool) (a a' : Account) (l : list Account) :
  find p l = Some a -> p a' = true -> acc_id a' = acc_id a ->
  find p (replace_account a' l) = Some a'.
Proof.
  induction l as [|x l IH]; cbn; intros Hf Hp Hid; [discriminate|].
  destruct (p x) eqn:Ex.
  - injection Hf as <-. rewrite Hid, N.eqb_refl, Hp. reflexivity.
  - destruct (N.eqb (acc_id x) (acc_id a')); cbn; [rewrite Hp; reflexivity|].
    rewrite Ex. exact (IH Hf Hp Hid).
Qed.

Lemma signup_store (hash : string -> string) (now : Z) (r : Q)
  (uname mail contact pw cp roleName : string) (d d' : DB) (id : N) :
  signup hash now r uname mail contact pw cp roleName d = (d', Ok id) ->
  exists a,
    id = next_id d /\ acc_id a = id /\ contactNo a = contact /\ isVerified a = false /\
    existsb (fun b => String.eqb (contactNo b) contact) (accounts d) = false /\
    accounts d' = accounts d ++ [a] /\
    otps d' = otps d ++ [mkOTP (N.succ (next_id d)) id (generateOTP r)
                           (now + 5 * 60 * 1000) now].
Proof.
  unfold signup. run_m. intro H.
  split_matches_in H; try discriminate.
  inversion H; subst; clear H.
  match goal with
  | Hn : find _ (accounts d) = None,
    Ha : account_create _ _ _ = (_, Ok ?acc), Ho : create_otp _ _ _ _ _ = (_, Ok _) |- _ =>
      apply account_create_ok in Ha as [Ha Hd]; apply create_otp_rec in Ho as [Ho [Hacc Hotps]];
      exists acc;
      assert (Hc : existsb (fun b => String.eqb (contactNo b) contact) (accounts d) = false)
        by (apply (existsb_false_of_find_none _ _ _ Hn);
            intros x Hx; rewrite Hx, !orb_true_r; reflexivity)
  end.
  subst. unfold accountPreSave, new_account.
  cbn in Hotps, Hacc |- *. rewrite Hotps, Hacc.
  destruct (role_eqb r0 seller); cbn;
    repeat split; first [assumption | reflexivity].
Qed.

(** X7. Signing up and then verifying with the code that was sent
    succeeds at any time within the five minutes that follow: when
    [signup] succeeds (with matching passwords) on a store that holds no
    OTP record for the new account's id, [verifyOTP] at a time [t] with
    [now <= t <= now + 300000], on the contact number and the code
    [generateOTP r], returns the session token of the new account. *)
Theorem signup_then_verifyOTP (hash : string -> string) (now t : Z) (r : Q)
  (uname mail contact pw roleName : string) (d d' : DB) (id : N) :
  otps_of (next_id d) d = [] ->
  signup hash now r uname mail contact pw pw roleName d = (d', Ok id) ->
  now <= t <= now + 300000 ->
  exists d'', verifyOTP t contact (generateOTP r) d' = (d'', Ok (generateToken id)).
Proof.
  intros Hnone Hs Ht.
  apply signup_store in Hs as (a & Hid & Haid & Hct & Hv & Hc & Hacc & Hotps).
  assert (Hf : findAccountByContact contact d' = Some a).
  { unfold findAccountByContact. rewrite Hacc.
    apply find_app_last; [exact Hc | rewrite Hct; apply String.eqb_refl]. }
  assert (Hl : latest_otp id d' =
               Some (mkOTP (N.succ (next_id d)) id (generateOTP r) (now + 5 * 60 * 1000) now)).
  { unfold latest_otp. rewrite Hotps. apply latest_otp_last; [|reflexivity].
    rewrite Hid. apply filter_nil_Forall. exact Hnone. }
  unfold verifyOTP. run_m. rewrite Hf. cbn [option_map].
  rewrite account_init_isVerified, account_init_id, Hv, Haid, Hl. cbn.
  replace (philsms_verifyOTP (generateOTP r) (generateOTP r) (now + 300000) t)
    with true by (symmetry; apply philsms_verifyOTP_spec; split; [reflexivity | lia]).
  unfold save_account, delete_otp. run_m. eexists. reflexivity.
Qed.

(** X8. A successful verification cannot be repeated: after [verifyOTP]
    succeeds on a contact number, every later [verifyOTP] and [resendOTP]
    on the same number fails with BadRequest "Account is already
    verified" and leaves the store unchanged. *)
Theorem verifyOTP_once (now : Z) (contact code : string) (d d' : DB) (tok : session_token) :
  verifyOTP now contact code d = (d', Ok tok) ->
  (forall now' code',
     verifyOTP now' contact code' d' = (d', Err (BadRequest "Account is already verified"))) /\
  (forall now' r',
     resendOTP now' r' contact d' = (d', Err (BadRequest "Account is already verified"))).
Proof.
  unfold verifyOTP. run_m. intro H.
  destruct (findAccountByContact contact d) as [account|] eqn:Hf;
    cbn [option_map] in H; [|discriminate H].
  destruct (isVerified (account_init account)); [discriminate H|].
  destruct (latest_otp (acc_id (account_init account)) d) as [rec|]; [|discriminate H].
  destruct (philsms_verifyOTP (otp rec) code (expiresAt rec) now); cbn in H; [|discriminate H].
  unfold save_account, delete_otp in H. run_m. inversion H; subst; clear H.
  assert (Hf' : findAccountByContact contact
                  (set_otps (filter (fun o => negb (N.eqb (otp_id o) (otp_id rec))) (otps d))
                     (set_accounts (replace_account (with_verified (account_init account))
                                      (accounts d)) d))
                = Some (with_verified (account_init account))).
  { unfold findAccountByContact in *. cbn.
    apply (find_replace_account _ account); [exact Hf | | reflexivity].
    apply find_some in Hf as [_ Hf]. exact Hf. }
  split.
  - intros now' code'. unfold verifyOTP. run_m. rewrite Hf'. reflexivity.
  - intros now' r'. unfold resendOTP. run_m. rewrite Hf'. reflexivity.
Qed.

(** X9. A resent code works: when [resendOTP] at time [now] with random
    value [r] succeeds on a contact number, [verifyOTP] at any time [t]
    with [now <= t <= now + 300000], with the code [generateOTP r],
    succeeds and returns the token of the account the number belongs
    to. *)
Theorem resendOTP_then_verifyOTP (now t : Z) (r : Q) (contact : string) (d d' : DB) :
  resendOTP now r contact d = (d', Ok tt) ->
  now <= t <= now + 300000 ->
  exists account d'',
    findAccountByContact contact d = Some account /\
    verifyOTP t contact (generateOTP r) d' = (d'', Ok (generateToken (acc_id account))).
Proof.
  intros H Ht. unfold resendOTP in H. run_m.
  destruct (findAccountByContact contact d) as [account|] eqn:Hf; [|discriminate H].
  destruct (isVerified account) eqn:Hv; [discriminate H|].
  assert (Hgo : exists d1, delete_otps_of (acc_id account) d = (d1, Ok tt) /\
                  create_otp now (acc_id account) (generateOTP r) (now + 300000) d1
                  = (d', Ok (mkOTP (next_id d) (acc_id account) (generateOTP r)
                                (now + 300000) now))).
  { destruct (latest_otp (acc_id account) d) as [last|];
      [destruct (expiresAt last >? now); [discriminate H|]|]; cbn in H;
      unfold delete_otps_of in *; run_m;
      destruct (create_otp now (acc_id account) (generateOTP r) (now + 300000)
                  (set_otps (otps_not_of (acc_id account) d) d)) as [d2 [o|e]] eqn:Ho;
      inversion H; subst; clear H;
      (eexists; split; [reflexivity|]);
      rewrite Ho; pose proof (create_otp_rec _ _ _ _ _ _ _ Ho) as [-> _]; reflexivity. }
  destruct Hgo as (d1 & Hdel & Hcr).
  unfold delete_otps_of in Hdel. run_m. injection Hdel as <-.
  apply create_otp_rec in Hcr as [_ [Hacc Hotps]]. cbn in Hacc, Hotps.
  exists account. eexists. split; [reflexivity|].
  assert (Hf' : findAccountByContact contact d' = Some account)
    by (unfold findAccountByContact in *; rewrite Hacc; exact Hf).
  assert (Hl : latest_otp (acc_id account) d' =
               Some (mkOTP (next_id d) (acc_id account) (generateOTP r) (now + 300000) now)).
  { unfold latest_otp. rewrite Hotps. apply latest_otp_last; [|reflexivity].
    apply otps_not_of_none. }
  unfold verifyOTP. run_m. rewrite Hf'. cbn [option_map].
  rewrite account_init_isVerified, account_init_id, Hv, Hl. cbn.
  replace (philsms_verifyOTP (generateOTP r) (generateOTP r) (now + 300000) t)
    with true by (symmetry; apply philsms_verifyOTP_spec; split; [reflexivity | lia]).
  unfold save_account, delete_otp. run_m. reflexivity.
Qed.

(** ** Cart updates, removals and summaries *)

Lemma findCart_user (uid : N) (d : DB) (c : Cart) :
  findCart uid d = Some c -> cart_user c = uid.
Proof. unfold findCart. intro H. apply find_some in H as [_ H]. apply N.eqb_eq. exact H. Qed.

Lemma cart_save_err (c : Cart) (d d' : DB) (e : error) :
  cart_save c d = (d', Err e) -> d' = d.
Proof.
  unfold cart_save. run_m. destruct (existsb _ _); intro H; inversion H; reflexivity.
Qed.


Lemma find_map_other_cart (u u' : N) (c : Cart) (l : list Cart) :
  u <> u' -> cart_user c = u' ->
  find (fun c' => N.eqb (cart_user c') u)
    (map (fun c' => if N.eqb (cart_user c') u' then c else c') l)
  = find (fun c' => N.eqb (cart_user c') u) l.
Proof.
  intros Hne Hc. induction l as [|x l IH]; cbn; [reflexivity|].
  destruct (N.eqb (cart_user x) u') eqn:E; cbn.
  - apply N.eqb_eq in E. rewrite E, Hc.
    replace (N.eqb u' u) with false by (symmetry; apply N.eqb_neq; congruence).
    exact IH.
  - destruct (N.eqb (cart_user x) u); [reflexivity | exact IH].
Qed.

Lemma cart_save_found (c : Cart) (c0 : Cart) (d d' : DB) :
  findCart (cart_user c) d = Some c0 ->
  cart_save c d = (d', Ok tt) ->
  findCart (cart_user c) d' = Some c /\
  (forall u, u <> cart_user c -> findCart u d' = findCart u d) /\
  items d' = items d /\ accounts d' = accounts d /\ otps d' = otps d.
Proof.
  intros Hf. unfold cart_save. run_m.
  assert (He : existsb (fun c' => N.eqb (cart_user c') (cart_user c)) (carts d) = true).
  { unfold findCart in Hf. apply find_some in Hf as [Hin Hf].
    apply existsb_exists. exists c0. split; assumption. }
  destruct (existsb (fun l => line_quantity l <=? 0) (cart_items c)); [discriminate|].
  rewrite He. intro H. injection H as <-.
  split; [|split; [|repeat split]].
  - unfold findCart. cbn. apply find_map_replace_cart; [reflexivity | exact He].
  - intros u Hu. unfold findCart. cbn. apply find_map_other_cart; [exact Hu | reflexivity].
Qed.

Lemma filter_pos (f : CartLine -> bool) (ls : list CartLine) :
  Forall (fun l => 0 < line_quantity l) ls ->
  Forall (fun l => 0 < line_quantity l) (filter f ls).
Proof.
  intro H. apply Forall_forall. intros x Hx. apply filter_In in Hx as [Hx _].
  rewrite Forall_forall in H. exact (H x Hx).
Qed.

Lemma cart_findItem_removed (iid : N) (c : Cart) :
  cart_findItem iid (cart_removeItem iid c) = None.
Proof.
  unfold cart_findItem, cart_removeItem, set_cart_items. cbn.
  induction (cart_items c) as [|l ls IH]; cbn; [reflexivity|].
  destruct (N.eqb (line_item l) iid) eqn:E; cbn; [exact IH|]. rewrite E. exact IH.
Qed.

(** X10. Setting the quantity of a cart line to 0 removes every line of
    that item from the user's cart, keeping the other lines in their
    order; it neither looks the item up nor checks it, so it succeeds even
    when the item was deleted or deactivated.  The other users' carts are
    untouched. *)
Theorem updateCartItem_zero_removes (userId iid : N) (d : DB) (c : Cart) :
  findCart userId d = Some c ->
  cart_findItem iid c <> None ->
  Forall (fun l => 0 < line_quantity l) (cart_items c) ->
  exists d' c',
    updateCartItem userId (Some iid) (Some 0) d = (d', Ok tt) /\
    findCart userId d' = Some c' /\
    cart_items c' = filter (fun l => negb (N.eqb (line_item l) iid)) (cart_items c) /\
    cart_findItem iid c' = None /\
    (forall u, u <> userId -> findCart u d' = findCart u d).
Proof.
  intros Hf Hl Hpos. pose proof (findCart_user _ _ _ Hf) as Hu.
  destruct (cart_findItem iid c) as [l|] eqn:El; [|congruence].
  destruct (cart_save_ok (cart_removeItem iid c) d) as [d' [Hs _]].
  { apply filter_pos. exact Hpos. }
  destruct (cart_save_found (cart_removeItem iid c) c d d') as [Hf' [Ho _]];
    [cbn; rewrite Hu; exact Hf | exact Hs|].
  exists d', (cart_removeItem iid c). split; [|split; [|split; [|split]]].
  - unfold updateCartItem. run_m. rewrite (Z.ltb_irrefl 0). cbn beta iota.
    rewrite Hf, El. exact Hs.
  - cbn in Hf'. rewrite Hu in Hf'. exact Hf'.
  - reflexivity.
  - apply cart_findItem_removed.
  - intros u Hne. apply Ho. cbn. congruence.
Qed.

(** X11. When [updateCartItem] succeeds with a non-zero quantity [q], the
    item exists and is active, [0 < q <= ] its stock, the user's cart had
    a line for it, and afterwards the first line of the item holds exactly
    [q] (it is set, not added to), while the cart keeps the same items in
    the same order.  The other users' carts are untouched. *)
Theorem updateCartItem_sets_quantity (userId iid : N) (q : Z) (d d' : DB) :
  q <> 0 ->
  updateCartItem userId (Some iid) (Some q) d = (d', Ok tt) ->
  exists item c c',
    findItemById iid d = Some item /\ isActive item = true /\ 0 < q <= quantity item /\
    findCart userId d = Some c /\ cart_findItem iid c <> None /\
    findCart userId d' = Some c' /\
    cart_findItem iid c' = Some (mkLine iid q) /\
    map line_item (cart_items c') = map line_item (cart_items c) /\
    (forall u, u <> userId -> findCart u d' = findCart u d).
Proof.
  intros Hq. unfold updateCartItem. run_m.
  destruct (q <? 0) eqn:Hneg; [discriminate|].
  destruct (findCart userId d) as [c|] eqn:Hf; [|discriminate].
  destruct (cart_findItem iid c) as [l|] eqn:El; [|discriminate].
  replace (q =? 0) with false by (symmetry; apply Z.eqb_neq; exact Hq).
  destruct (findItemById iid d) as [item|] eqn:Hi; [|discriminate].
  destruct (isActive item) eqn:Ha; cbn; [|discriminate].
  destruct (q >? quantity item) eqn:Hst; [discriminate|].
  intro Hs. pose proof (findCart_user _ _ _ Hf) as Hu.
  assert (Hc' : cart_updateItemQuantity iid q c
                = set_cart_items (update_first_line iid q (cart_items c)) c)
    by (unfold cart_updateItemQuantity; rewrite El; reflexivity).
  rewrite Hc' in Hs.
  destruct (cart_save_found (set_cart_items (update_first_line iid q (cart_items c)) c) c d d')
    as [Hf' [Ho _]]; [cbn; rewrite Hu; exact Hf | exact Hs|].
  cbn in Hf', Ho. rewrite Hu in Hf', Ho.
  exists item, c, (set_cart_items (update_first_line iid q (cart_items c)) c).
  repeat split; try assumption; try congruence.
  - apply Z.ltb_ge in Hneg. lia.
  - rewrite Z.gtb_ltb in Hst. apply Z.ltb_ge in Hst. exact Hst.
  - unfold cart_findItem. cbn. apply (update_first_line_find _ _ _ l). exact El.
  - cbn. apply update_first_line_items.
Qed.

(** X12. [removeFromCart] refuses an item that has no line in the user's
    cart with NotFound "Item not found in cart"; when it succeeds, the
    user's cart has no line for the item left and keeps its other lines
    in order, and the other users' carts are untouched.  A call that
    fails changes nothing. *)
Theorem removeFromCart_effect (userId iid : N) (d d' : DB) (r : res unit) :
  removeFromCart userId (Some iid) d = (d', r) ->
  (forall e, r = Err e -> d' = d) /\
  (forall c, findCart userId d = Some c -> cart_findItem iid c = None ->
     r = Err (NotFound "Item not found in cart")) /\
  (r = Ok tt ->
   exists c c', findCart userId d = Some c /\ findCart userId d' = Some c' /\
     cart_items c' = filter (fun l => negb (N.eqb (line_item l) iid)) (cart_items c) /\
     cart_findItem iid c' = None /\
     (forall u, u <> userId -> findCart u d' = findCart u d)).
Proof.
  unfold removeFromCart. run_m.
  destruct (findCart userId d) as [c|] eqn:Hf;
    [|intro H; inversion H; subst; repeat split; try discriminate; congruence].
  destruct (cart_findItem iid c) as [l|] eqn:El;
    [|intro H; inversion H; subst; repeat split; try discriminate; congruence].
  intro Hs. pose proof (findCart_user _ _ _ Hf) as Hu.
  split; [intros e He; subst r; exact (cart_save_err _ _ _ _ Hs)|].
  split; [intros c0 Hc0 Hn; congruence|].
  intro Hr. subst r.
  destruct (cart_save_found (cart_removeItem iid c) c d d') as [Hf' [Ho _]];
    [cbn; rewrite Hu; exact Hf | exact Hs|].
  exists c, (cart_removeItem iid c). cbn in Hf', Ho. rewrite Hu in Hf', Ho.
  repeat split; try assumption. apply cart_findItem_removed.
Qed.

(** X13. [clearCart] fails only when the user has no cart (NotFound
    "Cart not found", nothing changed); after it succeeds the cart is
    still there but empty, so [getCartSummary] answers with zero items,
    zero sellers, total 0 and "₱0.00", and [getCart] with no lines and
    zero totals, exactly as for a user without a cart. *)
Theorem clearCart_then_summary (userId : N) (d : DB) :
  (findCart userId d = None ->
     clearCart userId d = (d, Err (NotFound "Cart not found"))) /\
  (forall c, findCart userId d = Some c ->
   exists d', clearCart userId d = (d', Ok tt) /\
     findCart userId d' = Some (mkCart userId []) /\
     getCartSummary userId d' =
       (d', Ok (mkCartTotals 0 0 0 (peso_sign ++ "0.00")%string)) /\
     getCart userId d' = (d', Ok (mkCartSummary [] 0 0 0))).
Proof.
  split.
  - intro Hn. unfold clearCart. run_m. rewrite Hn. reflexivity.
  - intros c Hf. pose proof (findCart_user _ _ _ Hf) as Hu.
    destruct (cart_save_ok (cart_clearItems c) d (Forall_nil _)) as [d' [Hs _]].
    destruct (cart_save_found (cart_clearItems c) c d d') as [Hf' _];
      [cbn; rewrite Hu; exact Hf | exact Hs|].
    cbn in Hf'. rewrite Hu in Hf'.
    replace (cart_clearItems c) with (mkCart userId []) in Hf'
      by (unfold cart_clearItems, set_cart_items; rewrite Hu; reflexivity).
    exists d'. split; [unfold clearCart; run_m; rewrite Hf; exact Hs|].
    split; [exact Hf'|].
    split; [unfold getCartSummary | unfold getCart]; run_m; rewrite Hf'; reflexivity.
Qed.

Lemma NoDup_map_filter {A B : Type} (g : A -> B) (f : A -> bool) (l : list A) :
  NoDup (map g l) -> NoDup (map g (filter f l)).
Proof.
  induction l as [|x l IH]; cbn; intro H; [constructor|].
  inversion H; subst. destruct (f x); cbn; [|apply IH; assumption].
  constructor; [|apply IH; assumption].
  intro Hin. apply in_map_iff in Hin as [y [Hy Hin]].
  apply filter_In in Hin as [Hin _]. apply (in_map g) in Hin. congruence.
Qed.

(** X14. Updating a line, removing an item and clearing a cart never put
    two lines for the same item in a cart: if every stored cart has
    distinct items before such a call, every stored cart has distinct
    items after it, whatever its outcome. *)
Theorem cart_ops_keep_lines_distinct (userId : N) (itemId : option N)
  (quantity_in : option Z) (d : DB) :
  Forall cart_lines_distinct (carts d) ->
  Forall cart_lines_distinct (carts (fst (updateCartItem userId itemId quantity_in d))) /\
  Forall cart_lines_distinct (carts (fst (removeFromCart userId itemId d))) /\
  Forall cart_lines_distinct (carts (fst (clearCart userId d))).
Proof.
  intro Hl.
  assert (Hc : forall c0, findCart userId d = Some c0 -> cart_lines_distinct c0)
    by (intros ? Hf; apply find_some in Hf as [Hf _];
        rewrite Forall_forall in Hl; apply Hl; exact Hf).
  assert (Hsave : forall c, cart_lines_distinct c ->
                  Forall cart_lines_distinct (carts (fst (cart_save c d))))
    by (intros c Hd; destruct (cart_save c d) as [d' r] eqn:E;
        exact (cart_save_distinct c d d' r Hl Hd E)).
  assert (Hrem : forall iid c0, findCart userId d = Some c0 ->
                 cart_lines_distinct (cart_removeItem iid c0))
    by (intros iid c0 Hf; apply NoDup_map_filter; exact (Hc c0 Hf)).
  split; [|split].
  - unfold updateCartItem. destruct itemId as [iid|]; [|exact Hl].
    destruct quantity_in as [q|]; [|exact Hl].
    destruct (q <? 0); [exact Hl|]. run_m.
    destruct (findCart userId d) as [c|] eqn:Hf; [|exact Hl].
    destruct (cart_findItem iid c) as [l|] eqn:El; [|exact Hl].
    destruct (q =? 0); [apply Hsave, Hrem; first [exact Hf | reflexivity]|].
    destruct (findItemById iid d) as [item|]; [|exact Hl].
    destruct (isActive item); cbn; [|exact Hl].
    destruct (q >? quantity item); [exact Hl|].
    apply Hsave. unfold cart_lines_distinct, cart_updateItemQuantity. rewrite El. cbn.
    rewrite update_first_line_items. apply Hc; first [exact Hf | reflexivity].
  - unfold removeFromCart. destruct itemId as [iid|]; [|exact Hl]. run_m.
    destruct (findCart userId d) as [c|] eqn:Hf; [|exact Hl].
    destruct (cart_findItem iid c); [|exact Hl].
    apply Hsave, Hrem; first [exact Hf | reflexivity].
  - unfold clearCart. run_m.
    destruct (findCart userId d) as [c|] eqn:Hf; [|exact Hl].
    apply Hsave. constructor.
Qed.

Lemma summary_lines_total (d : DB) (ls : list CartLine) :
  forall (t : Z) (ids : list N), fst (summary_lines d ls t ids) = t + cart_sum d ls.
Proof.
  induction ls as [|l ls IH]; intros t ids; cbn; [lia|].
  destruct (findItemById (line_item l) d) as [it|].
  - rewrite IH. unfold cart_sum. lia.
  - rewrite IH. reflexivity.
Qed.

Lemma summary_lines_getCart (d : DB) (ls : list CartLine) :
  forall (t : Z) (ids : list N) data t' ids',
  getCart_lines d ls t ids = Some (data, t', ids') ->
  summary_lines d ls t ids = (t', ids').
Proof.
  induction ls as [|l ls IH]; intros t ids data t' ids' H; cbn in H |- *.
  - inversion H; subst. reflexivity.
  - destruct (findItemById (line_item l) d) as [it|]; [|exact (IH _ _ _ _ _ H)].
    destruct (findAccountById (item_seller it) d) as [s|] eqn:Hs; [|discriminate].
    assert (Hid : acc_id s = item_seller it).
    { unfold findAccountById in Hs. apply find_some in Hs as [_ Hs].
      apply N.eqb_eq. exact Hs. }
    rewrite Hid in H.
    destruct (getCart_lines d ls _ _) as [[[data0 t0] ids0]|] eqn:E; [|discriminate].
    inversion H; subst. exact (IH _ _ _ _ _ E).
Qed.

(** X15. [getCartSummary] always answers and never changes the store:
    its [cartTotal] is the sum of [itemPrice * quantity] over the lines
    of the user's cart whose item still exists, [itemCount] counts all the
    lines (dangling ones included), [formattedTotal] is the peso sign
    followed by the total with two decimals; and whenever [getCart]
    answers too, the two agree on the total, the item count and the
    seller count. *)
Theorem getCartSummary_agrees (userId : N) (d : DB) :
  exists s,
    getCartSummary userId d = (d, Ok s) /\
    sum_cartTotal s = match findCart userId d with
                      | Some c => cart_sum d (cart_items c)
                      | None => 0 end /\
    sum_itemCount s = match findCart userId d with
                      | Some c => List.length (cart_items c)
                      | None => 0%nat end /\
    formattedTotal s = (peso_sign ++ toFixed2 (sum_cartTotal s))%string /\
    (forall d' gs, getCart userId d = (d', Ok gs) ->
       sum_cartTotal s = cartTotal gs /\ sum_itemCount s = itemCount gs /\
       sum_sellerCount s = sellerCount gs).
Proof.
  unfold getCartSummary. run_m.
  destruct (findCart userId d) as [c|] eqn:Hf.
  - pose proof (summary_lines_total d (cart_items c) 0 []) as Ht.
    destruct (summary_lines d (cart_items c) 0 []) as [t ids] eqn:Es. cbn in Ht.
    eexists. split; [reflexivity|]. cbn.
    split; [exact Ht|]. split; [reflexivity|]. split; [reflexivity|].
    intros d' gs. unfold getCart. run_m. rewrite Hf.
    destruct (getCart_lines d (cart_items c) 0 []) as [[[data t'] ids']|] eqn:Eg;
      [|discriminate].
    intro H. injection H as _ <-. cbn.
    apply summary_lines_getCart in Eg. rewrite Es in Eg. injection Eg as -> ->.
    repeat split; reflexivity.
  - eexists. split; [reflexivity|]. cbn.
    split; [reflexivity|]. split; [reflexivity|]. split; [reflexivity|].
    intros d' gs H. unfold getCart in H. run_m. rewrite Hf in H. cbn in H.
    injection H as _ <-. repeat split; reflexivity.
Qed.

(** X16. [updateCartItem] refuses a missing item id or quantity and a
    negative quantity with BadRequest, a user without a cart with
    NotFound "Cart not found", and an item without a line in the cart
    with NotFound "Item not found in cart"; a call that fails changes
    nothing. *)
Theorem updateCartItem_errors (userId : N) (itemId : option N) (quantity_in : option Z)
  (d d' : DB) (e : error) :
  (itemId = None \/ quantity_in = None ->
     exists m, updateCartItem userId itemId quantity_in d = (d, Err (BadRequest m))) /\
  (forall q, quantity_in = Some q -> q < 0 -> itemId <> None ->
     exists m, updateCartItem userId itemId quantity_in d = (d, Err (BadRequest m))) /\
  (forall iid q, itemId = Some iid -> quantity_in = Some q -> 0 <= q ->
     findCart userId d = None ->
     updateCartItem userId itemId quantity_in d = (d, Err (NotFound "Cart not found"))) /\
  (forall iid q c, itemId = Some iid -> quantity_in = Some q -> 0 <= q ->
     findCart userId d = Some c -> cart_findItem iid c = None ->
     updateCartItem userId itemId quantity_in d =
       (d, Err (NotFound "Item not found in cart"))) /\
  (updateCartItem userId itemId quantity_in d = (d', Err e) -> d' = d).
Proof.
  split; [|split; [|split; [|split]]].
  - intros [-> | ->]; [|destruct itemId]; eexists; reflexivity.
  - intros q -> Hq Hi. destruct itemId as [iid|]; [|congruence].
    unfold updateCartItem. replace (q <? 0) with true by (symmetry; apply Z.ltb_lt; exact Hq).
    eexists; reflexivity.
  - intros iid q -> -> Hq Hn. unfold updateCartItem.
    replace (q <? 0) with false by (symmetry; apply Z.ltb_ge; exact Hq).
    run_m. rewrite Hn. reflexivity.
  - intros iid q c -> -> Hq Hf Hn. unfold updateCartItem.
    replace (q <? 0) with false by (symmetry; apply Z.ltb_ge; exact Hq).
    run_m. rewrite Hf, Hn. reflexivity.
  - unfold updateCartItem. destruct itemId as [iid|]; [|intro H; inversion H; reflexivity].
    destruct quantity_in as [q|]; [|intro H; inversion H; reflexivity].
    destruct (q <? 0); [intro H; inversion H; reflexivity|]. run_m.
    destruct (findCart userId d) as [c|]; [|intro H; inversion H; reflexivity].
    destruct (cart_findItem iid c); [|intro H; inversion H; reflexivity].
    destruct (q =? 0); [apply cart_save_err|].
    destruct (findItemById iid d) as [item|]; [|intro H; inversion H; reflexivity].
    destruct (isActive item); cbn; [|intro H; inversion H; reflexivity].
    destruct (q >? quantity item); [intro H; inversion H; reflexivity|].
    apply cart_save_err.
Qed.

(** ** Deleting and deactivating items *)

Lemma find_none_of_not_in {A : Type} (key : A -> N) (id : N) (l : list A) :
  ~ In id (map key l) -> find (fun x => N.eqb (key x) id) l = None.
Proof.
  induction l as [|x l IH]; cbn; intro H; [reflexivity|].
  destruct (N.eqb (key x) id) eqn:E; [apply N.eqb_eq in E; tauto|].
  apply IH. tauto.
Qed.

Lemma remove_first_item_find (id id' : N) (l : list Item) :
  NoDup (map item_id l) ->
  find (fun x => N.eqb (item_id x) id') (remove_first_item id l) =
  if N.eqb id' id then None else find (fun x => N.eqb (item_id x) id') l.
Proof.
  induction l as [|x l IH]; cbn; intro Hn.
  - destruct (N.eqb id' id); reflexivity.
  - inversion Hn as [|? ? Hx Hl]; subst.
    destruct (N.eqb (item_id x) id) eqn:E.
    + apply N.eqb_eq in E. subst id.
      destruct (N.eqb id' (item_id x)) eqn:E'.
      * apply N.eqb_eq in E'. subst id'. apply find_none_of_not_in. exact Hx.
      * rewrite N.eqb_sym, E'. reflexivity.
    + cbn. rewrite (IH Hl).
      destruct (N.eqb (item_id x) id') eqn:E2; [|reflexivity].
      apply N.eqb_eq in E2. subst id'. rewrite E. reflexivity.
Qed.

Lemma deleteItem_success (caller itemId : N) (d d' : DB) :
  deleteItem caller itemId d = (d', Ok tt) -> NoDup (map item_id (items d)) ->
  exists item, findItemById itemId d = Some item /\ item_seller item = caller /\
    findItemById itemId d' = None /\
    (forall id, id <> itemId -> findItemById id d' = findItemById id d) /\
    accounts d' = accounts d /\ carts d' = carts d /\ receipts d' = receipts d.
Proof.
  unfold deleteItem. run_m. intros H Hn.
  destruct (findItemById itemId d) as [item|] eqn:Hf; [|discriminate].
  destruct (N.eqb (item_seller item) caller) eqn:Hs; cbn; [|discriminate].
  inversion H; subst; clear H.
  exists item. split; [reflexivity|].
  split; [apply N.eqb_eq; exact Hs|].
  unfold findItemById. cbn. rewrite (remove_first_item_find _ _ _ Hn).
  rewrite N.eqb_refl. split; [reflexivity|].
  split; [|repeat split].
  intros id Hid. rewrite (remove_first_item_find _ _ _ Hn).
  replace (N.eqb id itemId) with false by (symmetry; apply N.eqb_neq; exact Hid).
  reflexivity.
Qed.

(** X17. Only the owner can delete an item: [deleteItem] (and
    [deleteItemHard], which runs the same code) fails with NotFound when
    the item does not exist and with Unauthorized when the caller is not
    its seller, changing nothing; when it succeeds the caller was the
    seller, and (ids being unique) the item is gone while every other
    item, account, cart and receipt is as before. *)
Theorem deleteItem_owner_only (caller itemId : N) (d d' : DB) (r : res unit) :
  deleteItem caller itemId d = (d', r) ->
  (findItemById itemId d = None ->
     r = Err (NotFound "Item not found") /\ d' = d) /\
  (forall item, findItemById itemId d = Some item -> item_seller item <> caller ->
     r = Err (Unauthorized "You can only delete your own items") /\ d' = d) /\
  (r = Ok tt -> NoDup (map item_id (items d)) ->
   exists item, findItemById itemId d = Some item /\ item_seller item = caller /\
     findItemById itemId d' = None /\
     (forall id, id <> itemId -> findItemById id d' = findItemById id d) /\
     accounts d' = accounts d /\ carts d' = carts d /\ receipts d' = receipts d).
Proof.
  intro H. split; [|split].
  - intro Hn. revert H. unfold deleteItem. run_m. rewrite Hn.
    intro H. inversion H; subst. split; reflexivity.
  - intros item Hf Hne. revert H. unfold deleteItem. run_m. rewrite Hf.
    replace (N.eqb (item_seller item) caller) with false
      by (symmetry; apply N.eqb_neq; exact Hne).
    cbn. intro H. inversion H; subst. split; reflexivity.
  - intros Hr Hn. subst r. exact (deleteItem_success caller itemId d d' H Hn).
Qed.

Lemma cart_sum_without (d d' : DB) (itemId : N) (ls : list CartLine) :
  findItemById itemId d' = None ->
  (forall id, id <> itemId -> findItemById id d' = findItemById id d) ->
  cart_sum d' ls = cart_sum d (filter (fun l => negb (N.eqb (line_item l) itemId)) ls).
Proof.
  intros Hn Ho. induction ls as [|l ls IH]; [reflexivity|].
  unfold cart_sum in *. cbn.
  destruct (N.eqb (line_item l) itemId) eqn:E; cbn.
  - apply N.eqb_eq in E. rewrite E, Hn. exact IH.
  - rewrite Ho by (apply N.eqb_neq; exact E). rewrite IH. reflexivity.
Qed.

(** X18. Deleting an item does not touch the carts: the lines of the
    deleted item stay in every cart, but afterwards they no longer count
    towards the cart total (which equals the total of the cart without
    those lines), [addToCart] of that item with a positive quantity fails
    with NotFound "Item not found", and so does any [sellItem] of it. *)
Theorem deleteItem_dangling_lines (caller itemId : N) (d d' : DB) :
  NoDup (map item_id (items d)) ->
  deleteItem caller itemId d = (d', Ok tt) ->
  carts d' = carts d /\
  (forall ls, cart_sum d' ls =
     cart_sum d (filter (fun l => negb (N.eqb (line_item l) itemId)) ls)) /\
  (forall userId q, 0 < q ->
     addToCart userId (Some itemId) q d' = (d', Err (NotFound "Item not found"))) /\
  (forall f seller q buyer notes,
     sellItem f itemId seller q buyer notes d' = (d', Err (NotFound "Item not found"))).
Proof.
  intros Hn H.
  destruct (deleteItem_success caller itemId d d' H Hn)
    as (item & _ & _ & Hgone & Hother & _ & Hc & _).
  split; [exact Hc|]. split; [intro ls; apply cart_sum_without; assumption|].
  split.
  - intros userId q Hq. unfold addToCart.
    replace (q =? 0) with false by (symmetry; apply Z.eqb_neq; lia).
    replace (q <=? 0) with false by (symmetry; apply Z.leb_gt; lia).
    run_m. rewrite Hgone. reflexivity.
  - intros f seller q buyer notes. unfold sellItem, sell_check. run_m.
    rewrite Hgone. reflexivity.
Qed.


Lemma setItemActiveStatus_stored (caller itemId : N) (b : bool) (d d' : DB) (it : Item) :
  setItemActiveStatus caller itemId (Some b) d = (d', Ok it) ->
  item_seller it = caller /\ isActive it = b /\ findItemById itemId d' = Some it.
Proof.
  unfold setItemActiveStatus. run_m.
  destruct (findItemById itemId d) as [item|] eqn:Hf; [|discriminate].
  destruct (N.eqb (item_seller item) caller) eqn:Hs; cbn; [|discriminate].
  intro H. inversion H; subst; clear H.
  pose proof (find_item_id _ _ _ Hf) as Hid.
  split; [apply N.eqb_eq; exact Hs|]. split; [reflexivity|].
  unfold findItemById in *. cbn. rewrite <- Hid in Hf |- *.
  exact (find_replace_item (set_active b item) (items d) item Hf).
Qed.

(** X20. A deactivated item can be neither added to a cart nor sold:
    after [setItemActiveStatus] with [isActive = false] succeeds,
    [addToCart] of the item with a positive quantity fails with
    BadRequest "Item is no longer available", and [sellItem] of it by its
    seller fails with BadRequest "Cannot sell inactive item"; neither
    call changes the store. *)
Theorem deactivated_item_refused (caller itemId : N) (d d' : DB) (it : Item) :
  setItemActiveStatus caller itemId (Some false) d = (d', Ok it) ->
  (forall userId q, 0 < q ->
     addToCart userId (Some itemId) q d' =
       (d', Err (BadRequest "Item is no longer available"))) /\
  (forall f q buyer notes,
     sellItem f itemId caller q buyer notes d' =
       (d', Err (BadRequest "Cannot sell inactive item"))).
Proof.
  intro H. destruct (setItemActiveStatus_stored _ _ _ _ _ _ H) as (Hs & Ha & Hf').
  split.
  - intros userId q Hq. unfold addToCart.
    replace (q =? 0) with false by (symmetry; apply Z.eqb_neq; lia).
    replace (q <=? 0) with false by (symmetry; apply Z.leb_gt; lia).
    run_m. rewrite Hf', Ha. reflexivity.
  - intros f q buyer notes. unfold sellItem, sell_check. run_m.
    rewrite Hf', Hs, N.eqb_refl, Ha. reflexivity.
Qed.

(** ** Seller approval decisions *)

Lemma find_id_replace_account (a' : Account) (l : list Account) :
  existsb (fun b => N.eqb (acc_id b) (acc_id a')) l = true ->
  find (fun b => N.eqb (acc_id b) (acc_id a')) (replace_account a' l) = Some a'.
Proof.
  induction l as [|x l IH]; cbn; intro H; [discriminate|].
  destruct (N.eqb (acc_id x) (acc_id a')) eqn:E; cbn.
  - rewrite N.eqb_refl. reflexivity.
  - rewrite E. exact (IH H).
Qed.

Lemma no_pending_after_decision (a' : Account) (l : list Account) :
  sellerApprovalStatus a' <> Some pending ->
  find (pending_seller_filter (acc_id a')) (replace_account a' l) = None.
Proof.
  intro Hs. induction l as [|x l IH]; cbn; [reflexivity|].
  destruct (N.eqb (acc_id x) (acc_id a')) eqn:E; cbn.
  - unfold pending_seller_filter at 1.
    destruct (sellerApprovalStatus a') as [[| |]|]; [congruence| | |];
      rewrite ?andb_false_r; exact IH.
  - unfold pending_seller_filter at 1. rewrite E. exact IH.
Qed.

(** X21. An approval decision is final: when
    [updateSellerApprovalStatus] succeeds for [sellerId], the account
    with that id was a pending seller, is now stored with the requested
    status ("approved" or "rejected"), [approvedBy] the admin and
    [approvedAt] the time of the call; any later call for the same
    seller, whatever its status argument, fails (NotFound "Pending seller
    account not found" for a valid status) and changes nothing. *)
Theorem updateSellerApprovalStatus_final (hash : string -> string) (now : Z)
  (adminId sellerId : N) (status : string) (d d' : DB) (a : Account) :
  updateSellerApprovalStatus hash now adminId sellerId status d = (d', Ok a) ->
  ((status = "approved"%string /\ sellerApprovalStatus a = Some approved) \/
   (status = "rejected"%string /\ sellerApprovalStatus a = Some rejected)) /\
  role_of a = seller /\ acc_id a = sellerId /\
  approvedBy a = Some adminId /\ approvedAt a = Some now /\
  findAccountById sellerId d' = Some a /\
  (forall hash' now' adminId' status',
     String.eqb status' "approved" || String.eqb status' "rejected" = true ->
     updateSellerApprovalStatus hash' now' adminId' sellerId status' d' =
       (d', Err (NotFound "Pending seller account not found"))).
Proof.
  unfold updateSellerApprovalStatus.
  destruct (String.eqb status "approved") eqn:Ea;
    [|destruct (String.eqb status "rejected") eqn:Er; [|discriminate]];
    cbn beta iota; run_m;
    (destruct (find (pending_seller_filter sellerId) (accounts d)) as [sa|] eqn:Hf;
     [|discriminate]);
    unfold account_save; run_m; intro H; inversion H; subst; clear H;
    apply find_some in Hf as [Hin Hp]; unfold pending_seller_filter in Hp;
    apply andb_true_iff in Hp as [Hp _]; apply andb_true_iff in Hp as [Hid Hr];
    apply N.eqb_eq in Hid; apply role_eqb_seller in Hr;
    (assert (Hex : existsb (fun b => N.eqb (acc_id b) sellerId) (accounts d) = true)
      by (apply existsb_exists; exists sa; split; [exact Hin | apply N.eqb_eq; exact Hid]));
    unfold accountPreSave; cbn;
    (split; [first [left; split; [apply String.eqb_eq; exact Ea | reflexivity]
                   | right; split; [apply String.eqb_eq; exact Er | reflexivity]]|]);
    (split; [exact Hr|]); (split; [exact Hid|]); (split; [reflexivity|]);
    (split; [reflexivity|]);
    (split; [unfold findAccountById; cbn; rewrite <- Hid;
             match goal with |- find _ (replace_account ?a' _) = _ =>
               apply (find_id_replace_account a') end;
             cbn; rewrite Hid; exact Hex|]);
    intros hash' now' adminId' status' Hs';
    (destruct (String.eqb status' "approved") eqn:Ea';
     [|destruct (String.eqb status' "rejected") eqn:Er'; [|discriminate]]);
    cbn beta iota; run_m; rewrite <- Hid; cbn [accounts set_accounts];
    match goal with |- context [find _ (replace_account ?a' _)] =>
      rewrite (no_pending_after_decision a') by (cbn; discriminate) end;
    reflexivity.
Qed.

(** ** Deleting administrator accounts *)

Lemma NoDup_map_same {A : Type} (key : A -> N) (l : list A) (a b : A) :
  NoDup (map key l) -> In a l -> In b l -> key a = key b -> a = b.
Proof.
  induction l as [|x l IH]; cbn; intros Hn Ha Hb Hk; [contradiction|].
  inversion Hn as [|? ? Hx Hl]; subst.
  destruct Ha as [<-|Ha]; destruct Hb as [<-|Hb]; try reflexivity.
  - exfalso. apply Hx. rewrite Hk. apply in_map. exact Hb.
  - exfalso. apply Hx. rewrite <- Hk. apply in_map. exact Ha.
  - exact (IH Hl Ha Hb Hk).
Qed.

Lemma remove_first_account_in (id : N) (l : list Account) (a : Account) :
  In a l -> acc_id a <> id -> In a (remove_first_account id l).
Proof.
  induction l as [|x l IH]; cbn; intros Ha Hne; [contradiction|].
  destruct (N.eqb (acc_id x) id) eqn:E.
  - destruct Ha as [<-|Ha]; [apply N.eqb_eq in E; contradiction | exact Ha].
  - destruct Ha as [<-|Ha]; [left; reflexivity | right; exact (IH Ha Hne)].
Qed.

Lemma remove_first_account_gone (id : N) (l : list Account) :
  NoDup (map acc_id l) -> find (fun a => N.eqb (acc_id a) id) (remove_first_account id l) = None.
Proof.
  induction l as [|x l IH]; cbn; intro Hn; [reflexivity|].
  inversion Hn as [|? ? Hx Hl]; subst.
  destruct (N.eqb (acc_id x) id) eqn:E.
  - apply N.eqb_eq in E. subst id. apply find_none_of_not_in. exact Hx.
  - cbn. rewrite E. exact (IH Hl).
Qed.

(** X22. [deleteAdminAccount] deletes only administrators: it fails with
    NotFound "Admin account not found", changing nothing, unless the id
    is that of an admin account; with unique account ids, a successful
    call removes exactly that account, so afterwards no account has the
    id, every other account (in particular every buyer, seller and
    superadmin) is still stored, and the other collections are
    unchanged. *)
Theorem deleteAdminAccount_admin_only (adminId : N) (d d' : DB) (r : res unit) :
  NoDup (map acc_id (accounts d)) ->
  deleteAdminAccount adminId d = (d', r) ->
  (forall e, r = Err e -> e = NotFound "Admin account not found" /\ d' = d) /\
  (forall a, findAccountById adminId d = Some a -> role_of a <> admin ->
     r = Err (NotFound "Admin account not found")) /\
  (r = Ok tt ->
     (exists a, findAccountById adminId d = Some a /\ role_of a = admin) /\
     findAccountById adminId d' = None /\
     (forall b, In b (accounts d) -> acc_id b <> adminId -> In b (accounts d')) /\
     items d' = items d /\ otps d' = otps d /\ carts d' = carts d).
Proof.
  intro Hn. unfold deleteAdminAccount. run_m.
  destruct (find (fun a => N.eqb (acc_id a) adminId && role_eqb (role_of a) admin)
              (accounts d)) as [x|] eqn:Hf.
  - apply find_some in Hf as [Hin Hx]. apply andb_true_iff in Hx as [Hid Hr].
    apply N.eqb_eq in Hid.
    assert (Hfx : findAccountById adminId d = Some x).
    { unfold findAccountById.
      destruct (find (fun a => N.eqb (acc_id a) adminId) (accounts d)) as [y|] eqn:Hy.
      - apply find_some in Hy as [Hiny Hy]. apply N.eqb_eq in Hy.
        f_equal. apply (NoDup_map_same acc_id (accounts d)); [exact Hn | exact Hiny | exact Hin | congruence].
      - exfalso. apply (find_none _ _ Hy) in Hin. rewrite Hid, N.eqb_refl in Hin. discriminate. }
    intro H. inversion H; subst; clear H.
    split; [discriminate|]. split.
    + intros a Ha Hna. rewrite Hfx in Ha. injection Ha as <-. destruct (role_of x); cbn in Hr; congruence.
    + intros _. split; [exists x; split; [exact Hfx | destruct (role_of x); cbn in Hr; congruence]|].
      split; [unfold findAccountById; cbn; apply remove_first_account_gone; exact Hn|].
      split; [|repeat split].
      intros b Hb Hne. apply remove_first_account_in; assumption.
  - intro H. inversion H; subst; clear H.
    split; [intros e He; injection He as <-; split; reflexivity|].
    split; [intros; reflexivity | discriminate].
Qed.

(** ** Witnesses of the properties above *)

Lemma formatPhoneNumber_mobile_witness :
  is_ph_mobile "9123456789" = true /\
  formatPhoneNumber "9123456789" = "639123456789"%string.
Proof.
  split; [vm_compute; reflexivity|].
  apply formatPhoneNumber_mobile. vm_compute. reflexivity.
Defined.

Lemma formatPhoneNumber_other_witness :
  keep_digits "+63 917 123 4567" = "639171234567"%string /\
  formatPhoneNumber "+63 917 123 4567" = ("63" ++ "639171234567")%string.
Proof.
  split; [vm_compute; reflexivity|].
  apply (formatPhoneNumber_other "+63 917 123 4567").
  - vm_compute. reflexivity.
  - vm_compute. intros [H _]. discriminate H.
Defined.

Lemma normalizeEmail_gmail_witness :
  includes_char "@" "Juan.Dela.Cruz" = false /\
  normalizeEmail ("Juan.Dela.Cruz" ++ "@gmail.com") =
    (remove_dots (toLowerCase "Juan.Dela.Cruz") ++ "@gmail.com")%string /\
  normalizeEmail ("Juan.Dela.Cruz" ++ "@gmail.com@" ++ "spam") =
    (remove_dots (toLowerCase "Juan.Dela.Cruz") ++ "@gmail.com")%string.
Proof.
  split; [reflexivity|]. apply normalizeEmail_gmail. reflexivity.
Defined.

Lemma signup_then_verifyOTP_witness :
  otps_of (next_id shop_db) shop_db = [] /\
  signup toy_hash 0 (1#2) "Cruz" "cruz@example.com" "9170000000" "isda12345" "isda12345"
    "buyer" shop_db =
  (fst (signup toy_hash 0 (1#2) "Cruz" "cruz@example.com" "9170000000" "isda12345"
          "isda12345" "buyer" shop_db), Ok 100%N) /\
  exists d'', verifyOTP 120000 "9170000000" (generateOTP (1#2))
    (fst (signup toy_hash 0 (1#2) "Cruz" "cruz@example.com" "9170000000" "isda12345"
            "isda12345" "buyer" shop_db)) = (d'', Ok (generateToken 100)).
Proof.
  split; [reflexivity|]. split; [vm_compute; reflexivity|].
  apply (signup_then_verifyOTP toy_hash 0 120000 (1#2) "Cruz" "cruz@example.com"
           "9170000000" "isda12345" "buyer" shop_db).
  - reflexivity.
  - vm_compute. reflexivity.
  - lia.
Defined.

Lemma verifyOTP_once_witness :
  verifyOTP 100000 "9171234567" "120934" otp_db =
    (fst (verifyOTP 100000 "9171234567" "120934" otp_db), Ok (generateToken 4)) /\
  verifyOTP 150000 "9171234567" "120934" (fst (verifyOTP 100000 "9171234567" "120934" otp_db))
    = (fst (verifyOTP 100000 "9171234567" "120934" otp_db),
       Err (BadRequest "Account is already verified")).
Proof.
  assert (H : verifyOTP 100000 "9171234567" "120934" otp_db =
    (fst (verifyOTP 100000 "9171234567" "120934" otp_db), Ok (generateToken 4)))
    by (vm_compute; reflexivity).
  split; [exact H|]. apply (proj1 (verifyOTP_once _ _ _ _ _ _ H)).
Defined.

Lemma resendOTP_then_verifyOTP_witness :
  resendOTP 300000 (1#2) "9171234567" otp_db =
    (fst (resendOTP 300000 (1#2) "9171234567" otp_db), Ok tt) /\
  exists account d'',
    findAccountByContact "9171234567" otp_db = Some account /\
    verifyOTP 450000 "9171234567" (generateOTP (1#2))
      (fst (resendOTP 300000 (1#2) "9171234567" otp_db))
    = (d'', Ok (generateToken (acc_id account))).
Proof.
  assert (H : resendOTP 300000 (1#2) "9171234567" otp_db =
    (fst (resendOTP 300000 (1#2) "9171234567" otp_db), Ok tt)) by (vm_compute; reflexivity).
  split; [exact H|]. apply (resendOTP_then_verifyOTP 300000 450000 (1#2) _ _ _ H). lia.
Defined.

Lemma updateCartItem_zero_removes_witness :
  findCart 2 cart_db = Some shop_cart /\
  exists d' c',
    updateCartItem 2 (Some 10%N) (Some 0) cart_db = (d', Ok tt) /\
    findCart 2 d' = Some c' /\
    cart_items c' = filter (fun l => negb (N.eqb (line_item l) 10)) (cart_items shop_cart) /\
    cart_findItem 10 c' = None /\
    (forall u, u <> 2%N -> findCart u d' = findCart u cart_db).
Proof.
  split; [reflexivity|]. apply updateCartItem_zero_removes.
  - reflexivity.
  - vm_compute. discriminate.
  - constructor; [cbn; lia | constructor].
Defined.

Lemma updateCartItem_sets_quantity_witness :
  updateCartItem 2 (Some 10%N) (Some 3) cart_db =
    (fst (updateCartItem 2 (Some 10%N) (Some 3) cart_db), Ok tt) /\
  exists item c c',
    findItemById 10 cart_db = Some item /\ isActive item = true /\ 0 < 3 <= quantity item /\
    findCart 2 cart_db = Some c /\ cart_findItem 10 c <> None /\
    findCart 2 (fst (updateCartItem 2 (Some 10%N) (Some 3) cart_db)) = Some c' /\
    cart_findItem 10 c' = Some (mkLine 10 3) /\
    map line_item (cart_items c') = map line_item (cart_items c) /\
    (forall u, u <> 2%N ->
       findCart u (fst (updateCartItem 2 (Some 10%N) (Some 3) cart_db)) = findCart u cart_db).
Proof.
  assert (H : updateCartItem 2 (Some 10%N) (Some 3) cart_db =
    (fst (updateCartItem 2 (Some 10%N) (Some 3) cart_db), Ok tt)) by (vm_compute; reflexivity).
  split; [exact H|]. apply (updateCartItem_sets_quantity 2 10 3 _ _ ltac:(discriminate) H).
Defined.

Lemma removeFromCart_effect_witness :
  removeFromCart 2 (Some 10%N) cart_db =
    (fst (removeFromCart 2 (Some 10%N) cart_db), Ok tt) /\
  exists c c', findCart 2 cart_db = Some c /\
    findCart 2 (fst (removeFromCart 2 (Some 10%N) cart_db)) = Some c' /\
    cart_items c' = filter (fun l => negb (N.eqb (line_item l) 10)) (cart_items c) /\
    cart_findItem 10 c' = None /\
    (forall u, u <> 2%N ->
       findCart u (fst (removeFromCart 2 (Some 10%N) cart_db)) = findCart u cart_db).
Proof.
  assert (H : removeFromCart 2 (Some 10%N) cart_db =
    (fst (removeFromCart 2 (Some 10%N) cart_db), Ok tt)) by (vm_compute; reflexivity).
  split; [exact H|].
  destruct (removeFromCart_effect 2 10 cart_db _ _ H) as [_ [_ Hok]]. exact (Hok eq_refl).
Defined.

Lemma cart_ops_keep_lines_distinct_witness :
  Forall cart_lines_distinct (carts cart_db) /\
  Forall cart_lines_distinct
    (carts (fst (updateCartItem 2 (Some 10%N) (Some 2) cart_db))) /\
  Forall cart_lines_distinct (carts (fst (removeFromCart 2 (Some 10%N) cart_db))) /\
  Forall cart_lines_distinct (carts (fst (clearCart 2 cart_db))).
Proof.
  assert (H : Forall cart_lines_distinct (carts cart_db)).
  { constructor; [|constructor]. unfold cart_lines_distinct. cbn.
    constructor; [intros [] | constructor]. }
  split; [exact H|]. exact (cart_ops_keep_lines_distinct 2 (Some 10%N) (Some 2) cart_db H).
Defined.

Lemma deleteItem_owner_only_witness :
  deleteItem 2 10 shop_db = (shop_db, Err (Unauthorized "You can only delete your own items")) /\
  deleteItem 1 10 shop_db = (fst (deleteItem 1 10 shop_db), Ok tt) /\
  findItemById 10 (fst (deleteItem 1 10 shop_db)) = None /\
  carts (fst (deleteItem 1 10 shop_db)) = carts shop_db.
Proof.
  assert (H2 : deleteItem 2 10 shop_db =
    (shop_db, Err (Unauthorized "You can only delete your own items"))) by (vm_compute; reflexivity).
  assert (H1 : deleteItem 1 10 shop_db = (fst (deleteItem 1 10 shop_db), Ok tt))
    by (vm_compute; reflexivity).
  assert (Hn : NoDup (map item_id (items shop_db))) by (constructor; [intros [] | constructor]).
  split; [exact H2|]. split; [exact H1|].
  destruct (deleteItem_owner_only 1 10 _ _ _ H1) as [_ [_ Hok]].
  destruct (Hok eq_refl Hn) as (item & _ & _ & Hgone & _ & _ & Hc & _).
  split; [exact Hgone | exact Hc].
Defined.

Lemma deleteItem_dangling_lines_witness :
  NoDup (map item_id (items cart_db)) /\
  deleteItem 1 10 cart_db = (fst (deleteItem 1 10 cart_db), Ok tt) /\
  carts (fst (deleteItem 1 10 cart_db)) = carts cart_db /\
  (forall ls, cart_sum (fst (deleteItem 1 10 cart_db)) ls =
     cart_sum cart_db (filter (fun l => negb (N.eqb (line_item l) 10)) ls)) /\
  (forall userId q, 0 < q ->
     addToCart userId (Some 10%N) q (fst (deleteItem 1 10 cart_db)) =
       (fst (deleteItem 1 10 cart_db), Err (NotFound "Item not found"))) /\
  (forall f seller q buyer notes,
     sellItem f 10 seller q buyer notes (fst (deleteItem 1 10 cart_db)) =
       (fst (deleteItem 1 10 cart_db), Err (NotFound "Item not found"))).
Proof.
  assert (Hn : NoDup (map item_id (items cart_db))) by (constructor; [intros [] | constructor]).
  assert (H : deleteItem 1 10 cart_db = (fst (deleteItem 1 10 cart_db), Ok tt))
    by (vm_compute; reflexivity).
  split; [exact Hn|]. split; [exact H|]. exact (deleteItem_dangling_lines 1 10 _ _ Hn H).
Defined.


Lemma deactivated_item_refused_witness :
  setItemActiveStatus 1 10 (Some false) shop_db =
    (fst (setItemActiveStatus 1 10 (Some false) shop_db), Ok (set_active false shop_item)) /\
  (forall userId q, 0 < q ->
     addToCart userId (Some 10%N) q (fst (setItemActiveStatus 1 10 (Some false) shop_db)) =
       (fst (setItemActiveStatus 1 10 (Some false) shop_db),
        Err (BadRequest "Item is no longer available"))).
Proof.
  assert (H : setItemActiveStatus 1 10 (Some false) shop_db =
    (fst (setItemActiveStatus 1 10 (Some false) shop_db), Ok (set_active false shop_item)))
    by (vm_compute; reflexivity).
  split; [exact H|]. exact (proj1 (deactivated_item_refused 1 10 _ _ _ H)).
Defined.

Lemma updateSellerApprovalStatus_final_witness :
  updateSellerApprovalStatus toy_hash 5000 3 5 "approved" approval_db =
    (fst (updateSellerApprovalStatus toy_hash 5000 3 5 "approved" approval_db),
     Ok (set_approval (Some approved) (Some 3%N) (Some 5000) pending_seller)) /\
  findAccountById 5 (fst (updateSellerApprovalStatus toy_hash 5000 3 5 "approved" approval_db))
    = Some (set_approval (Some approved) (Some 3%N) (Some 5000) pending_seller).
Proof.
  assert (H : updateSellerApprovalStatus toy_hash 5000 3 5 "approved" approval_db =
    (fst (updateSellerApprovalStatus toy_hash 5000 3 5 "approved" approval_db),
     Ok (set_approval (Some approved) (Some 3%N) (Some 5000) pending_seller)))
    by (vm_compute; reflexivity).
  split; [exact H|].
  destruct (updateSellerApprovalStatus_final _ _ _ _ _ _ _ _ H) as (_ & _ & _ & _ & _ & Hf & _).
  exact Hf.
Defined.

Lemma deleteAdminAccount_admin_only_witness :
  NoDup (map acc_id (accounts approval_db)) /\
  deleteAdminAccount 3 approval_db = (fst (deleteAdminAccount 3 approval_db), Ok tt) /\
  findAccountById 3 (fst (deleteAdminAccount 3 approval_db)) = None /\
  In pending_seller (accounts (fst (deleteAdminAccount 3 approval_db))).
Proof.
  assert (Hn : NoDup (map acc_id (accounts approval_db))).
  { constructor; [cbn; intros [H|[]]; discriminate H | constructor; [intros [] | constructor]]. }
  assert (H : deleteAdminAccount 3 approval_db =
    (fst (deleteAdminAccount 3 approval_db), Ok tt)) by (vm_compute; reflexivity).
  split; [exact Hn|]. split; [exact H|].
  destruct (deleteAdminAccount_admin_only 3 _ _ _ Hn H) as [_ [_ Hok]].
  destruct (Hok eq_refl) as (_ & Hgone & Hkeep & _).
  split; [exact Hgone|]. apply Hkeep; [right; left; reflexivity | discriminate].
Defined.
